(** * Expense assistant: the rule engine of [expense_agent/agent.py]

    A shallow embedding of the four tool functions of the expense agent,
    [search_expense_policy], [validate_expense_data], [categorize_expense]
    and [generate_expense_summary], the properties of their specification,
    and further properties of the code.

    Conventions of the model.
    - A Python [float] is an IEEE binary64 number ([spec_float] at
      precision 53), with Python's operators on it.
    - A [str] is a [string] of bytes (UTF-8); [in], [==], [<] and [sort] on
      strings are the byte-wise ones, which agree with Python's on code points.
    - An expense is the dict the tools receive, with the keys the code reads;
      a key may be absent ([dict.get] with its default).  [amount] holds any
      scalar a caller may send (the code converts it with [float()]); the
      other keys hold values of their documented types.
    - What the interpreter contributes ([str.lower], [float()] on text, the
      text of a float or of an exception, [datetime.fromisoformat], the order
      of [list(set(...))]) is a parameter, the class [Python].
    - The environment variables and the search service that
      [search_expense_policy] reads are parameters of its model. *)

From Stdlib Require Import ZArith List String Ascii Bool Lia Permutation.
From Stdlib Require Import SpecFloat DecimalString Sorted.
From Stdlib Require OrderedTypeEx.
Import ListNotations.

Open Scope string_scope.
Open Scope Z_scope.

(** ** Binary64 floats *)

Module F64.

Definition prec : Z := 53.
Definition emax : Z := 1024.

Definition float : Type := spec_float.

(** [float(n)] for an int in range, correctly rounded. *)
Definition of_Z (z : Z) : float := binary_normalize prec emax z 0 false.

Definition zero : float := S754_zero false.

Definition add : float -> float -> float := SFadd prec emax.
Definition div : float -> float -> float := SFdiv prec emax.

(** [x > y], [x < y], [x <= y]: false when an operand is a NaN. *)
Definition gtb (x y : float) : bool := SFltb y x.
Definition ltb (x y : float) : bool := SFltb x y.
Definition leb (x y : float) : bool := SFleb x y.

(** The float a decimal literal [n/d] denotes (0.95 is [decimal 95 100]):
    both operands are exact, so the quotient is the nearest float. *)
Definition decimal (n d : Z) : float := div (of_Z n) (of_Z d).

Definition is_infinity (x : float) : bool :=
  match x with S754_infinity _ => true | _ => false end.

(** Python's two-argument [max(a, b)] and [min(a, b)]: the first argument
    unless the second is strictly beyond it. *)
Definition max (a b : float) : float := if gtb b a then b else a.
Definition min (a b : float) : float := if ltb b a then b else a.

End F64.

(** ** Strings *)

Definition lower_char (c : ascii) : ascii :=
  let n := N_of_ascii c in
  if ((65 <=? n) && (n <=? 90))%N then ascii_of_N (n + 32) else c.

(** [str.lower] on ASCII text. *)
Fixpoint lower_ascii (s : string) : string :=
  match s with
  | EmptyString => EmptyString
  | String c s' => String (lower_char c) (lower_ascii s')
  end.

Fixpoint is_ascii (s : string) : bool :=
  match s with
  | EmptyString => true
  | String c s' => (N_of_ascii c <? 128)%N && is_ascii s'
  end.

(** [sub in s]. *)
Fixpoint contains (sub s : string) : bool :=
  String.prefix sub s ||
  match s with
  | EmptyString => false
  | String _ s' => contains sub s'
  end.

(** [any(word in s for word in words)]. *)
Definition any_in (words : list string) (s : string) : bool :=
  existsb (fun w => contains w s) words.

(** [date.replace('Z', '+00:00')]. *)
Fixpoint replace_Z (s : string) : string :=
  match s with
  | EmptyString => EmptyString
  | String c s' =>
      if Ascii.eqb c "Z"%char then "+00:00" ++ replace_Z s'
      else String c (replace_Z s')
  end.

(** [str(n)] for a non-negative int. *)
Definition str_of_nat (n : nat) : string :=
  NilEmpty.string_of_uint (Nat.to_uint n).

(** A string is truthy when it is not empty. *)
Definition truthy (s : string) : bool :=
  match s with EmptyString => false | _ => true end.

(** ** Values and exceptions *)

(** What the [amount] key (and the [amount] argument of the categorizer)
    may hold. *)
Inductive value :=
| VNone
| VBool (b : bool)
| VInt (z : Z)
| VFloat (f : F64.float)
| VStr (s : string).

Inductive exn :=
| ValueError_float (s : string)
    (* float(s): could not convert string to float *)
| TypeError_float (v : value)
    (* float(None): argument must be a string or a real number *)
| OverflowError_float (z : Z)
    (* float(n): int too large to convert to float *)
| TypeError_order (v : value)
    (* v > 75: not supported between these types *)
| Error_datetime (last first : string).
    (* fromisoformat of either date, or their subtraction, raised *)

Inductive result (A : Type) :=
| Ok (a : A)
| Raise (e : exn).

Arguments Ok {A} a.
Arguments Raise {A} e.

Definition bind {A B} (r : result A) (k : A -> result B) : result B :=
  match r with
  | Ok a => k a
  | Raise e => Raise e
  end.

Notation "x <- r ;; k" := (bind r (fun x => k))
  (at level 61, r at next level, right associativity).

(** [[f(x) for x in l]], stopping at the first exception. *)
Fixpoint map_result {A B} (f : A -> result B) (l : list A) : result (list B) :=
  match l with
  | [] => Ok []
  | x :: l' => y <- f x ;; ys <- map_result f l' ;; Ok (y :: ys)
  end.

(** [d.get(key, default)] on a key that may be absent. *)
Definition get {A} (field : option A) (default : A) : A :=
  match field with
  | Some x => x
  | None => default
  end.

(** ** The interpreter *)

Class Python := {
  (** [s.lower()] *)
  str_lower : string -> string;
  str_lower_ascii : forall s, is_ascii s = true -> str_lower s = lower_ascii s;
  (** [float(s)] on a string; [None] when it raises [ValueError] *)
  float_of_str : string -> option F64.float;
  (** [str(x)] of a float, as an f-string renders it *)
  str_of_float : F64.float -> string;
  (** [str(e)] *)
  str_of_exn : exn -> string;
  (** [datetime.fromisoformat(s).weekday()]; [None] when it raises *)
  iso_weekday : string -> option nat;
  (** [(datetime.fromisoformat(a) - datetime.fromisoformat(b)).days];
      [None] when it raises *)
  iso_days : string -> string -> option Z;
  (** [list(set(l))]: the elements of [l] once each, in some order *)
  list_of_set : list string -> list string;
  list_of_set_perm :
    forall l, Permutation (list_of_set l) (nodup string_dec l)
}.

(** ** Expense records *)

Module Expense.

(** The keys of an expense dict that the tools read; [None] is an absent
    key. *)
Record t := {
  amount : option value;
  category : option string;
  description : option string;
  date : option string;
  has_receipt : option bool;
  location : option string
}.

End Expense.

(** ** validate_expense_data *)

Module Validation.

Record t := {
  is_valid : bool;
  violations : list string;
  warnings : list string;
  required_documents : list string;
  policy_references : list string
}.

Definition initial : t :=
  {| is_valid := true; violations := []; warnings := [];
     required_documents := []; policy_references := [] |}.

(** [validation_results["violations"].append(v)] and its siblings. *)
Definition add_violation (v : string) (r : t) : t :=
  {| is_valid := is_valid r; violations := violations r ++ [v];
     warnings := warnings r; required_documents := required_documents r;
     policy_references := policy_references r |}.

Definition add_warning (w : string) (r : t) : t :=
  {| is_valid := is_valid r; violations := violations r;
     warnings := warnings r ++ [w]; required_documents := required_documents r;
     policy_references := policy_references r |}.

Definition add_document (d : string) (r : t) : t :=
  {| is_valid := is_valid r; violations := violations r;
     warnings := warnings r; required_documents := required_documents r ++ [d];
     policy_references := policy_references r |}.

Definition add_reference (p : string) (r : t) : t :=
  {| is_valid := is_valid r; violations := violations r;
     warnings := warnings r; required_documents := required_documents r;
     policy_references := policy_references r ++ [p] |}.

(** [validation_results["is_valid"] = False]. *)
Definition set_invalid (r : t) : t :=
  {| is_valid := false; violations := violations r;
     warnings := warnings r; required_documents := required_documents r;
     policy_references := policy_references r |}.

(** An entry of [tool_context.state["validation_history"]]. *)
Record history_entry := {
  timestamp : string;
  expense : Expense.t;
  entry_is_valid : bool;
  violations_count : nat
}.

(** The tool context, as far as the validator touches it: whether
    [tool_context.state] is truthy, and its ["validation_history"] list when
    the key is there. *)
Record tool_context := {
  state_truthy : bool;
  validation_history : option (list history_entry)
}.

End Validation.

Section Validator.

Context {py : Python}.

(** [float(v)]. *)
Definition to_float (v : value) : result F64.float :=
  match v with
  | VNone => Raise (TypeError_float v)
  | VBool b => Ok (F64.of_Z (Z.b2z b))
  | VInt z =>
      let f := F64.of_Z z in
      if F64.is_infinity f then Raise (OverflowError_float z) else Ok f
  | VFloat f => Ok f
  | VStr s =>
      match float_of_str s with
      | Some f => Ok f
      | None => Raise (ValueError_float s)
      end
  end.

(** [amount > n] for a float [amount] and a small int literal [n]. *)
Definition exceeds (amount : F64.float) (n : Z) : bool :=
  F64.gtb amount (F64.of_Z n).

(** The weekend check, with its own [try ... except: pass]. *)
Definition weekend_check (date : string) (r : Validation.t) : Validation.t :=
  if truthy date then
    match iso_weekday (replace_Z date) with
    | Some d =>
        if (5 <=? d)%nat
        then Validation.add_warning "Weekend expense flagged for review" r
        else r
    | None => r
    end
  else r.

(** The body of the outer [try] up to the session update: the rules, in
    the order of the code.  It raises only where [float()] does. *)
Definition validation_rules (expense_data : Expense.t) : result Validation.t :=
  amount <- to_float (get (Expense.amount expense_data) (VInt 0)) ;;
  let category := str_lower (get (Expense.category expense_data) "") in
  let description := get (Expense.description expense_data) "" in
  let date := get (Expense.date expense_data) "" in
  let r := Validation.initial in
  let r :=
    if (category =? "meals")%string then
      let r :=
        if exceeds amount 100 then
          Validation.set_invalid
            (Validation.add_reference "Section 3.2 - Meal Allowances"
               (Validation.add_violation
                  ("Meal expense of $" ++ str_of_float amount
                   ++ " exceeds daily policy limit of $100") r))
        else r in
      let r :=
        if exceeds amount 25 then
          Validation.add_document "Receipt required for meals over $25" r
        else r in
      if exceeds amount 50 && negb (contains "business" (str_lower description))
      then Validation.add_warning
             "High meal expense should include business justification" r
      else r
    else if (category =? "lodging")%string then
      if exceeds amount 300 then
        Validation.set_invalid
          (Validation.add_reference "Section 4.1 - Accommodation Limits"
             (Validation.add_violation
                ("Lodging expense of $" ++ str_of_float amount
                 ++ " exceeds nightly limit of $300") r))
      else r
    else if (category =? "transportation")%string then
      let r :=
        if any_in ["uber"; "lyft"; "taxi"] (str_lower description) then
          if exceeds amount 75 then
            Validation.add_warning
              "Ride-share expenses over $75 may require business justification" r
          else r
        else r in
      if contains "rental" (str_lower description) && exceeds amount 500 then
        Validation.add_document
          "Car rental agreement and fuel receipts required" r
      else r
    else if (category =? "airfare")%string then
      if exceeds amount 1000 then
        Validation.add_document "Flight itinerary and boarding passes"
          (Validation.add_warning
             "Airfare over $1000 may require manager approval for business class"
             r)
      else r
    else r in
  let r :=
    if exceeds amount 25
       && negb (get (Expense.has_receipt expense_data) false)
    then
      Validation.add_reference "Section 2.1 - Documentation Requirements"
        (Validation.add_document "Receipt required for all expenses over $25" r)
    else r in
  Ok (weekend_check date r).

(** The result of the [except Exception as e] branch. *)
Definition validation_error (e : exn) : Validation.t :=
  {| Validation.is_valid := false;
     Validation.violations :=
       ["Error validating expense data: " ++ str_of_exn e];
     Validation.warnings := [];
     Validation.required_documents := [];
     Validation.policy_references := [] |}.

(** The session update: when there is a context with a truthy state, an entry
    is appended to its ["validation_history"] (created when absent). *)
Definition record_validation (expense_data : Expense.t) (r : Validation.t)
    (now : string) (ctx : option Validation.tool_context)
  : option Validation.tool_context :=
  match ctx with
  | Some c =>
      if Validation.state_truthy c then
        Some {| Validation.state_truthy := true;
                Validation.validation_history :=
                  Some ((get (Validation.validation_history c) []
                        ++ [ {| Validation.timestamp := now;
                                Validation.expense := expense_data;
                                Validation.entry_is_valid :=
                                  Validation.is_valid r;
                                Validation.violations_count :=
                                  List.length (Validation.violations r) |} ])%list) |}
      else ctx
  | None => None
  end.

(** [validate_expense_data(expense_data, tool_context)], run when the clock
    reads [now]: the result and the tool context afterwards. *)
Definition validate_expense_data_in (expense_data : Expense.t)
    (tool_context : option Validation.tool_context) (now : string)
  : Validation.t * option Validation.tool_context :=
  match validation_rules expense_data with
  | Ok r => (r, record_validation expense_data r now tool_context)
  | Raise e => (validation_error e, tool_context)
  end.

(** [validate_expense_data(expense_data)]: the call without a tool context,
    as [generate_expense_summary] makes it. *)
Definition validate_expense_data (expense_data : Expense.t) : Validation.t :=
  match validation_rules expense_data with
  | Ok r => r
  | Raise e => validation_error e
  end.

End Validator.

(** ** categorize_expense *)

Module Categorization.

Record t := {
  category : string;
  subcategory : string;
  confidence : F64.float;
  error : option string;   (* the "error" key, present on the error result *)
  alternative_categories : list (string * F64.float)
}.

End Categorization.

(** A dict with string keys, in insertion order. *)
Definition dict (V : Type) : Type := list (string * V).

Fixpoint dict_get {V} (k : string) (d : dict V) : option V :=
  match d with
  | [] => None
  | (k', v) :: d' => if (k' =? k)%string then Some v else dict_get k d'
  end.

(** [d[k] = v]: a present key keeps its place, a new one goes last. *)
Fixpoint dict_set {V} (k : string) (v : V) (d : dict V) : dict V :=
  match d with
  | [] => [(k, v)]
  | (k', v') :: d' =>
      if (k' =? k)%string then (k, v) :: d' else (k', v') :: dict_set k v d'
  end.

(** The weight literals of the tables, in hundredths: [weight 95] is 0.95. *)
Definition weight (hundredths : Z) : F64.float := F64.decimal hundredths 100.

Definition transport_keywords : dict F64.float :=
  [ ("flight", weight 95); ("airline", weight 90); ("airfare", weight 95);
    ("plane", weight 80);
    ("uber", weight 90); ("lyft", weight 90); ("taxi", weight 85);
    ("cab", weight 80); ("rideshare", weight 85);
    ("rental", weight 70); ("hertz", weight 90); ("avis", weight 90);
    ("enterprise", weight 90);
    ("parking", weight 80); ("toll", weight 80); ("mileage", weight 85);
    ("gas", weight 60) ].

Definition lodging_keywords : dict F64.float :=
  [ ("hotel", weight 95); ("motel", weight 90); ("accommodation", weight 90);
    ("lodging", weight 95);
    ("resort", weight 85); ("inn", weight 80); ("marriott", weight 95);
    ("hilton", weight 95);
    ("hyatt", weight 95); ("airbnb", weight 80); ("booking", weight 70) ].

Definition meal_keywords : dict F64.float :=
  [ ("restaurant", weight 90); ("dinner", weight 85); ("lunch", weight 85);
    ("breakfast", weight 85);
    ("meal", weight 90); ("food", weight 70); ("cafe", weight 80);
    ("starbucks", weight 80);
    ("mcdonald", weight 80); ("subway", weight 80);
    ("client dinner", weight 95) ].

Definition office_keywords : dict F64.float :=
  [ ("office", weight 90); ("supplies", weight 85); ("stationery", weight 90);
    ("printer", weight 80);
    ("paper", weight 70); ("staples", weight 90); ("depot", weight 80);
    ("amazon", weight 40) ].

(** [keyword in description_lower or keyword in merchant_lower]. *)
Definition matches (description_lower merchant_lower keyword : string) : bool :=
  contains keyword description_lower || contains keyword merchant_lower.

(** One scoring loop:
    [for keyword, score in table.items(): if ...: scores[cat] = max(scores.get(cat, 0), score)]. *)
Definition score_keywords (cat : string) (table : dict F64.float)
    (description_lower merchant_lower : string) (category_scores : dict F64.float)
  : dict F64.float :=
  fold_left
    (fun scores entry =>
       if matches description_lower merchant_lower (fst entry) then
         dict_set cat
           (F64.max (get (dict_get cat scores) F64.zero) (snd entry)) scores
       else scores)
    table category_scores.

(** The four loops, in the order of the code. *)
Definition score_all (description_lower merchant_lower : string) : dict F64.float :=
  let category_scores := [] in
  let category_scores :=
    score_keywords "transportation" transport_keywords
      description_lower merchant_lower category_scores in
  let category_scores :=
    score_keywords "lodging" lodging_keywords
      description_lower merchant_lower category_scores in
  let category_scores :=
    score_keywords "meals" meal_keywords
      description_lower merchant_lower category_scores in
  score_keywords "office_supplies" office_keywords
    description_lower merchant_lower category_scores.

(** [max(items, key=lambda x: x[1])]: the first item no later one exceeds. *)
Definition max_by_score (items : dict F64.float) : option (string * F64.float) :=
  match items with
  | [] => None
  | x :: l =>
      Some (fold_left
              (fun best y => if F64.gtb (snd y) (snd best) then y else best)
              l x)
  end.

(** [sorted(items, key=lambda x: x[1], reverse=True)]: a stable sort by
    descending score, items compared with [<] on their scores. *)
Fixpoint insert_desc (x : string * F64.float) (l : dict F64.float)
  : dict F64.float :=
  match l with
  | [] => [x]
  | y :: l' =>
      if F64.ltb (snd x) (snd y) then y :: insert_desc x l' else x :: l
  end.

Fixpoint sorted_desc (l : dict F64.float) : dict F64.float :=
  match l with
  | [] => []
  | x :: l' => insert_desc x (sorted_desc l')
  end.

(** [amount > n] on whatever the caller passed as [amount]. *)
Definition value_gt (amount : value) (n : Z) : result bool :=
  match amount with
  | VBool b => Ok (Z.b2z b >? n)
  | VInt z => Ok (z >? n)
  | VFloat f => Ok (F64.gtb f (F64.of_Z n))
  | VNone | VStr _ => Raise (TypeError_order amount)
  end.

(** The subcategory pass. *)
Definition subcategory_of (category description_lower : string) (amount : value)
  : result string :=
  if (category =? "transportation")%string then
    Ok (if any_in ["flight"; "airline"; "airfare"] description_lower
        then "airfare"
        else if any_in ["uber"; "lyft"; "taxi"] description_lower
        then "rideshare"
        else if contains "rental" description_lower then "car_rental"
        else if any_in ["parking"; "toll"] description_lower
        then "misc_transport"
        else "general")
  else if (category =? "meals")%string then
    over <- value_gt amount 75 ;;
    Ok (if (over : bool) then "business_meal"
        else if any_in ["breakfast"] description_lower then "breakfast"
        else if any_in ["lunch"] description_lower then "lunch"
        else if any_in ["dinner"] description_lower then "dinner"
        else "general")
  else Ok "general".

(** The body of the [try], after the two [lower()] calls. *)
Definition categorize_lowered (description_lower merchant_lower : string)
    (amount : value) : result Categorization.t :=
  let category_scores := score_all description_lower merchant_lower in
  match max_by_score category_scores with
  | Some (category, confidence) =>
      subcategory <- subcategory_of category description_lower amount ;;
      Ok {| Categorization.category := category;
            Categorization.subcategory := subcategory;
            Categorization.confidence := confidence;
            Categorization.error := None;
            Categorization.alternative_categories :=
              firstn 2 (skipn 1 (sorted_desc category_scores)) |}
  | None =>
      Ok {| Categorization.category := "miscellaneous";
            Categorization.subcategory := "other";
            Categorization.confidence := F64.decimal 2 10;
            Categorization.error := None;
            Categorization.alternative_categories := [] |}
  end.

Section Categorizer.

Context {py : Python}.

(** [categorize_expense(description, merchant, amount)], without a tool
    context. *)
Definition categorize_expense (description merchant : string) (amount : value)
  : Categorization.t :=
  match
    categorize_lowered (str_lower description) (str_lower merchant) amount
  with
  | Ok r => r
  | Raise e =>
      {| Categorization.category := "miscellaneous";
         Categorization.subcategory := "error";
         Categorization.confidence := F64.zero;
         Categorization.error := Some (str_of_exn e);
         Categorization.alternative_categories := [] |}
  end.

End Categorizer.

(** ** generate_expense_summary *)

Module Summary.

(** An entry of a category's ["expenses"] list. *)
Record item := {
  amount : F64.float;
  description : string;
  date : string
}.

(** A value of the ["categories"] dict. *)
Record bucket := {
  count : nat;
  total : F64.float;
  average : F64.float;
  expenses : list item
}.

Record compliance := {
  total_violations : nat;
  violations : list string;
  warnings : list string;
  ready_for_submission : bool
}.

Record range := {
  start_date : string;
  end_date : string;
  duration_days : Z
}.

Record stats := {
  average_expense : F64.float;
  largest_expense : F64.float;
  smallest_expense : F64.float;
  most_common_category : string
}.

(** The summary dict; [date_range] and [statistics] are [None] while they
    are the empty dict. *)
Record t := {
  total_amount : F64.float;
  expense_count : nat;
  categories : dict bucket;
  compliance_status : compliance;
  required_documents : list string;
  policy_references : list string;
  date_range : option range;
  statistics : option stats
}.

Definition initial (n : nat) : t :=
  {| total_amount := F64.zero;
     expense_count := n;
     categories := [];
     compliance_status :=
       {| total_violations := 0; violations := []; warnings := [];
          ready_for_submission := true |};
     required_documents := [];
     policy_references := [];
     date_range := None;
     statistics := None |}.

Definition new_bucket : bucket :=
  {| count := 0; total := F64.zero; average := F64.zero; expenses := [] |}.

Definition with_compliance (c : compliance) (s : t) : t :=
  {| total_amount := total_amount s; expense_count := expense_count s;
     categories := categories s; compliance_status := c;
     required_documents := required_documents s;
     policy_references := policy_references s;
     date_range := date_range s; statistics := statistics s |}.

Definition with_categories (cs : dict bucket) (s : t) : t :=
  {| total_amount := total_amount s; expense_count := expense_count s;
     categories := cs; compliance_status := compliance_status s;
     required_documents := required_documents s;
     policy_references := policy_references s;
     date_range := date_range s; statistics := statistics s |}.

Definition with_total (x : F64.float) (s : t) : t :=
  {| total_amount := x; expense_count := expense_count s;
     categories := categories s; compliance_status := compliance_status s;
     required_documents := required_documents s;
     policy_references := policy_references s;
     date_range := date_range s; statistics := statistics s |}.

Definition with_documents (docs refs : list string) (s : t) : t :=
  {| total_amount := total_amount s; expense_count := expense_count s;
     categories := categories s; compliance_status := compliance_status s;
     required_documents := docs;
     policy_references := refs;
     date_range := date_range s; statistics := statistics s |}.

Definition with_date_range (r : option range) (s : t) : t :=
  {| total_amount := total_amount s; expense_count := expense_count s;
     categories := categories s; compliance_status := compliance_status s;
     required_documents := required_documents s;
     policy_references := policy_references s;
     date_range := r; statistics := statistics s |}.

Definition with_statistics (st : option stats) (s : t) : t :=
  {| total_amount := total_amount s; expense_count := expense_count s;
     categories := categories s; compliance_status := compliance_status s;
     required_documents := required_documents s;
     policy_references := policy_references s;
     date_range := date_range s; statistics := st |}.

End Summary.

(** [f"Expense #{i+1}: {text}"]. *)
Definition tagged (i : nat) (text : string) : string :=
  "Expense #" ++ str_of_nat (i + 1) ++ ": " ++ text.

(** [dates.sort()]: strings in ascending order. *)
Fixpoint insert_sorted (x : string) (l : list string) : list string :=
  match l with
  | [] => [x]
  | y :: l' => if (x <? y)%string then x :: l else y :: insert_sorted x l'
  end.

Definition sort_strings (l : list string) : list string :=
  fold_left (fun sorted x => insert_sorted x sorted) l [].

(** [max(xs)] and [min(xs)] over a non-empty sequence of floats. *)
Definition max_float (x : F64.float) (xs : list F64.float) : F64.float :=
  fold_left F64.max xs x.

Definition min_float (x : F64.float) (xs : list F64.float) : F64.float :=
  fold_left F64.min xs x.

(** [max(categories.items(), key=lambda x: x[1]["count"])[0] if categories else "none"]. *)
Definition most_common (categories : dict Summary.bucket) : string :=
  match categories with
  | [] => "none"
  | x :: l =>
      fst (fold_left
             (fun best y =>
                if (Summary.count (snd best) <? Summary.count (snd y))%nat
                then y else best)
             l x)
  end.

Section Aggregator.

Context {py : Python}.

(** The category tracking of one expense. *)
Definition track (category : string) (amount : F64.float)
    (description date : string) (categories : dict Summary.bucket)
  : dict Summary.bucket :=
  let b := get (dict_get category categories) Summary.new_bucket in
  dict_set category
    {| Summary.count := Summary.count b + 1;
       Summary.total := F64.add (Summary.total b) amount;
       Summary.average := Summary.average b;
       Summary.expenses :=
         Summary.expenses b
         ++ [ {| Summary.amount := amount;
                 Summary.description := description;
                 Summary.date := date |} ] |}
    categories.

(** What the loop does with the validation of expense [i]. *)
Definition collect (i : nat) (validation : Validation.t) (s : Summary.t)
  : Summary.t :=
  let c := Summary.compliance_status s in
  let c :=
    if negb (Validation.is_valid validation) then
      {| Summary.total_violations :=
           Summary.total_violations c
           + List.length (Validation.violations validation);
         Summary.violations :=
           Summary.violations c
           ++ map (tagged i) (Validation.violations validation);
         Summary.warnings := Summary.warnings c;
         Summary.ready_for_submission := false |}
    else c in
  let c :=
    {| Summary.total_violations := Summary.total_violations c;
       Summary.violations := Summary.violations c;
       Summary.warnings :=
         Summary.warnings c ++ map (tagged i) (Validation.warnings validation);
       Summary.ready_for_submission := Summary.ready_for_submission c |} in
  Summary.with_documents
    (Summary.required_documents s ++ Validation.required_documents validation)
    (Summary.policy_references s ++ Validation.policy_references validation)
    (Summary.with_compliance c s).

(** The inner [except Exception as e] of the loop. *)
Definition processing_error (i : nat) (e : exn) (s : Summary.t) : Summary.t :=
  let c := Summary.compliance_status s in
  Summary.with_compliance
    {| Summary.total_violations := Summary.total_violations c;
       Summary.violations :=
         Summary.violations c
         ++ [tagged i ("Error processing expense - " ++ str_of_exn e)];
       Summary.warnings := Summary.warnings c;
       Summary.ready_for_submission := false |}
    s.

(** One turn of [for i, expense in enumerate(expenses)], on the summary and
    the [dates] list.  [float()] is the first statement of the inner [try] and
    the only one that can raise: nothing is updated before the handler runs. *)
Definition process_expense (i : nat) (expense : Expense.t)
    (st : Summary.t * list string) : Summary.t * list string :=
  let (summary, dates) := st in
  match to_float (get (Expense.amount expense) (VInt 0)) with
  | Ok amount =>
      let category := get (Expense.category expense) "miscellaneous" in
      let date := get (Expense.date expense) "" in
      let summary :=
        Summary.with_total (F64.add (Summary.total_amount summary) amount)
          summary in
      let dates := if truthy date then (dates ++ [date])%list else dates in
      let summary :=
        Summary.with_categories
          (track category amount (get (Expense.description expense) "") date
             (Summary.categories summary))
          summary in
      (collect i (validate_expense_data expense) summary, dates)
  | Raise e => (processing_error i e summary, dates)
  end.

Fixpoint process_all (i : nat) (expenses : list Expense.t)
    (st : Summary.t * list string) : Summary.t * list string :=
  match expenses with
  | [] => st
  | expense :: rest => process_all (i + 1) rest (process_expense i expense st)
  end.

(** [category_data["average"] = total / count] where the count is positive. *)
Definition set_average (b : Summary.bucket) : Summary.bucket :=
  if (0 <? Summary.count b)%nat then
    {| Summary.count := Summary.count b;
       Summary.total := Summary.total b;
       Summary.average :=
         F64.div (Summary.total b) (F64.of_Z (Z.of_nat (Summary.count b)));
       Summary.expenses := Summary.expenses b |}
  else b.

(** The date range analysis. *)
Definition date_range_of (dates : list string) : result (option Summary.range) :=
  match sort_strings dates with
  | [] => Ok None
  | (first :: _) as sorted =>
      let last := List.last sorted first in
      duration <-
        (if (1 <? List.length sorted)%nat then
           match iso_days (replace_Z last) (replace_Z first) with
           | Some days => Ok (days + 1)
           | None => Raise (Error_datetime last first)
           end
         else Ok 1) ;;
      Ok (Some {| Summary.start_date := first;
                  Summary.end_date := last;
                  Summary.duration_days := duration |})
  end.

(** The statistics block; its [max] and [min] convert every amount again. *)
Definition statistics_of (expenses : list Expense.t) (summary : Summary.t)
  : result (option Summary.stats) :=
  if (0 <? Summary.expense_count summary)%nat then
    amounts <-
      map_result (fun exp => to_float (get (Expense.amount exp) (VInt 0)))
        expenses ;;
    match amounts with
    | [] => Ok None  (* no amount: only for an empty list, excluded above *)
    | x :: xs =>
        Ok (Some {| Summary.average_expense :=
                      F64.div (Summary.total_amount summary)
                        (F64.of_Z (Z.of_nat (Summary.expense_count summary)));
                    Summary.largest_expense := max_float x xs;
                    Summary.smallest_expense := min_float x xs;
                    Summary.most_common_category :=
                      most_common (Summary.categories summary) |})
    end
  else Ok None.

(** The body of the outer [try]. *)
Definition summarize (expenses : list Expense.t) : result Summary.t :=
  let (summary, dates) :=
    process_all 0 expenses (Summary.initial (List.length expenses), []) in
  let summary :=
    Summary.with_categories
      (map (fun kv => (fst kv, set_average (snd kv)))
         (Summary.categories summary))
      summary in
  let summary :=
    Summary.with_documents
      (list_of_set (Summary.required_documents summary))
      (list_of_set (Summary.policy_references summary))
      summary in
  range <- date_range_of dates ;;
  let summary :=
    match range with
    | Some _ => Summary.with_date_range range summary
    | None => summary
    end in
  st <- statistics_of expenses summary ;;
  Ok (match st with
      | Some _ => Summary.with_statistics st summary
      | None => summary
      end).

(** The result of the outer [except Exception as e]. *)
Definition summary_error (e : exn) : Summary.t :=
  {| Summary.total_amount := F64.zero;
     Summary.expense_count := 0;
     Summary.categories := [];
     Summary.compliance_status :=
       {| Summary.total_violations := 1;
          Summary.violations := ["Error generating summary: " ++ str_of_exn e];
          Summary.warnings := [];
          Summary.ready_for_submission := false |};
     Summary.required_documents := [];
     Summary.policy_references := [];
     Summary.date_range := None;
     Summary.statistics := None |}.

(** [generate_expense_summary(expenses)], without a tool context. *)
Definition generate_expense_summary (expenses : list Expense.t) : Summary.t :=
  match summarize expenses with
  | Ok summary => summary
  | Raise e => summary_error e
  end.

End Aggregator.

(** ** A runtime for the examples

    An executable [Python] for running the model on concrete calls.  It
    covers ASCII text, numbers written as plain decimals (a sign, digits, a
    fraction) and dates written YYYY-MM-DD; CPython accepts more forms of
    both, which no example below uses.  A float is printed with all its
    digits (CPython prints the shortest that read back the same; both print
    150.0 and 0.5), and a set is listed in the order of [nodup]. *)

Module Reference.

Definition digit_of (c : ascii) : option Z :=
  let n := N_of_ascii c in
  if ((48 <=? n) && (n <=? 57))%N then Some (Z.of_N (n - 48)) else None.

(** The longest prefix of digits: its value on top of [acc], how many digits
    were read on top of [n], and the rest of the text. *)
Fixpoint digits (s : string) (acc n : Z) : Z * Z * string :=
  match s with
  | String c s' =>
      match digit_of c with
      | Some d => digits s' (10 * acc + d) (n + 1)
      | None => (acc, n, s)
      end
  | EmptyString => (acc, n, s)
  end.

Definition float_of_str (s : string) : option F64.float :=
  let (negative, s) :=
    match s with
    | String "-" s' => (true, s')
    | String "+" s' => (false, s')
    | _ => (false, s)
    end in
  let '(i, ni, s) := digits s 0 0 in
  let '(m, nf, s) :=
    match s with
    | String "." s' => digits s' i 0
    | _ => (i, 0, s)
    end in
  if (s =? "")%string && (0 <? ni + nf) then
    Some (match m with
          | Zpos p =>
              SFdiv F64.prec F64.emax
                (S754_finite negative p 0)
                (S754_finite false (Z.to_pos (10 ^ nf)) 0)
          | _ => S754_zero negative
          end)
  else None.

Definition str_of_Z (z : Z) : string :=
  NilZero.string_of_int (Z.to_int z).

(** [z] in decimal, with zeros in front up to [width] digits. *)
Fixpoint padded (width : nat) (z : Z) : string :=
  match width with
  | O => ""
  | S w => padded w (z / 10) ++ str_of_Z (z mod 10)
  end.

(** The digits of a fraction [z / 10^width], without the zeros at the end
    (one digit at least). *)
Fixpoint fraction (width : nat) (z : Z) : string :=
  match width with
  | O => "0"
  | S w => if z mod 10 =? 0 then fraction w (z / 10) else padded width z
  end.

Definition str_of_float (x : F64.float) : string :=
  match x with
  | S754_zero s => if s then "-0.0" else "0.0"
  | S754_infinity s => if s then "-inf" else "inf"
  | S754_nan => "nan"
  | S754_finite s m e =>
      (if s then "-" else "") ++
      match e with
      | Zneg k =>
          let scale := 10 ^ Zpos k in
          let n := Zpos m * 5 ^ Zpos k in
          str_of_Z (n / scale) ++ "." ++ fraction (Pos.to_nat k) (n mod scale)
      | _ => str_of_Z (Zpos m * 2 ^ e) ++ ".0"
      end
  end.

Definition type_name (v : value) : string :=
  match v with
  | VNone => "NoneType"
  | VBool _ => "bool"
  | VInt _ => "int"
  | VFloat _ => "float"
  | VStr _ => "str"
  end.

Definition str_of_exn (e : exn) : string :=
  match e with
  | ValueError_float s => "could not convert string to float: '" ++ s ++ "'"
  | TypeError_float v =>
      "float() argument must be a string or a real number, not '"
      ++ type_name v ++ "'"
  | OverflowError_float _ => "int too large to convert to float"
  | TypeError_order v =>
      "'>' not supported between instances of '" ++ type_name v
      ++ "' and 'int'"
  | Error_datetime last first => "Invalid isoformat string: '" ++ last ++ "'"
  end.

(** Exactly [n] digits in front of [s]: their value and the rest. *)
Fixpoint number (n : nat) (s : string) (acc : Z) : option (Z * string) :=
  match n, s with
  | O, _ => Some (acc, s)
  | S n', String c s' =>
      match digit_of c with
      | Some d => number n' s' (10 * acc + d)
      | None => None
      end
  | S _, EmptyString => None
  end.

Definition leap (y : Z) : bool :=
  (y mod 4 =? 0) && (negb (y mod 100 =? 0) || (y mod 400 =? 0)).

Definition days_in_month (y m : Z) : Z :=
  if m =? 2 then (if leap y then 29 else 28)
  else if (m =? 4) || (m =? 6) || (m =? 9) || (m =? 11) then 30
  else 31.

(** Days from 1970-01-01 to the day [y]-[m]-[d] of the Gregorian calendar. *)
Definition days_from_civil (y m d : Z) : Z :=
  let y := if m <=? 2 then y - 1 else y in
  let era := y / 400 in
  let yoe := y - era * 400 in
  let doy := (153 * (if 2 <? m then m - 3 else m + 9) + 2) / 5 + d - 1 in
  let doe := yoe * 365 + yoe / 4 - yoe / 100 + doy in
  era * 146097 + doe - 719468.

(** The day number of a date written YYYY-MM-DD. *)
Definition day_number (s : string) : option Z :=
  match number 4 s 0 with
  | Some (y, String "-" s1) =>
      match number 2 s1 0 with
      | Some (m, String "-" s2) =>
          match number 2 s2 0 with
          | Some (d, EmptyString) =>
              if (1 <=? y) && (1 <=? m) && (m <=? 12)
                 && (1 <=? d) && (d <=? days_in_month y m)
              then Some (days_from_civil y m d)
              else None
          | _ => None
          end
      | _ => None
      end
  | _ => None
  end.

(** Monday is 0 and Sunday 6; 1970-01-01 was a Thursday. *)
Definition iso_weekday (s : string) : option nat :=
  match day_number s with
  | Some n => Some (Z.to_nat ((n + 3) mod 7))
  | None => None
  end.

Definition iso_days (a b : string) : option Z :=
  match day_number a, day_number b with
  | Some x, Some y => Some (x - y)
  | _, _ => None
  end.

#[export] Instance python : Python := {
  str_lower := lower_ascii;
  str_lower_ascii := fun s _ => eq_refl;
  float_of_str := float_of_str;
  str_of_float := str_of_float;
  str_of_exn := str_of_exn;
  iso_weekday := iso_weekday;
  iso_days := iso_days;
  list_of_set := nodup string_dec;
  list_of_set_perm := fun l => Permutation_refl _
}.

End Reference.

(** ** Notions of the specification *)

(** The keywords of the four tables. *)
Definition all_keywords : list string :=
  map fst (transport_keywords ++ lodging_keywords
           ++ meal_keywords ++ office_keywords).

(** No keyword of any table occurs in the lowered description or merchant. *)
Definition no_keyword (description_lower merchant_lower : string) : Prop :=
  forall keyword, In keyword all_keywords ->
                  matches description_lower merchant_lower keyword = false.

(** The result of the default categorization. *)
Definition fallback : Categorization.t :=
  {| Categorization.category := "miscellaneous";
     Categorization.subcategory := "other";
     Categorization.confidence := F64.decimal 2 10;
     Categorization.error := None;
     Categorization.alternative_categories := [] |}.

(** A positive float is a number, and numbers are totally ordered. *)
Definition positive (x : F64.float) : Prop := F64.gtb x F64.zero = true.

(** The categories with their tables. *)
Definition category_tables : list (string * dict F64.float) :=
  [ ("transportation", transport_keywords); ("lodging", lodging_keywords);
    ("meals", meal_keywords); ("office_supplies", office_keywords) ].

(** The weights of the keywords of a table that occur in the text. *)
Definition matched_weights (table : dict F64.float) (dl ml : string)
  : list F64.float :=
  map snd (filter (fun entry => matches dl ml (fst entry)) table).

(** [s] is the maximum of [ws]: one of them, and none is larger. *)
Definition maximum_of (ws : list F64.float) (s : F64.float) : Prop :=
  In s ws /\ forall w, In w ws -> F64.leb w s = true.

(** [x] is the first item of [l] with the highest score: the items before it
    score less, those after it score no more. *)
Definition first_maximum (l : dict F64.float) (x : string * F64.float) : Prop :=
  exists l1 l2,
    l = (l1 ++ x :: l2)%list
    /\ (forall y, In y l1 -> F64.ltb (snd y) (snd x) = true)
    /\ (forall y, In y l2 -> F64.leb (snd y) (snd x) = true).

(** Items in descending order of score. *)
Definition descending (l : dict F64.float) : Prop :=
  StronglySorted (fun x y => F64.leb (snd y) (snd x) = true) l.

Definition positive_scores (l : dict F64.float) : Prop :=
  Forall (fun x => positive (snd x)) l.

(** The score a loop leaves for its own category, as a loop on that score
    alone. *)
Definition best_weight (table : dict F64.float) (dl ml : string)
    (score : option F64.float) : option F64.float :=
  fold_left
    (fun acc entry =>
       if matches dl ml (fst entry)
       then Some (F64.max (get acc F64.zero) (snd entry))
       else acc)
    table score.

(** ** Exact sums

    [dyadic n e] is the float of [n * 2^e], and [units e x] the number of
    units [2^e] in the float [x].  Where every amount is a whole number of
    units and the magnitudes together stay below [2^53] units, no addition
    of the summary rounds. *)
Definition dyadic (n e : Z) : F64.float :=
  binary_normalize F64.prec F64.emax n e false.

Definition units (e : Z) (x : F64.float) : Z :=
  match x with
  | S754_finite s m ex => cond_Zopp s (Z.shiftl (Zpos m) (ex - e))
  | _ => 0
  end.

Definition sum_units (e : Z) (xs : list F64.float) : Z :=
  fold_right (fun x s => units e x + s) 0 xs.

Definition sum_magnitudes (e : Z) (xs : list F64.float) : Z :=
  fold_right (fun x s => Z.abs (units e x) + s) 0 xs.

(** An integer that 53 bits hold, and an exponent of the format. *)
Definition small (n : Z) : Prop := Z.abs n < 2 ^ 53.

Definition exponent_in_range (e : Z) : Prop :=
  -1074 <= e <= F64.emax - F64.prec.

(** [m * 2^k] for [0 <= k]. *)
Definition shl (m : Pos.t) (k : Z) : Pos.t :=
  match k with
  | Zpos p => Pos.iter xO m p
  | _ => m
  end.

(** The exponent of the float of [n * 2^e]. *)
Definition exponent_of (n : Pos.t) (e : Z) : Z :=
  fexp F64.prec F64.emax (Zpos (digits2_pos n) + e).

Section AggregatorNotions.

Context {py : Python}.

(** What the loop reads from an expense. *)
Definition amount_of (e : Expense.t) : result F64.float :=
  to_float (get (Expense.amount e) (VInt 0)).

Definition converts (e : Expense.t) : bool :=
  match amount_of e with Ok _ => true | Raise _ => false end.

Definition float_of (e : Expense.t) : F64.float :=
  match amount_of e with Ok a => a | Raise _ => F64.zero end.

Definition category_of (e : Expense.t) : string :=
  get (Expense.category e) "miscellaneous".

Definition date_of (e : Expense.t) : string := get (Expense.date e) "".

Definition amounts (l : list Expense.t) : list F64.float := map float_of l.

Definition dates_of (l : list Expense.t) : list string :=
  filter truthy (map date_of l).

Definition all_valid (l : list Expense.t) : bool :=
  forallb (fun e => Validation.is_valid (validate_expense_data e)) l.

(** The amounts of [l] are exact in units of [2^e]: each is a whole number
    of units, and the magnitudes add up to less than [2^53] units. *)
Definition exact_amounts (e : Z) (l : list Expense.t) : Prop :=
  exponent_in_range e
  /\ (forall a, In a (amounts l) -> a = dyadic (units e a) e)
  /\ sum_magnitudes e (amounts l) < 2 ^ 53.

(** What one expense of category [c] does to the bucket of [c]. *)
Definition bucket_step (c : string) (b : option Summary.bucket)
    (e : Expense.t) : option Summary.bucket :=
  if (category_of e =? c)%string then
    let b := get b Summary.new_bucket in
    Some {| Summary.count := Summary.count b + 1;
            Summary.total := F64.add (Summary.total b) (float_of e);
            Summary.average := Summary.average b;
            Summary.expenses :=
              Summary.expenses b
              ++ [ {| Summary.amount := float_of e;
                      Summary.description := get (Expense.description e) "";
                      Summary.date := date_of e |} ] |}
  else b.

Definition ready (s : Summary.t) : bool :=
  Summary.ready_for_submission (Summary.compliance_status s).

End AggregatorNotions.

(** ** Expenses of the examples *)

(** A dinner of 150 in category "Meals", on a Saturday, without receipt. *)
Definition meal_150 : Expense.t :=
  {| Expense.amount := Some (VInt 150);
     Expense.category := Some "Meals";
     Expense.description := Some "Dinner";
     Expense.date := Some "2024-01-06";
     Expense.has_receipt := None;
     Expense.location := None |}.

(** A coffee of 20 without receipt. *)
Definition coffee_20 : Expense.t :=
  {| Expense.amount := Some (VInt 20);
     Expense.category := Some "meals";
     Expense.description := Some "Coffee";
     Expense.date := None;
     Expense.has_receipt := Some false;
     Expense.location := None |}.

(** An expense whose amount is text that is no number. *)
Definition amount_abc : Expense.t :=
  {| Expense.amount := Some (VStr "abc");
     Expense.category := Some "meals";
     Expense.description := None;
     Expense.date := None;
     Expense.has_receipt := Some true;
     Expense.location := None |}.

(** An expense of a given amount and category, with its receipt. *)
Definition expense_of (amount : F64.float) (category : string) : Expense.t :=
  {| Expense.amount := Some (VFloat amount);
     Expense.category := Some category;
     Expense.description := None;
     Expense.date := None;
     Expense.has_receipt := Some true;
     Expense.location := None |}.

(** ** Further notions *)

(** The expense with its ["date"] key set, or removed. *)
Definition set_date (d : option string) (e : Expense.t) : Expense.t :=
  {| Expense.amount := Expense.amount e;
     Expense.category := Expense.category e;
     Expense.description := Expense.description e;
     Expense.date := d;
     Expense.has_receipt := Expense.has_receipt e;
     Expense.location := Expense.location e |}.

(** The session of the categorizer: whether [tool_context.state] is truthy,
    and its ["categorization_history"] list when the key is there. *)
Module CategorizationSession.

Record history_entry := {
  description : string;
  merchant : string;
  result : Categorization.t;
  timestamp : string
}.

Record tool_context := {
  state_truthy : bool;
  categorization_history : option (list history_entry)
}.

End CategorizationSession.

Section CategorizerSession.

Context {py : Python}.

(** The session update of the categorizer. *)
Definition record_categorization (description merchant : string)
    (r : Categorization.t) (now : string)
    (ctx : option CategorizationSession.tool_context)
  : option CategorizationSession.tool_context :=
  match ctx with
  | Some c =>
      if CategorizationSession.state_truthy c then
        Some {| CategorizationSession.state_truthy := true;
                CategorizationSession.categorization_history :=
                  Some ((get (CategorizationSession.categorization_history c)
                           []
                         ++ [ {| CategorizationSession.description :=
                                   description;
                                 CategorizationSession.merchant := merchant;
                                 CategorizationSession.result := r;
                                 CategorizationSession.timestamp := now |} ])
                        %list) |}
      else ctx
  | None => None
  end.

(** [categorize_expense(description, merchant, amount, tool_context)], run
    when the clock reads [now]: the result and the tool context afterwards.
    The update stands inside the [try], after either branch has built the
    result; the [except] branch returns without it. *)
Definition categorize_expense_in (description merchant : string)
    (amount : value) (tool_context : option CategorizationSession.tool_context)
    (now : string)
  : Categorization.t * option CategorizationSession.tool_context :=
  match
    categorize_lowered (str_lower description) (str_lower merchant) amount
  with
  | Ok r => (r, record_categorization description merchant r now tool_context)
  | Raise e =>
      ({| Categorization.category := "miscellaneous";
          Categorization.subcategory := "error";
          Categorization.confidence := F64.zero;
          Categorization.error := Some (str_of_exn e);
          Categorization.alternative_categories := [] |},
       tool_context)
  end.

End CategorizerSession.

(** A score in the range of the tables: positive, and 1 at most. *)
Definition in_range (x : F64.float) : Prop :=
  positive x /\ F64.leb x (F64.of_Z 1) = true.

(** [enumerate(l)], counting from [i]. *)
Definition enumerate_from {A} (i : nat) (l : list A) : list (nat * A) :=
  combine (seq i (List.length l)) l.

(** The sum of the counts of the buckets. *)
Definition sum_counts (categories : dict Summary.bucket) : nat :=
  list_sum (map (fun kv => Summary.count (snd kv)) categories).

Definition is_nan (x : F64.float) : bool :=
  match x with S754_nan => true | _ => false end.

Section SummaryNotions.

Context {py : Python}.

(** The entries of a field of the validations of [l], each tagged with the
    position of its record, in the order of the records. *)
Definition tagged_all (field : Validation.t -> list string)
    (l : list Expense.t) : list string :=
  flat_map
    (fun ie => map (tagged (fst ie)) (field (validate_expense_data (snd ie))))
    (enumerate_from 0 l).

(** The category tracking of one expense whose amount converts. *)
Definition track_expense (categories : dict Summary.bucket) (e : Expense.t)
  : dict Summary.bucket :=
  track (category_of e) (float_of e) (get (Expense.description e) "")
    (date_of e) categories.

(** The buckets the loop leaves, before the averages. *)
Definition buckets (l : list Expense.t) : dict Summary.bucket :=
  fold_left track_expense l [].

(** The summary of expenses whose amounts all convert, given the date
    range. *)
Definition normal_summary (l : list Expense.t) (range : option Summary.range)
  : Summary.t :=
  let categories :=
    map (fun kv => (fst kv, set_average (snd kv))) (buckets l) in
  let total := fold_left F64.add (amounts l) F64.zero in
  {| Summary.total_amount := total;
     Summary.expense_count := List.length l;
     Summary.categories := categories;
     Summary.compliance_status :=
       {| Summary.total_violations :=
            List.length (tagged_all Validation.violations l);
          Summary.violations := tagged_all Validation.violations l;
          Summary.warnings := tagged_all Validation.warnings l;
          Summary.ready_for_submission := all_valid l |};
     Summary.required_documents :=
       list_of_set
         (flat_map
            (fun e => Validation.required_documents (validate_expense_data e))
            l);
     Summary.policy_references :=
       list_of_set
         (flat_map
            (fun e => Validation.policy_references (validate_expense_data e))
            l);
     Summary.date_range := range;
     Summary.statistics :=
       match amounts l with
       | [] => None
       | x :: xs =>
           Some {| Summary.average_expense :=
                     F64.div total (F64.of_Z (Z.of_nat (List.length l)));
                   Summary.largest_expense := max_float x xs;
                   Summary.smallest_expense := min_float x xs;
                   Summary.most_common_category := most_common categories |}
       end |}.

End SummaryNotions.

Section SummaryItems.

Context {py : Python}.

(** The entry an expense adds to the ["expenses"] list of its category. *)
Definition item_of (e : Expense.t) : Summary.item :=
  {| Summary.amount := float_of e;
     Summary.description := get (Expense.description e) "";
     Summary.date := date_of e |}.

(** The expenses of category [c], in their order. *)
Definition of_category (c : string) (l : list Expense.t) : list Expense.t :=
  filter (fun e => (category_of e =? c)%string) l.

End SummaryItems.

Section SummaryLoop.

Context {py : Python}.

Local Open Scope list_scope.

(** What the loop keeps true of every bucket. *)
Definition bucket_consistent (b : Summary.bucket) : Prop :=
  (1 <= Summary.count b)%nat
  /\ Summary.count b = List.length (Summary.expenses b)
  /\ Summary.total b
     = fold_left F64.add (map Summary.amount (Summary.expenses b)) F64.zero.

(** The loop state: the summary under construction and the dates. *)
Record loop_facts (i : nat) (l : list Expense.t)
    (st st' : Summary.t * list string) : Prop := {
  loop_total :
    Summary.total_amount (fst st')
    = fold_left F64.add (amounts l) (Summary.total_amount (fst st));
  loop_count :
    Summary.expense_count (fst st') = Summary.expense_count (fst st);
  loop_categories :
    Summary.categories (fst st')
    = fold_left track_expense l (Summary.categories (fst st));
  loop_total_violations :
    Summary.total_violations (Summary.compliance_status (fst st'))
    = (Summary.total_violations (Summary.compliance_status (fst st))
       + List.length
           (flat_map
              (fun ie => map (tagged (fst ie))
                           (Validation.violations
                              (validate_expense_data (snd ie))))
              (enumerate_from i l)))%nat;
  loop_violations :
    Summary.violations (Summary.compliance_status (fst st'))
    = Summary.violations (Summary.compliance_status (fst st))
      ++ flat_map
           (fun ie => map (tagged (fst ie))
                        (Validation.violations
                           (validate_expense_data (snd ie))))
           (enumerate_from i l);
  loop_warnings :
    Summary.warnings (Summary.compliance_status (fst st'))
    = Summary.warnings (Summary.compliance_status (fst st))
      ++ flat_map
           (fun ie => map (tagged (fst ie))
                        (Validation.warnings
                           (validate_expense_data (snd ie))))
           (enumerate_from i l);
  loop_ready : ready (fst st') = ready (fst st) && all_valid l;
  loop_documents :
    Summary.required_documents (fst st')
    = Summary.required_documents (fst st)
      ++ flat_map
           (fun e => Validation.required_documents (validate_expense_data e))
           l;
  loop_references :
    Summary.policy_references (fst st')
    = Summary.policy_references (fst st)
      ++ flat_map
           (fun e => Validation.policy_references (validate_expense_data e))
           l;
  loop_date_range : Summary.date_range (fst st') = Summary.date_range (fst st);
  loop_statistics : Summary.statistics (fst st') = Summary.statistics (fst st);
  loop_dates : snd st' = snd st ++ dates_of l
}.

End SummaryLoop.

(** ** The policy search *)

(** [search_expense_policy] talks to two things outside the program: the
    environment of the process and the search service.  Both are parameters
    of the model.  A document of the index holds strings under the keys the
    search selects; a key that is absent is [None]. *)
Module Search.

(** What a search result holds under ["@search.highlights"]. *)
Inductive highlights_field :=
| NoHighlights                              (* the key is absent *)
| NullHighlights                            (* the key holds None *)
| Highlights (content : option (list string)).
    (* a dict, with or without a ["content"] key *)

Record document := {
  doc_content : option string;
  doc_category : option string;
  doc_highlights : highlights_field;
  doc_score : option F64.float;             (* ["@search.score"] *)
  doc_chunk_id : option string;
  doc_source_document : option string
}.

(** The arguments of [ClientSecretCredential] and [SearchClient]. *)
Record client := {
  endpoint : string;
  index_name : string;
  tenant_id : string;
  client_id : string;
  client_secret : string
}.

(** The keyword arguments of [search_client.search]; [filter] is [None]
    when the key is absent. *)
Record params := {
  search_text : string;
  query_type : string;
  semantic_configuration_name : string;
  top : nat;
  select : list string;
  highlight_fields : list string;
  highlight_pre_tag : string;
  highlight_post_tag : string;
  filter : option string
}.

(** What building the client and iterating over the results gives: the
    documents the iteration yields, and then [str(e)] of the exception that
    ends it, if one does. *)
Record response := {
  yielded : list document;
  failure : option string
}.

(** An entry of ["policy_excerpts"]. *)
Record excerpt := {
  content : string;
  category : string;
  highlights : list string;
  score : value;
  chunk_id : string
}.

(** The returned dict; a field is [None] where the dict has no such key. *)
Record t := {
  status : string;
  message : option string;
  query : option string;
  category_filter : option (option string);
  total_results : option nat;
  policy_excerpts : list excerpt;
  sources : list string
}.

(** The value of [tool_context.state["last_policy_search"]]. *)
Record last_search := {
  searched_query : string;
  timestamp : string;
  results_count : nat
}.

(** The tool context, as far as the search touches it. *)
Record tool_context := {
  state_truthy : bool;
  last_policy_search : option last_search
}.

End Search.

(** [str(e)] of the [AttributeError] that [None.get] raises. *)
Definition none_has_no_get : string :=
  "'NoneType' object has no attribute 'get'".

(** The entry of ["policy_excerpts"] for a result; the message of the
    exception where building it raises. *)
Definition excerpt_of (d : Search.document) : Search.excerpt + string :=
  match Search.doc_highlights d with
  | Search.NullHighlights => inr none_has_no_get
  | h =>
      inl {| Search.content := get (Search.doc_content d) "";
             Search.category := get (Search.doc_category d) "";
             Search.highlights :=
               match h with
               | Search.Highlights (Some l) => l
               | _ => []
               end;
             Search.score :=
               match Search.doc_score d with
               | Some x => VFloat x
               | None => VInt 0
               end;
             Search.chunk_id := get (Search.doc_chunk_id d) "" |}
  end.

(** The loop over the results: the count, the excerpts and the sources
    added to the set, in the order of the additions. *)
Fixpoint format_results (results : list Search.document)
    (acc : nat * list Search.excerpt * list string)
  : nat * list Search.excerpt * list string + string :=
  match results with
  | [] => inl acc
  | result :: results' =>
      let '(total, excerpts, sources) := acc in
      match excerpt_of result with
      | inr e => inr e
      | inl x =>
          let source := get (Search.doc_source_document result) "" in
          format_results results'
            ((total + 1)%nat, (excerpts ++ [x])%list,
             if truthy source then (sources ++ [source])%list else sources)
      end
  end.

(** The result where the configuration is incomplete. *)
Definition not_configured : Search.t :=
  {| Search.status := "error";
     Search.message :=
       Some "Azure AI Search not configured. Please set AZURE_AI_SEARCH_ENDPOINT, AZURE_CLIENT_ID, AZURE_CLIENT_SECRET, and AZURE_TENANT_ID";
     Search.query := None;
     Search.category_filter := None;
     Search.total_results := None;
     Search.policy_excerpts := [];
     Search.sources := [] |}.

(** The result of [except Exception as e], given [str(e)]. *)
Definition search_error (e : string) : Search.t :=
  {| Search.status := "error";
     Search.message := Some ("Error searching policy database: " ++ e);
     Search.query := None;
     Search.category_filter := None;
     Search.total_results := None;
     Search.policy_excerpts := [];
     Search.sources := [] |}.

(** [search_params] for a query and a category. *)
Definition search_params (query : string) (category : option string)
  : Search.params :=
  {| Search.search_text := query;
     Search.query_type := "semantic";
     Search.semantic_configuration_name := "default";
     Search.top := 5;
     Search.select := ["content"; "category"; "source_document"; "chunk_id"];
     Search.highlight_fields := ["content"];
     Search.highlight_pre_tag := "<mark>";
     Search.highlight_post_tag := "</mark>";
     Search.filter :=
       match category with
       | Some c =>
           if truthy c then Some ("category eq '" ++ c ++ "'") else None
       | None => None
       end |}.

(** The session update of the search. *)
Definition record_search (query : string) (now : string) (count : nat)
    (ctx : option Search.tool_context) : option Search.tool_context :=
  match ctx with
  | Some c =>
      if Search.state_truthy c then
        Some {| Search.state_truthy := true;
                Search.last_policy_search :=
                  Some {| Search.searched_query := query;
                          Search.timestamp := now;
                          Search.results_count := count |} |}
      else ctx
  | None => None
  end.

Section PolicySearch.

Context {py : Python}.

(** [os.getenv], and the search service behind the client. *)
Variable getenv : string -> option string.
Variable service : Search.client -> Search.params -> Search.response.

(** [not os.getenv(name)]: the variable is unset or empty. *)
Definition unset (name : string) : bool :=
  negb (truthy (get (getenv name) "")).

(** The client the configuration gives. *)
Definition search_client : Search.client :=
  {| Search.endpoint := get (getenv "AZURE_AI_SEARCH_ENDPOINT") "";
     Search.index_name :=
       get (getenv "AZURE_AI_SEARCH_INDEX") "expense-policy-index";
     Search.tenant_id := get (getenv "AZURE_TENANT_ID") "";
     Search.client_id := get (getenv "AZURE_CLIENT_ID") "";
     Search.client_secret := get (getenv "AZURE_CLIENT_SECRET") "" |}.

(** [search_expense_policy(query, category, tool_context)], run when the
    clock reads [now]: the result and the tool context afterwards. *)
Definition search_expense_policy_in (query : string)
    (category : option string) (tool_context : option Search.tool_context)
    (now : string) : Search.t * option Search.tool_context :=
  if unset "AZURE_AI_SEARCH_ENDPOINT" || unset "AZURE_CLIENT_ID"
     || unset "AZURE_CLIENT_SECRET" || unset "AZURE_TENANT_ID"
  then (not_configured, tool_context)
  else
    let results := service search_client (search_params query category) in
    match format_results (Search.yielded results) (0%nat, [], []) with
    | inr e => (search_error e, tool_context)
    | inl (total, excerpts, sources) =>
        match Search.failure results with
        | Some e => (search_error e, tool_context)
        | None =>
            ({| Search.status := "success";
                Search.message := None;
                Search.query := Some query;
                Search.category_filter := Some category;
                Search.total_results := Some total;
                Search.policy_excerpts := excerpts;
                Search.sources := list_of_set sources |},
             record_search query now total tool_context)
        end
    end.

(** [search_expense_policy(query, category)], without a tool context. *)
Definition search_expense_policy (query : string) (category : option string)
  : Search.t :=
  fst (search_expense_policy_in query category None "").

End PolicySearch.

(** The names of the variables the search cannot do without. *)
Definition required_variables : list string :=
  ["AZURE_AI_SEARCH_ENDPOINT"; "AZURE_CLIENT_ID"; "AZURE_CLIENT_SECRET";
   "AZURE_TENANT_ID"].

(** The source a result adds to the set, if any. *)
Definition source_of (d : Search.document) : string :=
  get (Search.doc_source_document d) "".

(** An environment with the four variables set, and a service that yields
    two documents of one source. *)
Definition example_env (name : string) : option string :=
  if (name =? "AZURE_AI_SEARCH_INDEX")%string then None
  else Some "configured".

Definition example_document (chunk : string) : Search.document :=
  {| Search.doc_content := Some "Meals are limited to $100 per day.";
     Search.doc_category := Some "meals";
     Search.doc_highlights := Search.Highlights (Some ["<mark>Meals</mark>"]);
     Search.doc_score := None;
     Search.doc_chunk_id := Some chunk;
     Search.doc_source_document := Some "policy.pdf" |}.

Definition example_service (c : Search.client) (p : Search.params)
  : Search.response :=
  {| Search.yielded := [example_document "1"; example_document "2"];
     Search.failure := None |}.

(** A service whose second result has no highlights. *)
Definition null_highlights_service (c : Search.client) (p : Search.params)
  : Search.response :=
  {| Search.yielded :=
       [ example_document "1";
         {| Search.doc_content := Some "Lodging is limited to $300.";
            Search.doc_category := Some "lodging";
            Search.doc_highlights := Search.NullHighlights;
            Search.doc_score := None;
            Search.doc_chunk_id := Some "2";
            Search.doc_source_document := Some "policy.pdf" |} ];
     Search.failure := None |}.

(** A night of 400 on a Monday and a meal of 50 on the Saturday before, both
    with receipts; and the same two expenses with dates that are no dates. *)
Definition trip : list Expense.t :=
  [ set_date (Some "2024-01-08") (expense_of (F64.of_Z 400) "lodging");
    set_date (Some "2024-01-06") (expense_of (F64.of_Z 50) "meals") ].

Definition vague_trip : list Expense.t :=
  [ set_date (Some "tomorrow") (expense_of (F64.of_Z 400) "lodging");
    set_date (Some "today") (expense_of (F64.of_Z 50) "meals") ].

(** * Properties *)

Open Scope list_scope.

(** ** Floats *)

Lemma SFcompare_antisym (x y : F64.float) :
  SFcompare y x = option_map CompOpp (SFcompare x y).
Proof.
  destruct x as [sx | sx | | sx mx ex], y as [sy | sy | | sy my ey];
    simpl; try reflexivity;
    try (destruct sx; reflexivity); try (destruct sy; reflexivity);
    try (destruct sx, sy; reflexivity).
  destruct sx, sy; simpl; try reflexivity;
    rewrite (Z.compare_antisym ex ey); destruct (ex ?= ey); simpl;
    try reflexivity; f_equal;
    rewrite (Pos.compare_cont_antisym mx my Eq); reflexivity.
Qed.

Lemma leb_not_gtb (x y : F64.float) :
  F64.leb x y = true -> F64.gtb x y = false.
Proof.
  unfold F64.leb, F64.gtb, SFleb, SFltb.
  rewrite (SFcompare_antisym x y).
  destruct (SFcompare x y) as [[] | ]; simpl; congruence.
Qed.

(** Turns the comparisons of the context into (in)equalities. *)
Ltac order_facts :=
  repeat match goal with
         | H : (_ ?= _)%Z = Eq |- _ => apply Z.compare_eq_iff in H
         | H : (?a ?= ?b)%Z = Lt |- _ => change (a < b)%Z in H
         | H : (?a ?= ?b)%Z = Gt |- _ => change (a > b)%Z in H
         | H : (_ ?= _)%positive = Eq |- _ => apply Pos.compare_eq_iff in H
         | H : (?a ?= ?b)%positive = Lt |- _ => change (a < b)%positive in H
         | H : (?a ?= ?b)%positive = Gt |- _ => change (a > b)%positive in H
         end.

Lemma SFltb_trans (x y z : F64.float) :
  SFltb x y = true -> SFltb y z = true -> SFltb x z = true.
Proof.
  unfold SFltb.
  destruct x as [sx | sx | | sx mx ex], y as [sy | sy | | sy my ey],
           z as [sz | sz | | sz mz ez]; simpl;
    try destruct sx; try destruct sy; try destruct sz; simpl;
    try congruence;
    rewrite ?Pos.compare_cont_spec; unfold Pos.switch_Eq;
    destruct (ex ?= ey) eqn:E1, (ey ?= ez) eqn:E2, (ex ?= ez) eqn:E3;
    simpl; try congruence;
    destruct (mx ?= my)%positive eqn:F1, (my ?= mz)%positive eqn:F2,
             (mx ?= mz)%positive eqn:F3;
    simpl; try congruence; order_facts; subst; lia.
Qed.

(** An amount that does not exceed a threshold exceeds no larger one. *)
Lemma not_exceeds_mono (a : F64.float) (n m : Z) :
  exceeds a n = false ->
  F64.ltb (F64.of_Z n) (F64.of_Z m) = true ->
  exceeds a m = false.
Proof.
  unfold exceeds, F64.gtb, F64.ltb. intros Hn Hnm.
  destruct (SFltb (F64.of_Z m) a) eqn:Hm; [ | reflexivity ].
  rewrite (SFltb_trans _ _ _ Hnm Hm) in Hn. discriminate.
Qed.

(** ** The validator *)

Section ValidatorFacts.

Context {py : Python}.

(** The weekend check touches the warnings only. *)
Lemma weekend_check_is_valid (date : string) (r : Validation.t) :
  Validation.is_valid (weekend_check date r) = Validation.is_valid r.
Proof.
  unfold weekend_check.
  destruct (truthy date), (iso_weekday (replace_Z date)) as [d | ];
    try destruct (5 <=? d)%nat; reflexivity.
Qed.

Lemma weekend_check_violations (date : string) (r : Validation.t) :
  Validation.violations (weekend_check date r) = Validation.violations r.
Proof.
  unfold weekend_check.
  destruct (truthy date), (iso_weekday (replace_Z date)) as [d | ];
    try destruct (5 <=? d)%nat; reflexivity.
Qed.

Lemma weekend_check_documents (date : string) (r : Validation.t) :
  Validation.required_documents (weekend_check date r)
  = Validation.required_documents r.
Proof.
  unfold weekend_check.
  destruct (truthy date), (iso_weekday (replace_Z date)) as [d | ];
    try destruct (5 <=? d)%nat; reflexivity.
Qed.

Lemma weekend_check_references (date : string) (r : Validation.t) :
  Validation.policy_references (weekend_check date r)
  = Validation.policy_references r.
Proof.
  unfold weekend_check.
  destruct (truthy date), (iso_weekday (replace_Z date)) as [d | ];
    try destruct (5 <=? d)%nat; reflexivity.
Qed.

(** Splits every conditional of the rules in the goal. *)
Ltac split_rules :=
  repeat match goal with
         | |- context [if ?b then _ else _] => destruct b
         end.

(** Where the rules return, validity is exactly the absence of violations. *)
Lemma validation_rules_consistent (e : Expense.t) (r : Validation.t) :
  validation_rules e = Ok r ->
  (Validation.is_valid r = false <-> Validation.violations r <> []).
Proof.
  unfold validation_rules, bind.
  destruct (to_float (get (Expense.amount e) (VInt 0))) as [a | ex];
    [ | discriminate ].
  intros H; injection H as <-.
  rewrite weekend_check_is_valid, weekend_check_violations.
  cbv zeta. split_rules; simpl; split; intros; congruence.
Qed.

(** The validator without a context is the first component of the
    validator with one, whatever the context and the clock. *)
Lemma validate_expense_data_in_result (e : Expense.t)
    (ctx : option Validation.tool_context) (now : string) :
  fst (validate_expense_data_in e ctx now) = validate_expense_data e.
Proof.
  unfold validate_expense_data_in, validate_expense_data.
  destruct (validation_rules e); reflexivity.
Qed.

(** C3: for every expense record, well-formed or not, and whatever the tool
    context, the result of [validate_expense_data] has [is_valid] false if and
    only if its [violations] list is not empty. *)
Theorem validate_is_valid_iff_no_violation (e : Expense.t)
    (ctx : option Validation.tool_context) (now : string) :
  let r := fst (validate_expense_data_in e ctx now) in
  Validation.is_valid r = false <-> Validation.violations r <> [].
Proof.
  cbv zeta. rewrite validate_expense_data_in_result.
  unfold validate_expense_data.
  destruct (validation_rules e) as [r | ex] eqn:E.
  - exact (validation_rules_consistent e r E).
  - simpl. split; intros; congruence.
Qed.

(** C4: a record whose category is "meals" up to case and whose amount is a
    number above 100 is invalid, with the violation about the daily limit and
    the policy reference of Section 3.2. *)
Theorem validate_meals_over_daily_limit (e : Expense.t) (a : F64.float) :
  str_lower (get (Expense.category e) "") = "meals" ->
  to_float (get (Expense.amount e) (VInt 0)) = Ok a ->
  F64.gtb a (F64.of_Z 100) = true ->
  let r := validate_expense_data e in
  Validation.is_valid r = false
  /\ In ("Meal expense of $" ++ str_of_float a
         ++ " exceeds daily policy limit of $100")%string
       (Validation.violations r)
  /\ In "Section 3.2 - Meal Allowances" (Validation.policy_references r)
  /\ contains "Section 3.2" "Section 3.2 - Meal Allowances" = true.
Proof.
  intros Hcat Hamount Hover.
  unfold validate_expense_data, validation_rules, bind, exceeds.
  rewrite Hamount, Hcat, Hover.
  rewrite weekend_check_is_valid, weekend_check_violations,
    weekend_check_references.
  change ("meals" =? "meals")%string with true. cbv iota zeta.
  split_rules; simpl; repeat split; auto.
Qed.

(** Below the receipt threshold no rule asks for a document. *)
Lemma validate_no_document_up_to_25 (e : Expense.t) (a : F64.float) :
  to_float (get (Expense.amount e) (VInt 0)) = Ok a ->
  F64.leb a (F64.of_Z 25) = true ->
  Validation.required_documents (validate_expense_data e) = [].
Proof.
  intros Hamount Hle.
  assert (H25 : exceeds a 25 = false) by (apply leb_not_gtb; exact Hle).
  assert (H500 : exceeds a 500 = false)
    by (apply (not_exceeds_mono a 25 500 H25); reflexivity).
  assert (H1000 : exceeds a 1000 = false)
    by (apply (not_exceeds_mono a 25 1000 H25); reflexivity).
  unfold validate_expense_data, validation_rules, bind.
  rewrite Hamount, weekend_check_documents. cbv zeta.
  rewrite H25, H500, H1000, !andb_false_r. cbn [andb].
  split_rules; reflexivity.
Qed.

(** C5: for a record whose amount is at most 25 and that has no receipt, the
    required documents hold no "Receipt required" entry. *)
Theorem validate_no_receipt_required_up_to_25 (e : Expense.t) (a : F64.float) :
  to_float (get (Expense.amount e) (VInt 0)) = Ok a ->
  F64.leb a (F64.of_Z 25) = true ->
  get (Expense.has_receipt e) false = false ->
  forall d, In d (Validation.required_documents (validate_expense_data e)) ->
            String.prefix "Receipt required" d = false.
Proof.
  intros Hamount Hle _ d Hd.
  rewrite (validate_no_document_up_to_25 e a Hamount Hle) in Hd.
  destruct Hd.
Qed.

End ValidatorFacts.

(** ** The categorizer *)

Lemma dict_set_not_nil {V} (k : string) (v : V) (d : dict V) :
  dict_set k v d <> [].
Proof.
  destruct d as [ | [k' v'] d]; simpl; [ discriminate | ].
  destruct (k' =? k)%string; discriminate.
Qed.

(** A scoring loop leaves the scores empty exactly when they were empty and
    no keyword of its table occurs. *)
Lemma score_keywords_nil (cat : string) (table : dict F64.float)
    (dl ml : string) (scores : dict F64.float) :
  score_keywords cat table dl ml scores = [] <->
  scores = [] /\ forall entry, In entry table -> matches dl ml (fst entry) = false.
Proof.
  unfold score_keywords. revert scores.
  induction table as [ | entry table IH]; intros scores; simpl.
  - intuition.
  - rewrite IH. destruct (matches dl ml (fst entry)) eqn:E.
    + split.
      * intros [H _]. now apply dict_set_not_nil in H.
      * intros [_ H]. specialize (H entry (or_introl eq_refl)). congruence.
    + split.
      * intros [H1 H2]. split; [ exact H1 | ].
        intros x [<- | Hx]; auto.
      * intros [H1 H2]. split; [ exact H1 | ]. intros x Hx. apply H2. now right.
Qed.

Lemma score_all_nil (dl ml : string) :
  score_all dl ml = [] <-> no_keyword dl ml.
Proof.
  unfold score_all, no_keyword, all_keywords.
  rewrite !score_keywords_nil. split.
  - intros [[[[_ H1] H2] H3] H4] keyword Hk.
    apply in_map_iff in Hk. destruct Hk as (entry & <- & Hin).
    rewrite !in_app_iff in Hin. intuition.
  - intros H.
    assert (H' : forall entry,
               In entry (transport_keywords ++ lodging_keywords
                         ++ meal_keywords ++ office_keywords) ->
               matches dl ml (fst entry) = false)
      by (intros entry Hin; apply H, in_map, Hin).
    repeat split; intros entry Hin; apply H'; rewrite !in_app_iff; auto.
Qed.

(** The keys a scoring loop leaves are the keys it found, and its own. *)
Lemma dict_set_keys {V} (k : string) (v : V) (d : dict V) (x : string) :
  In x (map fst (dict_set k v d)) -> x = k \/ In x (map fst d).
Proof.
  induction d as [ | [k' v'] d IH]; simpl.
  - intros [<- | []]. now left.
  - destruct (String.eqb_spec k' k) as [-> | _]; simpl.
    + intros [<- | H]; auto.
    + intros [<- | H]; auto. destruct (IH H); auto.
Qed.

Lemma score_keywords_keys (cat : string) (table : dict F64.float)
    (dl ml : string) (scores : dict F64.float) (x : string) :
  In x (map fst (score_keywords cat table dl ml scores)) ->
  x = cat \/ In x (map fst scores).
Proof.
  unfold score_keywords. revert scores.
  induction table as [ | entry table IH]; intros scores; cbn [fold_left]; auto.
  destruct (matches dl ml (fst entry)); auto.
  intros H. destruct (IH _ H) as [H' | H']; auto.
  destruct (dict_set_keys _ _ _ _ H'); auto.
Qed.

(** Every scored category is one of the four. *)
Lemma score_all_keys (dl ml : string) (x : string * F64.float) :
  In x (score_all dl ml) ->
  In (fst x) ["transportation"; "lodging"; "meals"; "office_supplies"].
Proof.
  intros H. apply (in_map fst) in H. unfold score_all in H.
  apply score_keywords_keys in H. destruct H as [-> | H]; [ cbn; auto | ].
  apply score_keywords_keys in H. destruct H as [-> | H]; [ cbn; auto | ].
  apply score_keywords_keys in H. destruct H as [-> | H]; [ cbn; auto | ].
  apply score_keywords_keys in H. destruct H as [-> | []]. cbn; auto.
Qed.

Lemma max_by_score_in (items : dict F64.float) (x : string * F64.float) :
  max_by_score items = Some x -> In x items.
Proof.
  destruct items as [ | y l]; simpl; [ discriminate | ].
  intros H; injection H as <-. revert y.
  induction l as [ | z l IH]; intros y; simpl; auto.
  destruct (F64.gtb (snd z) (snd y)).
  - destruct (IH z); auto.
  - destruct (IH y); auto.
Qed.

Section CategorizerFacts.

Context {py : Python}.

(** C8: "Dinner with client", no merchant, 85: a business meal, with
    confidence 0.85 at least. *)
Theorem categorize_dinner_with_client :
  let r := categorize_expense "Dinner with client" "" (VInt 85) in
  Categorization.category r = "meals"
  /\ Categorization.subcategory r = "business_meal"
  /\ F64.leb (F64.decimal 85 100) (Categorization.confidence r) = true.
Proof.
  unfold categorize_expense.
  rewrite !str_lower_ascii by reflexivity.
  vm_compute. auto.
Qed.

(** C1, as the code has it: when no keyword occurs, the result is the
    default one, "miscellaneous"/"other" with confidence 0.2 and no
    alternative; and "miscellaneous"/"other" is returned in that case only. *)
Theorem categorize_fallback_iff_no_keyword
    (description merchant : string) (amount : value) :
  let r := categorize_expense description merchant amount in
  (no_keyword (str_lower description) (str_lower merchant) -> r = fallback)
  /\ (Categorization.category r = "miscellaneous" ->
      Categorization.subcategory r = "other" ->
      no_keyword (str_lower description) (str_lower merchant)).
Proof.
  cbv zeta. unfold categorize_expense, categorize_lowered.
  generalize (str_lower description) (str_lower merchant). intros dl ml.
  split.
  - intros H. apply score_all_nil in H. rewrite H. reflexivity.
  - destruct (max_by_score (score_all dl ml)) as [[c s] | ] eqn:E.
    + apply max_by_score_in, score_all_keys in E. simpl in E.
      unfold subcategory_of, bind.
      destruct E as [<- | [<- | [<- | [<- | []]]]]; simpl;
        try discriminate;
        destruct (value_gt amount 75); simpl; discriminate.
    + intros _ _. apply score_all_nil.
      destruct (score_all dl ml); [ reflexivity | discriminate ].
Qed.

End CategorizerFacts.

(** C1 as stated fails at the call it names: without any keyword the
    confidence is 0.2, not 0.0. *)
Lemma categorize_empty_confidence_not_zero :
  Categorization.confidence
    (@categorize_expense Reference.python "" "" (VInt 0))
  <> F64.zero.
Proof. vm_compute. discriminate. Qed.

(** The categorization of the empty call is the default one. *)
Lemma categorize_empty_is_fallback :
  no_keyword (@str_lower Reference.python "") (@str_lower Reference.python "")
  /\ @categorize_expense Reference.python "" "" (VInt 0) = fallback.
Proof.
  assert (H : no_keyword (@str_lower Reference.python "")
                         (@str_lower Reference.python "")).
  { intros keyword Hk. simpl in Hk.
    repeat (destruct Hk as [<- | Hk]; [ reflexivity | ]). destruct Hk. }
  split; [ exact H | ].
  exact (proj1 (@categorize_fallback_iff_no_keyword Reference.python
                  "" "" (VInt 0)) H).
Defined.

(** ** The order of floats *)

(** Case analysis on the floats of a goal about their order. *)
Ltac float_cases :=
  unfold F64.gtb, F64.ltb, F64.leb, SFltb, SFleb;
  repeat match goal with
         | x : F64.float |- _ => destruct x as [[] | [] | | [] ? ?]
         end;
  simpl; try congruence;
  rewrite ?Pos.compare_cont_spec; unfold Pos.switch_Eq;
  repeat match goal with
         | |- context [(?a ?= ?b)%Z] => destruct (a ?= b)%Z eqn:?
         | |- context [(?a ?= ?b)%positive] => destruct (a ?= b)%positive eqn:?
         end;
  simpl; try congruence; order_facts; subst; lia.

Lemma ltb_leb (x y : F64.float) :
  F64.ltb x y = true -> F64.leb x y = true.
Proof.
  unfold F64.ltb, F64.leb, SFltb, SFleb.
  destruct (SFcompare x y) as [[] | ]; congruence.
Qed.

Lemma leb_trans (x y z : F64.float) :
  F64.leb x y = true -> F64.leb y z = true -> F64.leb x z = true.
Proof. float_cases. Qed.

Lemma leb_ltb_trans (x y z : F64.float) :
  F64.leb x y = true -> F64.ltb y z = true -> F64.ltb x z = true.
Proof. float_cases. Qed.

Lemma ltb_trans (x y z : F64.float) :
  F64.ltb x y = true -> F64.ltb y z = true -> F64.ltb x z = true.
Proof. exact (SFltb_trans x y z). Qed.

Lemma ltb_not_leb (x y : F64.float) :
  F64.ltb x y = true -> F64.leb y x = true -> False.
Proof.
  unfold F64.ltb, F64.leb, SFltb, SFleb.
  rewrite (SFcompare_antisym x y).
  destruct (SFcompare x y) as [[] | ]; simpl; congruence.
Qed.

Lemma not_ltb_leb (x y : F64.float) :
  positive x -> positive y -> F64.ltb x y = false -> F64.leb y x = true.
Proof.
  unfold positive, F64.zero, F64.gtb, F64.ltb, F64.leb, SFltb, SFleb.
  rewrite (SFcompare_antisym x y).
  destruct x as [[] | [] | | [] ? ?], y as [[] | [] | | [] ? ?];
    simpl; try congruence;
    match goal with
    | |- context [match ?c with Eq => _ | Lt => _ | Gt => _ end] =>
        destruct c; simpl; try congruence;
        match goal with
        | |- context [Pos.compare_cont ?a ?b ?c] =>
            destruct (Pos.compare_cont a b c); simpl; congruence
        end
    end.
Qed.

Lemma leb_refl (x : F64.float) : positive x -> F64.leb x x = true.
Proof.
  intros H. apply not_ltb_leb; auto.
  destruct (F64.ltb x x) eqn:E; [ | reflexivity ].
  exfalso. apply (ltb_not_leb x x E). now apply ltb_leb.
Qed.

(** ** Scores and ranking *)

Lemma dict_get_set_same {V} (k : string) (v : V) (d : dict V) :
  dict_get k (dict_set k v d) = Some v.
Proof.
  induction d as [ | [k' v'] d IH]; simpl.
  - now rewrite String.eqb_refl.
  - destruct (k' =? k)%string eqn:E; simpl.
    + now rewrite String.eqb_refl.
    + now rewrite E.
Qed.

Lemma dict_get_set_other {V} (k k' : string) (v : V) (d : dict V) :
  k <> k' -> dict_get k' (dict_set k v d) = dict_get k' d.
Proof.
  intros Hk. induction d as [ | [k0 v0] d IH]; simpl.
  - apply String.eqb_neq in Hk. now rewrite Hk.
  - destruct (String.eqb_spec k0 k) as [-> | Hk0]; simpl.
    + apply String.eqb_neq in Hk. now rewrite Hk.
    + now rewrite IH.
Qed.

Lemma dict_get_in {V} (k : string) (v : V) (d : dict V) :
  dict_get k d = Some v -> In (k, v) d.
Proof.
  induction d as [ | [k' v'] d IH]; simpl; [ discriminate | ].
  destruct (String.eqb_spec k' k) as [-> | _].
  - intros H; injection H as ->. now left.
  - auto.
Qed.

Lemma dict_set_forall {V} (P : string * V -> Prop) (k : string) (v : V)
    (d : dict V) :
  Forall P d -> P (k, v) -> Forall P (dict_set k v d).
Proof.
  intros Hd Hv. induction Hd as [ | [k' v'] d Hx Hd IH]; simpl.
  - auto.
  - destruct (k' =? k)%string; auto.
Qed.

Lemma score_keywords_get_same (cat : string) (table : dict F64.float)
    (dl ml : string) (scores : dict F64.float) :
  dict_get cat (score_keywords cat table dl ml scores)
  = best_weight table dl ml (dict_get cat scores).
Proof.
  unfold score_keywords, best_weight. revert scores.
  induction table as [ | entry table IH]; intros scores; cbn [fold_left].
  - reflexivity.
  - rewrite IH. destruct (matches dl ml (fst entry)); [ | reflexivity ].
    now rewrite dict_get_set_same.
Qed.

Lemma score_keywords_get_other (cat c : string) (table : dict F64.float)
    (dl ml : string) (scores : dict F64.float) :
  cat <> c ->
  dict_get c (score_keywords cat table dl ml scores) = dict_get c scores.
Proof.
  intros Hc. unfold score_keywords. revert scores.
  induction table as [ | entry table IH]; intros scores; cbn [fold_left].
  - reflexivity.
  - rewrite IH. destruct (matches dl ml (fst entry)); [ | reflexivity ].
    now apply dict_get_set_other.
Qed.

Lemma max_positive (a b : F64.float) :
  positive b -> a = F64.zero \/ positive a -> positive (F64.max a b).
Proof.
  intros Hb Ha. unfold F64.max. destruct (F64.gtb b a) eqn:E; [ exact Hb | ].
  destruct Ha as [-> | Ha]; [ | exact Ha ]. unfold positive in Hb. congruence.
Qed.

(** From a positive score on, the loop keeps the largest weight seen. *)
Lemma best_weight_from (table : dict F64.float) (dl ml : string)
    (s0 : F64.float) :
  Forall (fun entry => positive (snd entry)) table ->
  positive s0 ->
  exists s,
    best_weight table dl ml (Some s0) = Some s
    /\ positive s
    /\ F64.leb s0 s = true
    /\ (s = s0 \/ In s (matched_weights table dl ml))
    /\ forall w, In w (matched_weights table dl ml) -> F64.leb w s = true.
Proof.
  unfold best_weight, matched_weights. intros Htable. revert s0.
  induction Htable as [ | entry table He Htable IH]; intros s0 Hs0;
    cbn [fold_left filter].
  - exists s0. repeat split; auto using leb_refl; try easy.
  - destruct (matches dl ml (fst entry)); cbn [get map].
    + assert (Hm : positive (F64.max s0 (snd entry)))
        by (apply max_positive; auto).
      destruct (IH _ Hm) as (s & E & Hs & Hle & Hin & Hall).
      assert (H0 : F64.leb s0 (F64.max s0 (snd entry)) = true
                   /\ F64.leb (snd entry) (F64.max s0 (snd entry)) = true).
      { unfold F64.max. unfold F64.gtb. fold (F64.ltb s0 (snd entry)).
        destruct (F64.ltb s0 (snd entry)) eqn:El.
        - split; [ now apply ltb_leb | now apply leb_refl ].
        - split; [ now apply leb_refl | now apply not_ltb_leb ]. }
      destruct H0 as [H1 H2].
      exists s. repeat split; auto.
      * eapply leb_trans; eauto.
      * destruct Hin as [-> | Hin]; [ | right; now right ].
        unfold F64.max. destruct (F64.gtb (snd entry) s0); auto.
        right. now left.
      * intros w [<- | Hw]; auto. eapply leb_trans; eauto.
    + destruct (IH _ Hs0) as (s & E & Hs & Hle & Hin & Hall).
      exists s. auto.
Qed.

(** From no score, the loop ends with the maximum of the matched weights,
    or with no score when nothing matched. *)
Lemma best_weight_maximum (table : dict F64.float) (dl ml : string) :
  Forall (fun entry => positive (snd entry)) table ->
  match best_weight table dl ml None with
  | Some s => maximum_of (matched_weights table dl ml) s /\ positive s
  | None => matched_weights table dl ml = []
  end.
Proof.
  unfold best_weight, matched_weights.
  induction 1 as [ | entry table He Htable IH]; cbn [fold_left filter].
  - reflexivity.
  - destruct (matches dl ml (fst entry)); cbn [get map]; [ | exact IH ].
    assert (Hm : F64.max F64.zero (snd entry) = snd entry)
      by (unfold F64.max; now rewrite He).
    rewrite Hm.
    destruct (best_weight_from table dl ml (snd entry) Htable He)
      as (s & E & Hs & Hle & Hin & Hall).
    unfold best_weight in E. rewrite E. split; [ | exact Hs ]. split.
    + destruct Hin as [-> | Hin]; [ now left | now right ].
    + intros w [<- | Hw]; auto.
Qed.

Lemma tables_positive (cat : string) (table : dict F64.float) :
  In (cat, table) category_tables ->
  Forall (fun entry => positive (snd entry)) table.
Proof.
  intros H. apply Forall_forall. intros entry Hentry.
  assert (E : forallb (fun entry => F64.gtb (snd entry) F64.zero)
                (transport_keywords ++ lodging_keywords
                 ++ meal_keywords ++ office_keywords) = true)
    by (vm_compute; reflexivity).
  rewrite forallb_forall in E. apply E. rewrite !in_app_iff.
  simpl in H. intuition; match goal with
                         | H : (_, _) = (_, _) |- _ => injection H as <- <-
                         end; auto.
Qed.

(** Each category's score is the maximum of the weights of its keywords that
    occur, and a category none of whose keywords occurs has no score. *)
Lemma score_all_maximum (dl ml cat : string) (table : dict F64.float) :
  In (cat, table) category_tables ->
  match dict_get cat (score_all dl ml) with
  | Some s => maximum_of (matched_weights table dl ml) s
  | None => matched_weights table dl ml = []
  end.
Proof.
  intros Hin.
  assert (E : dict_get cat (score_all dl ml) = best_weight table dl ml None).
  { unfold score_all. simpl in Hin.
    destruct Hin as [H | [H | [H | [H | []]]]]; injection H as <- <-;
      repeat first
        [ rewrite score_keywords_get_same
        | rewrite score_keywords_get_other by discriminate ];
      reflexivity. }
  rewrite E. pose proof (best_weight_maximum table dl ml
                           (tables_positive cat table Hin)) as H.
  destruct (best_weight table dl ml None); [ apply H | exact H ].
Qed.

Lemma score_keywords_positive (cat : string) (table : dict F64.float)
    (dl ml : string) (scores : dict F64.float) :
  Forall (fun entry => positive (snd entry)) table ->
  positive_scores scores ->
  positive_scores (score_keywords cat table dl ml scores).
Proof.
  unfold score_keywords, positive_scores. intros Htable. revert scores.
  induction Htable as [ | entry table He Htable IH]; intros scores Hs;
    cbn [fold_left]; auto.
  destruct (matches dl ml (fst entry)); auto.
  apply IH, dict_set_forall; auto. cbn [snd].
  apply max_positive; auto.
  destruct (dict_get cat scores) as [s | ] eqn:E; cbn [get]; auto.
  right. apply dict_get_in in E.
  unfold positive_scores in Hs. rewrite Forall_forall in Hs.
  exact (Hs _ E).
Qed.

Lemma score_all_positive (dl ml : string) : positive_scores (score_all dl ml).
Proof.
  unfold score_all.
  repeat (apply score_keywords_positive;
          [ eapply tables_positive; simpl; eauto 6 | ]).
  constructor.
Qed.

(** [max] with a key returns the first maximum. *)
Lemma max_by_score_first_maximum (items : dict F64.float)
    (best : string * F64.float) :
  positive_scores items ->
  max_by_score items = Some best ->
  first_maximum items best.
Proof.
  destruct items as [ | x l]; [ discriminate | ].
  intros Hpos H. cbn [max_by_score] in H. injection H as H.
  assert (G : forall l seen b,
             positive_scores (seen ++ l) ->
             first_maximum seen b ->
             first_maximum (seen ++ l)
               (fold_left
                  (fun best y =>
                     if F64.gtb (snd y) (snd best) then y else best) l b)).
  { clear. induction l as [ | y l IH]; intros seen b Hpos Hb; cbn [fold_left].
    - now rewrite app_nil_r.
    - replace (seen ++ y :: l)%list with ((seen ++ [y]) ++ l)%list in *
        by (rewrite <- app_assoc; reflexivity).
      apply IH; [ exact Hpos | ].
      destruct Hb as (l1 & l2 & -> & H1 & H2).
      assert (Pb : positive (snd b) /\ positive (snd y)).
      { unfold positive_scores in Hpos. rewrite Forall_forall in Hpos.
        split; apply Hpos; rewrite !in_app_iff; simpl; auto. }
      destruct Pb as [Pb Py].
      unfold F64.gtb. fold (F64.ltb (snd b) (snd y)).
      destruct (F64.ltb (snd b) (snd y)) eqn:E.
      + exists (l1 ++ b :: l2)%list, []. split; [ reflexivity | ].
        split; [ | intros z [] ].
        intros z Hz. apply in_app_iff in Hz.
        destruct Hz as [Hz | [<- | Hz]].
        * eapply ltb_trans; eauto.
        * exact E.
        * eapply leb_ltb_trans; eauto.
      + exists l1, (l2 ++ [y])%list. split.
        * rewrite <- app_assoc. reflexivity.
        * split; [ exact H1 | ].
          intros z Hz. apply in_app_iff in Hz.
          destruct Hz as [Hz | [<- | []]]; auto.
          now apply not_ltb_leb. }
  specialize (G l [x] x Hpos). cbn [app] in G. rewrite H in G. apply G.
  exists [], []. split; [ reflexivity | ]. split; intros z [].
Qed.

(** A list has one first maximum at most. *)
Lemma first_maximum_unique (l : dict F64.float) (x y : string * F64.float) :
  first_maximum l x -> first_maximum l y -> x = y.
Proof.
  intros (l1 & l2 & -> & H1 & H2) (k1 & k2 & E & K1 & K2).
  apply app_eq_app in E. destruct E as (m & [[-> E] | [-> E]]).
  - destruct m as [ | z m]; cbn [app] in E.
    + now injection E.
    + injection E as <- ->. exfalso.
      apply (ltb_not_leb (snd y) (snd x)).
      * apply H1. rewrite in_app_iff. right. now left.
      * apply K2. rewrite in_app_iff. right. now left.
  - destruct m as [ | z m]; cbn [app] in E.
    + now injection E.
    + injection E as <- ->. exfalso.
      apply (ltb_not_leb (snd x) (snd y)).
      * apply K1. rewrite in_app_iff. right. now left.
      * apply H2. rewrite in_app_iff. right. now left.
Qed.

(** The sort returns the items it was given. *)
Lemma insert_desc_perm (x : string * F64.float) (l : dict F64.float) :
  Permutation (insert_desc x l) (x :: l).
Proof.
  induction l as [ | y l IH]; cbn [insert_desc]; [ reflexivity | ].
  destruct (F64.ltb (snd x) (snd y)); [ | reflexivity ].
  rewrite IH. apply perm_swap.
Qed.

Lemma sorted_desc_perm (l : dict F64.float) : Permutation (sorted_desc l) l.
Proof.
  induction l as [ | x l IH]; cbn [sorted_desc]; [ reflexivity | ].
  rewrite insert_desc_perm. now apply perm_skip.
Qed.

Lemma positive_scores_perm (l l' : dict F64.float) :
  Permutation l l' -> positive_scores l -> positive_scores l'.
Proof. intros H. unfold positive_scores. now rewrite H. Qed.

(** It returns them in descending order. *)
Lemma insert_desc_descending (x : string * F64.float) (l : dict F64.float) :
  positive (snd x) -> positive_scores l ->
  descending l -> descending (insert_desc x l).
Proof.
  unfold descending. intros Hx Hpos Hl.
  induction Hl as [ | y l Hl IH Hy]; cbn [insert_desc].
  - repeat constructor.
  - inversion Hpos as [ | ? ? Py Pl]; subst.
    destruct (F64.ltb (snd x) (snd y)) eqn:E.
    + constructor; [ now apply IH | ].
      rewrite (insert_desc_perm x l). constructor; [ | exact Hy ].
      now apply ltb_leb.
    + assert (Hyx : F64.leb (snd y) (snd x) = true) by now apply not_ltb_leb.
      constructor; [ now constructor | ].
      constructor; [ exact Hyx | ].
      rewrite Forall_forall in Hy |- *. intros z Hz.
      eapply leb_trans; [ apply Hy, Hz | exact Hyx ].
Qed.

Lemma sorted_desc_descending (l : dict F64.float) :
  positive_scores l -> descending (sorted_desc l).
Proof.
  induction 1 as [ | x l Hx Hl IH]; cbn [sorted_desc].
  - constructor.
  - apply insert_desc_descending; auto.
    apply (positive_scores_perm l); [ | exact Hl ].
    symmetry. apply sorted_desc_perm.
Qed.

(** It is stable: its first item is the first maximum. *)
Lemma sorted_desc_head (l : dict F64.float) :
  positive_scores l -> l <> [] ->
  exists best rest,
    sorted_desc l = best :: rest /\ first_maximum l best.
Proof.
  induction 1 as [ | x l Hx Hl IH]; [ congruence | ]. intros _.
  cbn [sorted_desc]. destruct l as [ | y l].
  - exists x, []. split; [ reflexivity | ].
    exists [], []. split; [ reflexivity | ]. split; intros z [].
  - destruct IH as (b & rest & E & l1 & l2 & El & H1 & H2); [ discriminate | ].
    rewrite E. cbn [insert_desc].
    assert (Pb : positive (snd b)).
    { unfold positive_scores in Hl. rewrite Forall_forall in Hl.
      apply Hl. rewrite El, in_app_iff. right. now left. }
    destruct (F64.ltb (snd x) (snd b)) eqn:Ex.
    + exists b, (insert_desc x rest). split; [ reflexivity | ].
      exists (x :: l1), l2. rewrite El. split; [ reflexivity | ].
      split; [ | exact H2 ]. intros z [<- | Hz]; auto.
    + assert (Hbx : F64.leb (snd b) (snd x) = true) by now apply not_ltb_leb.
      exists x, (b :: rest). split; [ reflexivity | ].
      exists [], (y :: l). split; [ reflexivity | ].
      split; [ intros z [] | ].
      intros z Hz. rewrite El, in_app_iff in Hz.
      destruct Hz as [Hz | [<- | Hz]].
      * eapply leb_trans; [ apply ltb_leb, H1, Hz | exact Hbx ].
      * exact Hbx.
      * eapply leb_trans; [ apply H2, Hz | exact Hbx ].
Qed.

Section RankingFacts.

Context {py : Python}.

(** C7: each category's score is the maximum weight among the keywords of
    its table that occur in the lowered description or merchant; where the
    categorizer returns a scored category, it is the first one with the
    highest score; and the alternatives are the next two of the scored
    categories in descending order of score, two at most. *)
Theorem categorize_maximum_and_ranking
    (description merchant : string) (amount : value) :
  let dl := str_lower description in
  let ml := str_lower merchant in
  let scores := score_all dl ml in
  let r := categorize_expense description merchant amount in
  let best := (Categorization.category r, Categorization.confidence r) in
  let alternatives := Categorization.alternative_categories r in
  (forall cat table,
      In (cat, table) category_tables ->
      match dict_get cat scores with
      | Some s => maximum_of (matched_weights table dl ml) s
      | None => matched_weights table dl ml = []
      end)
  /\ (scores <> [] -> Categorization.error r = None ->
      first_maximum scores best
      /\ (List.length alternatives <= 2)%nat
      /\ exists rest,
          Permutation scores (best :: alternatives ++ rest)
          /\ descending (best :: alternatives ++ rest)
          /\ ((List.length alternatives < 2)%nat -> rest = [])).
Proof.
  cbv zeta. split.
  - intros cat table. apply score_all_maximum.
  - unfold categorize_expense, categorize_lowered.
    generalize (str_lower description) (str_lower merchant). intros dl ml.
    intros Hne.
    pose proof (score_all_positive dl ml) as Hpos.
    destruct (sorted_desc_head _ Hpos Hne) as (b & tail & Es & Hb).
    destruct (max_by_score (score_all dl ml)) as [[c s] | ] eqn:Em.
    + pose proof (max_by_score_first_maximum _ _ Hpos Em) as Hm.
      assert (Eb : b = (c, s)) by (eapply first_maximum_unique; eauto).
      subst b. rewrite Es. cbn [skipn].
      unfold bind.
      destruct (subcategory_of c dl amount) as [sub | ex];
        cbn [Categorization.category Categorization.confidence
             Categorization.alternative_categories Categorization.error];
        [ intros _ | discriminate ].
      split; [ exact Hm | ].
      split; [ rewrite length_firstn; lia | ].
      exists (skipn 2 tail). rewrite firstn_skipn.
      split; [ rewrite <- Es; symmetry; apply sorted_desc_perm | ].
      split; [ rewrite <- Es; now apply sorted_desc_descending | ].
      rewrite length_firstn. intros Hlen.
      apply skipn_all2. lia.
    + destruct (score_all dl ml); [ congruence | discriminate ].
Qed.

End RankingFacts.

(** An instance of C7: a ride to a hotel for lunch, paid at an office supply
    store, scores three categories; lodging wins, and the two others follow
    in the order they were scored. *)
Lemma categorize_ranking_example :
  let r := @categorize_expense Reference.python
             "Uber to hotel for lunch" "Staples" (VInt 0) in
  Categorization.category r = "lodging"
  /\ map fst (Categorization.alternative_categories r)
     = ["transportation"; "office_supplies"]
  /\ first_maximum
       (score_all (@str_lower Reference.python "Uber to hotel for lunch")
                  (@str_lower Reference.python "Staples"))
       (Categorization.category r, Categorization.confidence r).
Proof.
  split; [ vm_compute; reflexivity | ].
  split; [ vm_compute; reflexivity | ].
  apply (@categorize_maximum_and_ranking Reference.python
           "Uber to hotel for lunch" "Staples" (VInt 0)).
  - vm_compute. discriminate.
  - vm_compute. reflexivity.
Defined.

(** ** Lists and permutations *)

(** A left fold whose steps commute on the elements of a list takes the same
    value on every permutation of it. *)
Lemma fold_left_permutation {A S : Type} (f : S -> A -> S) (l l' : list A) :
  Permutation l l' ->
  (forall s a b, In a l -> In b l -> f (f s a) b = f (f s b) a) ->
  forall s, fold_left f l s = fold_left f l' s.
Proof.
  induction 1 as [ | x l l' Hp IH | x y l | l l' l'' H1 IH1 H2 IH2];
    intros Hf s; cbn [fold_left].
  - reflexivity.
  - apply IH. intros s' a b Ha Hb. apply Hf; now right.
  - rewrite (Hf s y x); [ reflexivity | now left | right; now left ].
  - rewrite IH1 by exact Hf. apply IH2.
    intros s' a b Ha Hb.
    apply Hf; eapply Permutation_in; try eassumption; now symmetry.
Qed.

Lemma forallb_permutation {A : Type} (f : A -> bool) (l l' : list A) :
  Permutation l l' -> forallb f l = forallb f l'.
Proof.
  induction 1 as [ | x l l' Hp IH | x y l | l l' l'' H1 IH1 H2 IH2];
    cbn [forallb].
  - reflexivity.
  - now rewrite IH.
  - destruct (f x), (f y); reflexivity.
  - now rewrite IH1.
Qed.

Lemma filter_permutation {A : Type} (f : A -> bool) (l l' : list A) :
  Permutation l l' -> Permutation (filter f l) (filter f l').
Proof.
  induction 1 as [ | x l l' Hp IH | x y l | l l' l'' H1 IH1 H2 IH2];
    cbn [filter].
  - reflexivity.
  - destruct (f x); [ now apply perm_skip | exact IH ].
  - destruct (f x), (f y); try reflexivity. apply perm_swap.
  - now rewrite IH1.
Qed.

(** ** The order of strings *)

Lemma string_ltb_lt (x y : string) :
  (x <? y)%string = true <-> OrderedTypeEx.String_as_OT.lt x y.
Proof.
  unfold String.ltb. split; intros H.
  - apply OrderedTypeEx.String_as_OT.cmp_lt.
    unfold OrderedTypeEx.String_as_OT.cmp. revert H.
    destruct (String.compare x y); congruence.
  - apply OrderedTypeEx.String_as_OT.cmp_lt in H.
    unfold OrderedTypeEx.String_as_OT.cmp in H. now rewrite H.
Qed.

Lemma string_ltb_trans (x y z : string) :
  (x <? y)%string = true -> (y <? z)%string = true -> (x <? z)%string = true.
Proof.
  rewrite !string_ltb_lt. apply OrderedTypeEx.String_as_OT.lt_trans.
Qed.

Lemma string_ltb_asym (x y : string) :
  (x <? y)%string = true -> (y <? x)%string = false.
Proof.
  unfold String.ltb. rewrite (String.compare_antisym y x).
  destruct (String.compare x y); simpl; congruence.
Qed.

Lemma string_ltb_total (x y : string) :
  (x <? y)%string = false -> (y <? x)%string = false -> x = y.
Proof.
  unfold String.ltb. rewrite (String.compare_antisym y x).
  destruct (String.compare x y) eqn:E; simpl; try congruence.
  intros _ _. now apply String.compare_eq_iff.
Qed.

(** Two insertions commute. *)
Lemma insert_sorted_comm (x y : string) (l : list string) :
  insert_sorted x (insert_sorted y l) = insert_sorted y (insert_sorted x l).
Proof.
  induction l as [ | z l IH]; cbn [insert_sorted].
  - destruct (x <? y)%string eqn:Exy.
    + now rewrite (string_ltb_asym _ _ Exy).
    + destruct (y <? x)%string eqn:Eyx; [ reflexivity | ].
      now rewrite (string_ltb_total x y).
  - destruct (y <? z)%string eqn:Eyz, (x <? z)%string eqn:Exz;
      cbn [insert_sorted]; rewrite ?Eyz, ?Exz.
    + destruct (x <? y)%string eqn:Exy.
      * now rewrite (string_ltb_asym _ _ Exy).
      * destruct (y <? x)%string eqn:Eyx; [ reflexivity | ].
        now rewrite (string_ltb_total x y).
    + destruct (x <? y)%string eqn:Exy; [ | reflexivity ].
      rewrite (string_ltb_trans _ _ _ Exy Eyz) in Exz. discriminate.
    + destruct (y <? x)%string eqn:Eyx; [ | reflexivity ].
      rewrite (string_ltb_trans _ _ _ Eyx Exz) in Eyz. discriminate.
    + now rewrite IH.
Qed.

(** Sorting forgets the order of its input. *)
Lemma sort_strings_permutation (l l' : list string) :
  Permutation l l' -> sort_strings l = sort_strings l'.
Proof.
  intros H. unfold sort_strings.
  apply fold_left_permutation; [ exact H | ].
  intros s a b _ _. apply insert_sorted_comm.
Qed.

(** ** Exact sums *)

Lemma iter_xO_value (m p : Pos.t) :
  Zpos (Pos.iter xO m p) = Zpos m * 2 ^ Zpos p.
Proof.
  induction p as [ | p IH] using Pos.peano_ind.
  - cbn [Pos.iter]. lia.
  - rewrite Pos.iter_succ, Pos2Z.inj_xO, IH, Pos2Z.inj_succ, Z.pow_succ_r; lia.
Qed.

Lemma shl_value (m : Pos.t) (k : Z) :
  0 <= k -> Zpos (shl m k) = Zpos m * 2 ^ k.
Proof.
  destruct k as [ | p | p]; intros H; cbn [shl].
  - lia.
  - apply iter_xO_value.
  - lia.
Qed.

Lemma iter_xO_digits (m p : Pos.t) :
  Zpos (digits2_pos (Pos.iter xO m p)) = Zpos (digits2_pos m) + Zpos p.
Proof.
  induction p as [ | p IH] using Pos.peano_ind.
  - cbn [Pos.iter digits2_pos]. lia.
  - rewrite Pos.iter_succ. cbn [digits2_pos]. lia.
Qed.

Lemma shl_digits (m : Pos.t) (k : Z) :
  0 <= k -> Zpos (digits2_pos (shl m k)) = Zpos (digits2_pos m) + k.
Proof.
  destruct k as [ | p | p]; intros H; cbn [shl].
  - lia.
  - apply iter_xO_digits.
  - lia.
Qed.

Lemma digits2_pos_size (m : Pos.t) : digits2_pos m = Pos.size m.
Proof. induction m; cbn; congruence. Qed.

Lemma digits_bound (m : Pos.t) (d : Z) :
  0 <= d -> Zpos m < 2 ^ d -> Zpos (digits2_pos m) <= d.
Proof.
  intros Hd H. rewrite digits2_pos_size.
  pose proof (Pos.size_le m) as L.
  destruct (Z_le_gt_dec (Zpos (Pos.size m)) d) as [ | G]; [ assumption | ].
  exfalso.
  assert (2 ^ (d + 1) <= 2 ^ Zpos (Pos.size m))
    by (apply Z.pow_le_mono_r; lia).
  rewrite Z.pow_add_r in H0 by lia.
  assert (Zpos (2 ^ Pos.size m) <= Zpos (m~0)) by exact L.
  rewrite Pos2Z.inj_pow in H1. lia.
Qed.

(** The iteration of SpecFloat is the one of [Pos]. *)
Lemma iter_pos_iter {A} (f : A -> A) (n : Pos.t) (x : A) :
  iter_pos f n x = Pos.iter f x n.
Proof.
  revert x. induction n as [n IH | n IH | ]; intros x; cbn [iter_pos Pos.iter].
  - rewrite !IH. now rewrite <- !Pos.iter_swap.
  - now rewrite !IH.
  - reflexivity.
Qed.

(** Shifting right the zeros that a shift to the left brought in is exact. *)
Lemma shr_iter_xO (m p : Pos.t) :
  Pos.iter shr_1 (Build_shr_record (Zpos (Pos.iter xO m p)) false false) p
  = Build_shr_record (Zpos m) false false.
Proof.
  induction p as [ | p IH] using Pos.peano_ind.
  - reflexivity.
  - rewrite Pos.iter_succ_r, Pos.iter_succ. exact IH.
Qed.

Lemma fexp_eq (e : Z) : fexp F64.prec F64.emax e = Z.max (e - 53) (-1074).
Proof. reflexivity. Qed.

(** Rounding [m * 2^k] at exponent [e - k]: where [m] at exponent [e] needs
    no shift to the right, the result is the canonical float of that value,
    whatever [k]. *)
Lemma binary_round_shl (s : bool) (m : Pos.t) (e k : Z) :
  0 <= k ->
  let e' := fexp F64.prec F64.emax (Zpos (digits2_pos m) + e) in
  e' <= e ->
  binary_round F64.prec F64.emax s (shl m k) (e - k)
  = if e' <=? F64.emax - F64.prec
    then S754_finite s (shl m (e - e')) e'
    else S754_infinity s.
Proof.
  intros Hk e' He. unfold binary_round.
  assert (D : Zpos (digits2_pos (shl m k)) + (e - k)
              = Zpos (digits2_pos m) + e)
    by (rewrite shl_digits by assumption; lia).
  rewrite D. fold e'.
  assert (T : forall m' ez,
            m' = shl m (e - e') -> ez = e' ->
            binary_round_aux F64.prec F64.emax s (Zpos m') ez loc_Exact
            = if e' <=? F64.emax - F64.prec
              then S754_finite s (shl m (e - e')) e'
              else S754_infinity s).
  { intros m' ez -> ->. unfold binary_round_aux, shr_fexp.
    cbn [Zdigits2 shr_record_of_loc].
    rewrite shl_digits by lia.
    replace (Zpos (digits2_pos m) + (e - e') + e')
      with (Zpos (digits2_pos m) + e) by lia.
    fold e'. rewrite Z.sub_diag. cbn [shr loc_of_shr_record shr_m
                                      round_nearest_even Zdigits2
                                      shr_record_of_loc].
    rewrite shl_digits by lia.
    replace (Zpos (digits2_pos m) + (e - e') + e')
      with (Zpos (digits2_pos m) + e) by lia.
    fold e'. rewrite Z.sub_diag. cbn [shr shr_m]. reflexivity. }
  unfold shl_align.
  destruct (e' - (e - k)) as [ | p | p] eqn:S.
  - apply T; [ | lia ]. f_equal. lia.
  - (* shifted too far to the left: the shift to the right is exact *)
    unfold binary_round_aux, shr_fexp. cbn [Zdigits2 shr_record_of_loc].
    rewrite D. fold e'. rewrite S. cbn [shr].
    rewrite iter_pos_iter.
    assert (E : shl m k = Pos.iter xO (shl m (e - e')) p).
    { apply Pos2Z.inj. rewrite iter_xO_value, !shl_value by lia.
      rewrite <- Z.mul_assoc, <- Z.pow_add_r by lia. f_equal. f_equal. lia. }
    rewrite E, shr_iter_xO.
    cbn [loc_of_shr_record shr_m round_nearest_even Zdigits2
         shr_record_of_loc].
    rewrite shl_digits by lia.
    replace (Zpos (digits2_pos m) + (e - e') + (e - k + Zpos p))
      with (Zpos (digits2_pos m) + e) by lia.
    fold e'. replace (e' - (e - k + Zpos p)) with 0 by lia.
    cbn [shr shr_m]. replace (e - k + Zpos p) with e' by lia. reflexivity.
  - apply T; [ | reflexivity ].
    apply Pos2Z.inj. rewrite iter_xO_value, !shl_value by lia.
    rewrite <- Z.mul_assoc, <- Z.pow_add_r by lia. f_equal. f_equal. lia.
Qed.

Lemma exponent_of_le (n : Pos.t) (e : Z) :
  small (Zpos n) -> exponent_in_range e -> -1074 <= exponent_of n e <= e.
Proof.
  unfold small, exponent_in_range, exponent_of. intros Hn He. rewrite fexp_eq.
  pose proof (digits_bound n 53 ltac:(lia) Hn). lia.
Qed.

Lemma binary_round_small (s : bool) (n : Pos.t) (e k : Z) :
  small (Zpos n) -> exponent_in_range e -> 0 <= k ->
  binary_round F64.prec F64.emax s (shl n k) (e - k)
  = S754_finite s (shl n (e - exponent_of n e)) (exponent_of n e).
Proof.
  intros Hn He Hk. pose proof (exponent_of_le n e Hn He) as B.
  rewrite (binary_round_shl s n e k Hk) by apply B.
  fold (exponent_of n e).
  unfold exponent_in_range in He.
  destruct (Z.leb_spec (exponent_of n e) (F64.emax - F64.prec));
    [ reflexivity | lia ].
Qed.

Lemma dyadic_pos (n : Pos.t) (e : Z) :
  small (Zpos n) -> exponent_in_range e ->
  dyadic (Zpos n) e
  = S754_finite false (shl n (e - exponent_of n e)) (exponent_of n e).
Proof.
  intros Hn He. unfold dyadic, binary_normalize.
  pose proof (binary_round_small false n e 0 Hn He (Z.le_refl 0)) as R.
  cbn [shl] in R. now rewrite Z.sub_0_r in R.
Qed.

Lemma dyadic_neg (n : Pos.t) (e : Z) :
  small (Zpos n) -> exponent_in_range e ->
  dyadic (Zneg n) e
  = S754_finite true (shl n (e - exponent_of n e)) (exponent_of n e).
Proof.
  intros Hn He. unfold dyadic, binary_normalize.
  pose proof (binary_round_small true n e 0 Hn He (Z.le_refl 0)) as R.
  cbn [shl] in R. now rewrite Z.sub_0_r in R.
Qed.

(** The mantissa of a float of [n * 2^e], aligned at a lower exponent. *)
Lemma shl_align_value (n : Pos.t) (e ez : Z) :
  small (Zpos n) -> exponent_in_range e -> ez <= exponent_of n e ->
  Zpos (fst (shl_align (shl n (e - exponent_of n e)) (exponent_of n e) ez))
  = Zpos n * 2 ^ (e - ez).
Proof.
  intros Hn He Hz. pose proof (exponent_of_le n e Hn He) as B.
  unfold shl_align.
  destruct (ez - exponent_of n e) as [ | p | p] eqn:S; cbn [fst].
  - rewrite shl_value by lia. f_equal. f_equal. lia.
  - lia.
  - rewrite iter_xO_value, shl_value by lia.
    rewrite <- Z.mul_assoc, <- Z.pow_add_r by lia. f_equal. f_equal. lia.
Qed.

(** The sign and the magnitude of a non-zero integer. *)
Lemma dyadic_finite (n e : Z) :
  small n -> exponent_in_range e -> n <> 0 ->
  dyadic n e
  = S754_finite (n <? 0) (shl (Z.to_pos (Z.abs n))
                            (e - exponent_of (Z.to_pos (Z.abs n)) e))
      (exponent_of (Z.to_pos (Z.abs n)) e).
Proof.
  intros Hn He H0. destruct n as [ | p | p]; [ congruence | | ].
  - now apply dyadic_pos.
  - now apply dyadic_neg.
Qed.

(** The sum of two small multiples of [2^e] is exact when it is small. *)
Lemma add_dyadic (a b e : Z) :
  exponent_in_range e -> small a -> small b -> small (a + b) ->
  F64.add (dyadic a e) (dyadic b e) = dyadic (a + b) e.
Proof.
  intros He Ha Hb Hab.
  destruct (Z.eq_dec a 0) as [-> | Na].
  { change (dyadic 0 e) with (S754_zero false). cbn [Z.add].
    destruct (Z.eq_dec b 0) as [-> | Nb]; [ reflexivity | ].
    now rewrite (dyadic_finite b e Hb He Nb). }
  destruct (Z.eq_dec b 0) as [-> | Nb].
  { change (dyadic 0 e) with (S754_zero false). rewrite Z.add_0_r.
    now rewrite (dyadic_finite a e Ha He Na). }
  rewrite (dyadic_finite a e Ha He Na), (dyadic_finite b e Hb He Nb).
  set (pa := Z.to_pos (Z.abs a)). set (pb := Z.to_pos (Z.abs b)).
  assert (Spa : small (Zpos pa)) by (unfold small, pa in *; lia).
  assert (Spb : small (Zpos pb)) by (unfold small, pb in *; lia).
  pose proof (exponent_of_le pa e Spa He) as Ba.
  pose proof (exponent_of_le pb e Spb He) as Bb.
  unfold F64.add, SFadd.
  set (ez := Z.min (exponent_of pa e) (exponent_of pb e)).
  rewrite (shl_align_value pa e ez Spa He) by (unfold ez; lia).
  rewrite (shl_align_value pb e ez Spb He) by (unfold ez; lia).
  assert (Va : cond_Zopp (a <? 0) (Zpos pa * 2 ^ (e - ez))
               = a * 2 ^ (e - ez)).
  { unfold cond_Zopp, pa. rewrite Z2Pos.id by lia.
    destruct (Z.ltb_spec a 0);
      [ rewrite Z.abs_neq by lia | rewrite Z.abs_eq by lia ]; ring. }
  assert (Vb : cond_Zopp (b <? 0) (Zpos pb * 2 ^ (e - ez))
               = b * 2 ^ (e - ez)).
  { unfold cond_Zopp, pb. rewrite Z2Pos.id by lia.
    destruct (Z.ltb_spec b 0);
      [ rewrite Z.abs_neq by lia | rewrite Z.abs_eq by lia ]; ring. }
  rewrite Va, Vb, <- Z.mul_add_distr_r.
  assert (Hk : 0 <= e - ez) by (unfold ez; lia).
  assert (P : 0 < 2 ^ (e - ez)) by (apply Z.pow_pos_nonneg; lia).
  unfold dyadic, binary_normalize.
  destruct (a + b) as [ | p | p] eqn:Sum.
  - reflexivity.
  - replace (Zpos p * 2 ^ (e - ez)) with (Zpos (shl p (e - ez)))
      by (now rewrite shl_value).
    replace ez with (e - (e - ez)) at 2 by lia.
    rewrite (binary_round_small false p e (e - ez) Hab He Hk).
    pose proof (binary_round_small false p e 0 Hab He (Z.le_refl 0)) as R.
    cbn [shl] in R. rewrite Z.sub_0_r in R. now rewrite R.
  - replace (Zneg p * 2 ^ (e - ez)) with (Zneg (shl p (e - ez)))
      by (rewrite <- Pos2Z.opp_pos, shl_value by lia; lia).
    replace ez with (e - (e - ez)) at 2 by lia.
    assert (Sp : small (Zpos p)) by (unfold small in *; lia).
    rewrite (binary_round_small true p e (e - ez) Sp He Hk).
    pose proof (binary_round_small true p e 0 Sp He (Z.le_refl 0)) as R.
    cbn [shl] in R. rewrite Z.sub_0_r in R. now rewrite R.
Qed.

Lemma sum_magnitudes_nonneg (e : Z) (xs : list F64.float) :
  0 <= sum_magnitudes e xs.
Proof. induction xs as [ | x xs IH]; cbn [sum_magnitudes fold_right]; [ lia | ].
  fold (sum_magnitudes e xs). lia.
Qed.

Lemma sum_units_permutation (e : Z) (xs ys : list F64.float) :
  Permutation xs ys ->
  sum_units e xs = sum_units e ys
  /\ sum_magnitudes e xs = sum_magnitudes e ys.
Proof.
  induction 1 as [ | x xs ys Hp IH | x y xs | xs ys zs H1 IH1 H2 IH2];
    unfold sum_units, sum_magnitudes in *; cbn [fold_right] in *; lia.
Qed.

(** A sum of small multiples of [2^e], from a small multiple on, is the
    float of the sum of the numbers. *)
Lemma fold_add_dyadic (e : Z) (xs : list F64.float) (n : Z) :
  exponent_in_range e ->
  (forall a, In a xs -> a = dyadic (units e a) e) ->
  Z.abs n + sum_magnitudes e xs < 2 ^ 53 ->
  fold_left F64.add xs (dyadic n e) = dyadic (n + sum_units e xs) e.
Proof.
  intros He. revert n.
  induction xs as [ | x xs IH]; intros n Hx Hs;
    cbn [fold_left sum_units sum_magnitudes fold_right] in *.
  - now rewrite Z.add_0_r.
  - fold (sum_units e xs). fold (sum_magnitudes e xs) in Hs.
    pose proof (sum_magnitudes_nonneg e xs) as P.
    replace (F64.add (dyadic n e) x) with (dyadic (n + units e x) e).
    + rewrite IH; [ f_equal; lia | | lia ].
      intros a Ha. apply Hx. now right.
    + rewrite (Hx x (or_introl eq_refl)) at 2.
      symmetry. apply add_dyadic; unfold small; try assumption; lia.
Qed.

(** ** The aggregator *)

Section AggregatorFacts.

Context {py : Python}.

Lemma collect_fields (i : nat) (v : Validation.t) (s : Summary.t) :
  Summary.total_amount (collect i v s) = Summary.total_amount s
  /\ Summary.expense_count (collect i v s) = Summary.expense_count s
  /\ Summary.categories (collect i v s) = Summary.categories s
  /\ ready (collect i v s) = ready s && Validation.is_valid v.
Proof.
  unfold collect, ready. destruct (Validation.is_valid v); cbn.
  - now rewrite andb_true_r.
  - now rewrite andb_false_r.
Qed.

Lemma process_expense_count (i : nat) (e : Expense.t)
    (st : Summary.t * list string) :
  Summary.expense_count (fst (process_expense i e st))
  = Summary.expense_count (fst st).
Proof.
  unfold process_expense. destruct st as [summary dates].
  destruct (to_float (get (Expense.amount e) (VInt 0))); cbn [fst].
  - now rewrite (proj1 (proj2 (collect_fields _ _ _))).
  - reflexivity.
Qed.

Lemma process_all_count (l : list Expense.t) (i : nat)
    (st : Summary.t * list string) :
  Summary.expense_count (fst (process_all i l st))
  = Summary.expense_count (fst st).
Proof.
  revert i st. induction l as [ | e l IH]; intros i st; cbn [process_all].
  - reflexivity.
  - now rewrite IH, process_expense_count.
Qed.

Lemma track_get (c cat : string) (a : F64.float) (d dt : string)
    (cats : dict Summary.bucket) :
  dict_get c (track cat a d dt cats)
  = if (cat =? c)%string then
      let b := get (dict_get cat cats) Summary.new_bucket in
      Some {| Summary.count := Summary.count b + 1;
              Summary.total := F64.add (Summary.total b) a;
              Summary.average := Summary.average b;
              Summary.expenses :=
                Summary.expenses b
                ++ [ {| Summary.amount := a; Summary.description := d;
                        Summary.date := dt |} ] |}
    else dict_get c cats.
Proof.
  unfold track. destruct (String.eqb_spec cat c) as [-> | Hc].
  - now rewrite dict_get_set_same.
  - now rewrite dict_get_set_other.
Qed.

(** One turn of the loop on an expense whose amount converts. *)
Lemma process_expense_ok (i : nat) (e : Expense.t)
    (st : Summary.t * list string) :
  converts e = true ->
  let st' := process_expense i e st in
  Summary.total_amount (fst st')
  = F64.add (Summary.total_amount (fst st)) (float_of e)
  /\ ready (fst st')
     = ready (fst st) && Validation.is_valid (validate_expense_data e)
  /\ snd st' = snd st ++ dates_of [e]
  /\ forall c, dict_get c (Summary.categories (fst st'))
               = bucket_step c (dict_get c (Summary.categories (fst st))) e.
Proof.
  unfold bucket_step, dates_of, converts, float_of, amount_of,
    process_expense, category_of, date_of.
  destruct st as [summary dates].
  destruct (to_float (get (Expense.amount e) (VInt 0))) as [a | ex];
    [ intros _ | discriminate ].
  cbv zeta. cbn [fst snd map filter].
  generalize (validate_expense_data e). intros v.
  match goal with
  | |- context [collect i v ?s] =>
      destruct (collect_fields i v s) as (-> & _ & -> & ->)
  end.
  cbn [Summary.total_amount Summary.categories Summary.with_categories
       Summary.with_total Summary.compliance_status ready].
  repeat split.
  - destruct (truthy (get (Expense.date e) "")); [ reflexivity | ].
    now rewrite app_nil_r.
  - intros c. rewrite track_get.
    destruct (String.eqb_spec (get (Expense.category e) "miscellaneous") c)
      as [-> | _]; reflexivity.
Qed.

(** The loop on expenses whose amounts all convert. *)
Lemma process_all_ok (l : list Expense.t) (i : nat)
    (st : Summary.t * list string) :
  forallb converts l = true ->
  let st' := process_all i l st in
  Summary.total_amount (fst st')
  = fold_left F64.add (amounts l) (Summary.total_amount (fst st))
  /\ ready (fst st') = ready (fst st) && all_valid l
  /\ snd st' = snd st ++ dates_of l
  /\ forall c, dict_get c (Summary.categories (fst st'))
               = fold_left (bucket_step c) l
                   (dict_get c (Summary.categories (fst st))).
Proof.
  revert i st. induction l as [ | e l IH]; intros i st Hl;
    cbn [process_all forallb] in *.
  - cbn. rewrite andb_true_r, app_nil_r. auto.
  - apply andb_prop in Hl. destruct Hl as [He Hl].
    destruct (process_expense_ok i e st He) as (E1 & E2 & E3 & E4).
    destruct (IH (i + 1)%nat (process_expense i e st) Hl)
      as (F1 & F2 & F3 & F4).
    cbv zeta. rewrite F1, F2, F3, E1, E2, E3.
    unfold amounts, all_valid, dates_of. cbn [map fold_left forallb filter].
    repeat split.
    + now rewrite andb_assoc.
    + rewrite <- app_assoc. f_equal. unfold dates_of. cbn [map filter].
      destruct (truthy (date_of e)); reflexivity.
    + intros c. now rewrite F4, E4.
Qed.

(** The count of a bucket is the number of expenses of its category. *)
Lemma bucket_count (c : string) (l : list Expense.t)
    (b : option Summary.bucket) :
  let n := List.length (filter (fun e => (category_of e =? c)%string) l) in
  option_map Summary.count (fold_left (bucket_step c) l b)
  = if (n =? 0)%nat then option_map Summary.count b
    else Some (Summary.count (get b Summary.new_bucket) + n)%nat.
Proof.
  revert b. induction l as [ | e l IH]; intros b; cbn [fold_left filter].
  - reflexivity.
  - cbv zeta in IH |- *. rewrite IH. unfold bucket_step.
    destruct (category_of e =? c)%string; cbn [List.length]; [ | reflexivity ].
    cbn [get option_map Summary.count].
    destruct (List.length (filter _ l)); cbn [Nat.eqb]; f_equal; lia.
Qed.

(** Its total is the sum of their amounts, in their order. *)
Lemma bucket_total (c : string) (l : list Expense.t)
    (b : option Summary.bucket) :
  let mine := filter (fun e => (category_of e =? c)%string) l in
  option_map Summary.total (fold_left (bucket_step c) l b)
  = match mine with
    | [] => option_map Summary.total b
    | _ => Some (fold_left F64.add (amounts mine)
                   (Summary.total (get b Summary.new_bucket)))
    end.
Proof.
  revert b. induction l as [ | e l IH]; intros b; cbn [fold_left filter].
  - reflexivity.
  - cbv zeta in IH |- *. rewrite IH. unfold bucket_step.
    destruct (category_of e =? c)%string; [ | reflexivity ].
    cbn [get option_map Summary.total amounts map fold_left].
    destruct (filter _ l); reflexivity.
Qed.

Lemma set_average_get (c : string) (cats : dict Summary.bucket) :
  dict_get c (map (fun kv => (fst kv, set_average (snd kv))) cats)
  = option_map set_average (dict_get c cats).
Proof.
  induction cats as [ | [k b] cats IH]; cbn; [ reflexivity | ].
  destruct (k =? c)%string; [ reflexivity | exact IH ].
Qed.

Lemma set_average_fields (b : Summary.bucket) :
  Summary.count (set_average b) = Summary.count b
  /\ Summary.total (set_average b) = Summary.total b.
Proof. unfold set_average. destruct (0 <? Summary.count b)%nat; auto. Qed.

Lemma map_result_converts (l : list Expense.t) :
  forallb converts l = true ->
  map_result (fun e => to_float (get (Expense.amount e) (VInt 0))) l
  = Ok (amounts l).
Proof.
  induction l as [ | e l IH]; cbn [forallb map_result]; [ reflexivity | ].
  intros H. apply andb_prop in H. destruct H as [He Hl].
  rewrite (IH Hl). unfold amounts. cbn [map]. unfold float_of, amount_of.
  unfold converts, amount_of in He.
  destruct (to_float (get (Expense.amount e) (VInt 0))); [ | discriminate ].
  reflexivity.
Qed.

Lemma map_result_raises (l : list Expense.t) :
  forallb converts l = false ->
  exists ex,
    map_result (fun e => to_float (get (Expense.amount e) (VInt 0))) l
    = Raise ex.
Proof.
  induction l as [ | e l IH]; cbn [forallb map_result]; [ discriminate | ].
  unfold converts at 1, amount_of.
  destruct (to_float (get (Expense.amount e) (VInt 0))) as [a | ex];
    cbn [andb bind].
  - intros H. destruct (IH H) as (ex & ->). now exists ex.
  - intros _. now exists ex.
Qed.

(** Where an amount does not convert, the statistics raise and the outer
    handler returns its own summary, whatever the loop recorded. *)
Lemma summarize_raises (l : list Expense.t) :
  forallb converts l = false -> exists ex, summarize l = Raise ex.
Proof.
  intros H. unfold summarize.
  pose proof (process_all_count l 0 (Summary.initial (List.length l), []))
    as Hn.
  destruct (process_all 0 l (Summary.initial (List.length l), []))
    as [summary dates].
  cbn [fst Summary.initial Summary.expense_count] in Hn.
  cbv zeta. unfold bind.
  destruct (date_range_of dates) as [range | ex]; [ | now exists ex ].
  unfold statistics_of.
  assert (E : forall s, Summary.expense_count s = Summary.expense_count summary ->
                        (0 <? Summary.expense_count s)%nat = true).
  { intros s ->. rewrite Hn. destruct l; [ discriminate | ]. reflexivity. }
  destruct (map_result_raises l H) as (ex & Hex).
  destruct range; rewrite E by reflexivity; rewrite Hex; now exists ex.
Qed.

(** Where all amounts convert, the summary is the normal one unless the
    date range raises. *)
Lemma summarize_ok (l : list Expense.t) :
  forallb converts l = true ->
  match date_range_of (dates_of l) with
  | Raise ex => summarize l = Raise ex
  | Ok _ =>
      exists s,
        summarize l = Ok s
        /\ Summary.total_amount s = fold_left F64.add (amounts l) F64.zero
        /\ Summary.expense_count s = List.length l
        /\ ready s = all_valid l
        /\ forall c, dict_get c (Summary.categories s)
                     = option_map set_average
                         (fold_left (bucket_step c) l None)
  end.
Proof.
  intros H. unfold summarize.
  pose proof (process_all_count l 0 (Summary.initial (List.length l), []))
    as Hn.
  destruct (process_all_ok l 0 (Summary.initial (List.length l), []) H)
    as (E1 & E2 & E3 & E4).
  destruct (process_all 0 l (Summary.initial (List.length l), []))
    as [summary dates].
  cbn [fst snd Summary.initial Summary.expense_count Summary.total_amount
       Summary.categories app dict_get] in Hn, E1, E2, E3, E4.
  subst dates. cbv zeta. unfold bind.
  destruct (date_range_of (dates_of l)) as [range | ex]; [ | reflexivity ].
  unfold statistics_of. rewrite (map_result_converts l H).
  unfold ready in *.
  cbn [Summary.initial Summary.compliance_status
       Summary.ready_for_submission andb] in E2.
  destruct range;
    cbn [Summary.expense_count Summary.with_date_range
         Summary.with_documents Summary.with_categories];
    rewrite Hn; destruct l as [ | e l];
    cbn [List.length Nat.ltb Nat.leb bind amounts map];
    (eexists; split; [ reflexivity | ]);
    cbn [Summary.total_amount Summary.expense_count Summary.categories
         Summary.compliance_status Summary.with_date_range
         Summary.with_statistics Summary.with_documents
         Summary.with_categories];
    (split; [ exact E1 | ]); (split; [ exact Hn | ]);
    (split; [ exact E2 | ]);
    intros c; rewrite set_average_get, E4; reflexivity.
Qed.

Lemma list_of_set_nil : list_of_set [] = [].
Proof.
  apply Permutation_nil. symmetry. exact (list_of_set_perm []).
Qed.

(** C10: the summary of no expense: zero total and count, no category, no
    violation, ready for submission, no document, no policy reference, no
    date range and no statistics. *)
Theorem summary_of_no_expense :
  generate_expense_summary []
  = {| Summary.total_amount := F64.zero;
       Summary.expense_count := 0;
       Summary.categories := [];
       Summary.compliance_status :=
         {| Summary.total_violations := 0;
            Summary.violations := [];
            Summary.warnings := [];
            Summary.ready_for_submission := true |};
       Summary.required_documents := [];
       Summary.policy_references := [];
       Summary.date_range := None;
       Summary.statistics := None |}.
Proof.
  unfold generate_expense_summary, summarize.
  cbn [process_all List.length Summary.initial Summary.with_categories
       Summary.with_documents Summary.categories Summary.total_amount
       Summary.expense_count Summary.compliance_status
       Summary.required_documents Summary.policy_references
       Summary.date_range Summary.statistics map].
  rewrite list_of_set_nil. reflexivity.
Qed.

(** C2, as the code has it: when the amount of one record does not convert,
    the summary is the one of the outer handler (no count, no total, one
    "Error generating summary" violation), not the normal summary: the
    statistics convert every amount again, outside the per-record handler. *)
Theorem summary_error_replaces_summary (l : list Expense.t) (e : Expense.t)
    (ex : exn) :
  In e l ->
  to_float (get (Expense.amount e) (VInt 0)) = Raise ex ->
  exists ex', generate_expense_summary l = summary_error ex'.
Proof.
  intros Hin He.
  assert (H : forallb converts l = false).
  { destruct (forallb converts l) eqn:E; [ | reflexivity ].
    rewrite forallb_forall in E. specialize (E e Hin).
    unfold converts, amount_of in E. rewrite He in E. discriminate. }
  destruct (summarize_raises l H) as (ex' & Hex).
  exists ex'. unfold generate_expense_summary. now rewrite Hex.
Qed.

Lemma option_map_average {A} (f : Summary.bucket -> A)
    (b : option Summary.bucket) :
  (forall x, f (set_average x) = f x) ->
  option_map f (option_map set_average b) = option_map f b.
Proof. intros H. destruct b; cbn; [ now rewrite H | reflexivity ]. Qed.

Lemma exact_amounts_permutation (e : Z) (l l' : list Expense.t) :
  Permutation l l' -> exact_amounts e l -> exact_amounts e l'.
Proof.
  intros Hp (He & Hx & Hs).
  assert (Pa : Permutation (amounts l) (amounts l'))
    by (unfold amounts; now apply Permutation_map).
  split; [ exact He | ]. split.
  - intros a Ha. apply Hx. apply (Permutation_in _ (Permutation_sym Pa) Ha).
  - now rewrite <- (proj2 (sum_units_permutation e _ _ Pa)).
Qed.

Lemma exact_amounts_filter (e : Z) (p : Expense.t -> bool)
    (l : list Expense.t) :
  exact_amounts e l -> exact_amounts e (filter p l).
Proof.
  intros (He & Hx & Hs). split; [ exact He | ]. split.
  - intros a Ha. apply Hx. unfold amounts in *.
    apply in_map_iff in Ha as (r & <- & Hr). apply in_map.
    now apply filter_In in Hr.
  - apply Z.le_lt_trans with (2 := Hs). clear Hx Hs.
    induction l as [ | r l IH]; cbn [filter amounts map]; [ lia | ].
    pose proof (Z.abs_nonneg (units e (float_of r))).
    destruct (p r); cbn [amounts map sum_magnitudes fold_right] in *;
      fold (sum_magnitudes e (map float_of (filter p l)));
      fold (sum_magnitudes e (map float_of l));
      unfold amounts in IH; lia.
Qed.

(** The sum of exact amounts is the float of the sum of their numbers. *)
Lemma exact_total (e : Z) (l : list Expense.t) :
  exact_amounts e l ->
  fold_left F64.add (amounts l) F64.zero
  = dyadic (sum_units e (amounts l)) e.
Proof.
  intros (He & Hx & Hs). change F64.zero with (dyadic 0 e).
  rewrite (fold_add_dyadic e (amounts l) 0 He Hx) by (cbn [Z.abs]; lia).
  reflexivity.
Qed.

Lemma exact_total_permutation (e : Z) (l l' : list Expense.t) :
  Permutation l l' -> exact_amounts e l ->
  fold_left F64.add (amounts l) F64.zero
  = fold_left F64.add (amounts l') F64.zero.
Proof.
  intros Hp Hl.
  rewrite (exact_total e l Hl).
  rewrite (exact_total e l' (exact_amounts_permutation e l l' Hp Hl)).
  f_equal. apply sum_units_permutation. unfold amounts.
  now apply Permutation_map.
Qed.

(** C6, as the code has it: a permutation of the records changes neither
    the count of expenses, nor the categories and their counts, nor
    [ready_for_submission]; and it changes neither the total amount nor the
    total of any category where the amounts are exact in units of some
    [2^e] (whole numbers for [e = 0]), as no addition rounds then. *)
Theorem summary_permutation (l l' : list Expense.t) :
  Permutation l l' ->
  let s := generate_expense_summary l in
  let s' := generate_expense_summary l' in
  Summary.expense_count s = Summary.expense_count s'
  /\ ready s = ready s'
  /\ (forall c, option_map Summary.count (dict_get c (Summary.categories s))
                = option_map Summary.count
                    (dict_get c (Summary.categories s')))
  /\ (forall e,
      exact_amounts e l ->
      Summary.total_amount s = Summary.total_amount s'
      /\ forall c,
          option_map Summary.total (dict_get c (Summary.categories s))
          = option_map Summary.total (dict_get c (Summary.categories s'))).
Proof.
  intros Hp. cbv zeta. unfold generate_expense_summary.
  destruct (forallb converts l) eqn:Hc.
  - assert (Hc' : forallb converts l' = true)
      by (rewrite <- (forallb_permutation converts l l' Hp); exact Hc).
    pose proof (summarize_ok l Hc) as Hs.
    pose proof (summarize_ok l' Hc') as Hs'.
    assert (Hd : date_range_of (dates_of l') = date_range_of (dates_of l)).
    { unfold date_range_of.
      rewrite (sort_strings_permutation (dates_of l') (dates_of l));
        [ reflexivity | ].
      unfold dates_of. apply filter_permutation, Permutation_map.
      symmetry. exact Hp. }
    rewrite Hd in Hs'.
    destruct (date_range_of (dates_of l)) as [range | ex].
    + destruct Hs as (s & -> & T & N & R & B).
      destruct Hs' as (s' & -> & T' & N' & R' & B').
      assert (Hmine : forall c,
                 Permutation
                   (filter (fun e => (category_of e =? c)%string) l)
                   (filter (fun e => (category_of e =? c)%string) l'))
        by (intros c; now apply filter_permutation).
      split; [ rewrite N, N'; now apply Permutation_length | ].
      split; [ rewrite R, R'; now apply forallb_permutation | ].
      split.
      * intros c. rewrite B, B'.
        rewrite !option_map_average by (intros x; apply set_average_fields).
        rewrite !bucket_count. now rewrite (Permutation_length (Hmine c)).
      * intros e He. split.
        -- rewrite T, T'. now apply (exact_total_permutation e).
        -- intros c. rewrite B, B'.
           rewrite !option_map_average by (intros x; apply set_average_fields).
           rewrite !bucket_total. specialize (Hmine c).
           pose proof (exact_total_permutation e _ _ Hmine
                         (exact_amounts_filter e _ l He)) as Ht.
           destruct (filter (fun e => (category_of e =? c)%string) l)
             as [ | r mine] eqn:E.
           ++ apply Permutation_nil in Hmine. now rewrite Hmine.
           ++ destruct (filter (fun e => (category_of e =? c)%string) l')
                as [ | r' mine'] eqn:E'.
              ** symmetry in Hmine. apply Permutation_nil in Hmine.
                 discriminate.
              ** f_equal. exact Ht.
    + rewrite Hs, Hs'. cbn. auto.
  - assert (Hc' : forallb converts l' = false)
      by (rewrite <- (forallb_permutation converts l l' Hp); exact Hc).
    destruct (summarize_raises l Hc) as (ex & ->).
    destruct (summarize_raises l' Hc') as (ex' & ->).
    cbn. auto.
Qed.

End AggregatorFacts.

(** ** Concrete calls *)

(** C4 on [meal_150]. *)
Lemma validate_meal_150 :
  Validation.is_valid (@validate_expense_data Reference.python meal_150)
  = false
  /\ In "Meal expense of $150.0 exceeds daily policy limit of $100"
       (Validation.violations
          (@validate_expense_data Reference.python meal_150))
  /\ In "Section 3.2 - Meal Allowances"
       (Validation.policy_references
          (@validate_expense_data Reference.python meal_150))
  /\ contains "Section 3.2" "Section 3.2 - Meal Allowances" = true.
Proof.
  exact (@validate_meals_over_daily_limit Reference.python meal_150
           (F64.of_Z 150) eq_refl eq_refl eq_refl).
Defined.

(** C5 on [coffee_20]. *)
Lemma validate_coffee_20 :
  Forall (fun d => String.prefix "Receipt required" d = false)
    (Validation.required_documents
       (@validate_expense_data Reference.python coffee_20)).
Proof.
  apply Forall_forall.
  exact (@validate_no_receipt_required_up_to_25 Reference.python coffee_20
           (F64.of_Z 20) eq_refl eq_refl eq_refl).
Defined.

(** C2 on [amount_abc]: the summary of the outer handler. *)
Lemma summary_of_amount_abc :
  exists ex,
    @generate_expense_summary Reference.python [amount_abc]
    = @summary_error Reference.python ex.
Proof.
  exact (@summary_error_replaces_summary Reference.python [amount_abc]
           amount_abc (ValueError_float "abc") (or_introl eq_refl) eq_refl).
Defined.

(** The run behind it: the per-record handler tags the record and clears
    the flag, and the statistics then raise on the same amount. *)
Lemma amount_abc_run :
  Summary.compliance_status
    (fst (@process_all Reference.python 0 [amount_abc]
            (Summary.initial 1, [])))
  = {| Summary.total_violations := 0;
       Summary.violations :=
         ["Expense #1: Error processing expense - could not convert string to float: 'abc'"];
       Summary.warnings := [];
       Summary.ready_for_submission := false |}
  /\ @generate_expense_summary Reference.python [amount_abc]
     = {| Summary.total_amount := F64.zero;
          Summary.expense_count := 0;
          Summary.categories := [];
          Summary.compliance_status :=
            {| Summary.total_violations := 1;
               Summary.violations :=
                 ["Error generating summary: could not convert string to float: 'abc'"];
               Summary.warnings := [];
               Summary.ready_for_submission := false |};
          Summary.required_documents := [];
          Summary.policy_references := [];
          Summary.date_range := None;
          Summary.statistics := None |}.
Proof. split; vm_compute; reflexivity. Qed.

(** A meal of 50 and a night of 400, both with receipts: the total is 450,
    each category counts one expense, and the night's violation bars the
    submission. *)
Example summary_of_meal_and_night :
  let s := @generate_expense_summary Reference.python
             [expense_of (F64.of_Z 50) "meals";
              expense_of (F64.of_Z 400) "lodging"] in
  Summary.total_amount s = F64.of_Z 450
  /\ map (fun kv => (fst kv, Summary.count (snd kv))) (Summary.categories s)
     = [("meals", 1%nat); ("lodging", 1%nat)]
  /\ Summary.violations (Summary.compliance_status s)
     = ["Expense #2: Lodging expense of $400.0 exceeds nightly limit of $300"]
  /\ ready s = false.
Proof. vm_compute. auto. Qed.

(** C6 as stated fails on amounts 0.1, 0.2 and 0.3: summed in this order
    they give 0.6000000000000001, in the opposite order 0.6. *)
Lemma summary_total_depends_on_order :
  Permutation
    [ expense_of (F64.decimal 1 10) "meals";
      expense_of (F64.decimal 2 10) "meals";
      expense_of (F64.decimal 3 10) "meals" ]
    [ expense_of (F64.decimal 3 10) "meals";
      expense_of (F64.decimal 2 10) "meals";
      expense_of (F64.decimal 1 10) "meals" ]
  /\ Summary.total_amount
       (@generate_expense_summary Reference.python
          [ expense_of (F64.decimal 1 10) "meals";
            expense_of (F64.decimal 2 10) "meals";
            expense_of (F64.decimal 3 10) "meals" ])
     <> Summary.total_amount
          (@generate_expense_summary Reference.python
             [ expense_of (F64.decimal 3 10) "meals";
               expense_of (F64.decimal 2 10) "meals";
               expense_of (F64.decimal 1 10) "meals" ]).
Proof.
  split.
  - exact (Permutation_rev
             [ expense_of (F64.decimal 1 10) "meals";
               expense_of (F64.decimal 2 10) "meals";
               expense_of (F64.decimal 3 10) "meals" ]).
  - vm_compute. discriminate.
Qed.

(** C6 on a meal of 50 and a night of 400, in both orders. *)
Lemma summary_permutation_example :
  Summary.expense_count
    (@generate_expense_summary Reference.python
       [expense_of (F64.of_Z 50) "meals"; expense_of (F64.of_Z 400) "lodging"])
  = Summary.expense_count
      (@generate_expense_summary Reference.python
         [expense_of (F64.of_Z 400) "lodging"; expense_of (F64.of_Z 50) "meals"])
  /\ option_map Summary.count
       (dict_get "meals"
          (Summary.categories
             (@generate_expense_summary Reference.python
                [expense_of (F64.of_Z 50) "meals";
                 expense_of (F64.of_Z 400) "lodging"])))
     = option_map Summary.count
         (dict_get "meals"
            (Summary.categories
               (@generate_expense_summary Reference.python
                  [expense_of (F64.of_Z 400) "lodging";
                   expense_of (F64.of_Z 50) "meals"])))
  /\ Summary.total_amount
       (@generate_expense_summary Reference.python
          [expense_of (F64.of_Z 50) "meals"; expense_of (F64.of_Z 400) "lodging"])
     = Summary.total_amount
         (@generate_expense_summary Reference.python
            [expense_of (F64.of_Z 400) "lodging";
             expense_of (F64.of_Z 50) "meals"]).
Proof.
  assert (He : @exact_amounts Reference.python 0
                 [expense_of (F64.of_Z 50) "meals";
                  expense_of (F64.of_Z 400) "lodging"]).
  { split; [ unfold exponent_in_range; vm_compute; split; discriminate | ].
    split.
    - intros a [<- | [<- | []]]; vm_compute; reflexivity.
    - vm_compute. reflexivity. }
  destruct (@summary_permutation Reference.python _ _
              (perm_swap (expense_of (F64.of_Z 400) "lodging")
                 (expense_of (F64.of_Z 50) "meals") []))
    as (H1 & _ & H3 & H4).
  exact (conj H1 (conj (H3 "meals") (proj1 (H4 0 He)))).
Defined.

(** * Further properties *)

(** ** The validator, rule by rule *)

Lemma ltb_leb_trans (x y z : F64.float) :
  F64.ltb x y = true -> F64.leb y z = true -> F64.ltb x z = true.
Proof. float_cases. Qed.

(** Splits the conditionals of the goal, outermost first. *)
Ltac split_ifs :=
  repeat match goal with
         | |- context [if ?b then _ else _] => destruct b eqn:?
         end.

Section ValidatorRules.

Context {py : Python}.

(** The validity flag as a function of the category and the amount. *)
Lemma validation_invalid_cases (e : Expense.t) (a : F64.float) :
  to_float (get (Expense.amount e) (VInt 0)) = Ok a ->
  Validation.is_valid (validate_expense_data e)
  = negb (((str_lower (get (Expense.category e) "") =? "meals")%string
           && F64.gtb a (F64.of_Z 100))
          || ((str_lower (get (Expense.category e) "") =? "lodging")%string
              && F64.gtb a (F64.of_Z 300))).
Proof.
  intros Ha. unfold validate_expense_data, validation_rules, bind, exceeds.
  rewrite Ha, weekend_check_is_valid. cbv zeta.
  destruct (String.eqb_spec (str_lower (get (Expense.category e) "")) "meals")
    as [-> | Hm].
  - change ("meals" =? "lodging")%string with false.
    cbn [andb orb]. rewrite orb_false_r.
    destruct (F64.gtb a (F64.of_Z 100)); split_ifs; reflexivity.
  - cbn [andb orb].
    destruct (str_lower (get (Expense.category e) "") =? "lodging")%string;
      cbn [andb].
    + destruct (F64.gtb a (F64.of_Z 300)); split_ifs; reflexivity.
    + split_ifs; reflexivity.
Qed.

(** X1: a record whose amount converts is invalid exactly when it is a meal
    above 100 or a lodging above 300 (the category read up to case); no other
    key, and no other category, bears on validity. *)
Theorem validate_invalid_iff (e : Expense.t) (a : F64.float) :
  to_float (get (Expense.amount e) (VInt 0)) = Ok a ->
  (Validation.is_valid (validate_expense_data e) = false <->
   (str_lower (get (Expense.category e) "") = "meals"
    /\ F64.gtb a (F64.of_Z 100) = true)
   \/ (str_lower (get (Expense.category e) "") = "lodging"
       /\ F64.gtb a (F64.of_Z 300) = true)).
Proof.
  intros Ha. rewrite (validation_invalid_cases e a Ha).
  rewrite negb_false_iff, orb_true_iff, !andb_true_iff, !String.eqb_eq.
  reflexivity.
Qed.

(** X2: a lodging above 300 is invalid, with the violation about the nightly
    limit and the policy reference of Section 4.1. *)
Theorem validate_lodging_over_nightly_limit (e : Expense.t) (a : F64.float) :
  str_lower (get (Expense.category e) "") = "lodging" ->
  to_float (get (Expense.amount e) (VInt 0)) = Ok a ->
  F64.gtb a (F64.of_Z 300) = true ->
  let r := validate_expense_data e in
  Validation.is_valid r = false
  /\ Validation.violations r
     = [("Lodging expense of $" ++ str_of_float a
         ++ " exceeds nightly limit of $300")%string]
  /\ In "Section 4.1 - Accommodation Limits" (Validation.policy_references r).
Proof.
  intros Hcat Hamount Hover.
  unfold validate_expense_data, validation_rules, bind, exceeds.
  rewrite Hamount, Hcat, Hover.
  rewrite weekend_check_is_valid, weekend_check_violations,
    weekend_check_references.
  change ("lodging" =? "meals")%string with false.
  change ("lodging" =? "lodging")%string with true. cbv iota zeta.
  split_ifs; cbn; auto.
Qed.

(** X3: lowering the amount of a valid record keeps it valid: for two
    records of the same category, the one with the smaller amount is valid
    when the other is. *)
Theorem validate_valid_monotone (e e' : Expense.t) (a a' : F64.float) :
  str_lower (get (Expense.category e') "")
  = str_lower (get (Expense.category e) "") ->
  to_float (get (Expense.amount e) (VInt 0)) = Ok a ->
  to_float (get (Expense.amount e') (VInt 0)) = Ok a' ->
  F64.leb a' a = true ->
  Validation.is_valid (validate_expense_data e) = true ->
  Validation.is_valid (validate_expense_data e') = true.
Proof.
  intros Hcat Ha Ha' Hle.
  rewrite (validation_invalid_cases e a Ha),
    (validation_invalid_cases e' a' Ha'), Hcat.
  assert (Hmono : forall n, F64.gtb a' (F64.of_Z n) = true ->
                            F64.gtb a (F64.of_Z n) = true).
  { intros n H. unfold F64.gtb in *. fold (F64.ltb (F64.of_Z n) a).
    fold (F64.ltb (F64.of_Z n) a') in H. eapply ltb_leb_trans; eauto. }
  destruct (F64.gtb a' (F64.of_Z 100)) eqn:E1;
    [ rewrite (Hmono 100 E1) | ];
    (destruct (F64.gtb a' (F64.of_Z 300)) eqn:E2;
     [ rewrite (Hmono 300 E2) | ]);
    repeat match goal with
           | |- context [F64.gtb a ?n] => destruct (F64.gtb a n)
           end;
    destruct (_ =? "meals")%string, (_ =? "lodging")%string;
    cbn; auto.
Qed.

(** X4: the receipt for all expenses, with the reference to Section 2.1, is
    required exactly where the amount is above 25 and the record has no
    receipt (the key absent or false), whatever the category. *)
Theorem validate_universal_receipt_iff (e : Expense.t) (a : F64.float) :
  to_float (get (Expense.amount e) (VInt 0)) = Ok a ->
  let r := validate_expense_data e in
  (In "Receipt required for all expenses over $25"
      (Validation.required_documents r)
   <-> F64.gtb a (F64.of_Z 25) = true
       /\ get (Expense.has_receipt e) false = false)
  /\ (In "Section 2.1 - Documentation Requirements"
         (Validation.policy_references r)
      <-> F64.gtb a (F64.of_Z 25) = true
          /\ get (Expense.has_receipt e) false = false).
Proof.
  intros Ha. unfold validate_expense_data, validation_rules, bind, exceeds.
  rewrite Ha, weekend_check_documents, weekend_check_references. cbv zeta.
  destruct (F64.gtb a (F64.of_Z 25)), (get (Expense.has_receipt e) false);
    cbn [andb negb]; split_ifs; cbn;
    (split; (split; [ intros H | intros [H1 H2] ]));
    repeat match goal with
           | H : _ \/ _ |- _ => destruct H
           | H : False |- _ => destruct H
           end;
    try discriminate; auto 8.
Qed.

(** X5: a date that does not parse, or an empty one, is ignored: the result
    is the one of the record without a date. *)
Theorem validate_malformed_date_ignored (e : Expense.t) (d : string) :
  truthy d = false \/ iso_weekday (replace_Z d) = None ->
  validate_expense_data (set_date (Some d) e)
  = validate_expense_data (set_date None e).
Proof.
  intros H. unfold validate_expense_data, validation_rules, bind.
  cbn [set_date Expense.amount Expense.category Expense.description
       Expense.date Expense.has_receipt get].
  destruct (to_float (get (Expense.amount e) (VInt 0))) as [a | ex];
    [ | reflexivity ].
  cbv zeta. unfold weekend_check.
  change (truthy "") with false. cbv iota.
  destruct H as [-> | H]; [ reflexivity | ].
  rewrite H. destruct (truthy d); reflexivity.
Qed.

(** X6: whatever the date, it bears on the warnings only; and for an amount
    that converts, the weekend warning is there exactly when the date parses
    to a Saturday or a Sunday. *)
Theorem validate_weekend_warning_iff (e : Expense.t) (a : F64.float) :
  to_float (get (Expense.amount e) (VInt 0)) = Ok a ->
  let r := validate_expense_data e in
  let r0 := validate_expense_data (set_date None e) in
  Validation.is_valid r = Validation.is_valid r0
  /\ Validation.violations r = Validation.violations r0
  /\ Validation.required_documents r = Validation.required_documents r0
  /\ Validation.policy_references r = Validation.policy_references r0
  /\ (In "Weekend expense flagged for review" (Validation.warnings r)
      <-> truthy (get (Expense.date e) "") = true
          /\ exists day, iso_weekday (replace_Z (get (Expense.date e) ""))
                         = Some day /\ (5 <= day)%nat).
Proof.
  intros Ha. unfold validate_expense_data, validation_rules, bind.
  cbn [set_date Expense.amount Expense.category Expense.description
       Expense.date Expense.has_receipt get].
  rewrite Ha. cbv zeta.
  rewrite !weekend_check_is_valid, !weekend_check_violations,
    !weekend_check_documents, !weekend_check_references.
  repeat (split; [ reflexivity | ]).
  match goal with
  | |- context [weekend_check _ ?x] => remember x as base eqn:Hbase
  end.
  assert (Hr : ~ In "Weekend expense flagged for review"
                 (Validation.warnings base)).
  { subst base. unfold exceeds. split_ifs; cbn; intros H;
      repeat match goal with
             | H : _ \/ _ |- _ => destruct H
             | H : False |- _ => destruct H
             end; discriminate. }
  clear Hbase. unfold weekend_check.
  destruct (truthy (get (Expense.date e) "")).
  - destruct (iso_weekday (replace_Z (get (Expense.date e) ""))) as [day | ].
    + destruct (Nat.leb_spec 5 day) as [Hd | Hd].
      * split; [ intros _; split; [ reflexivity | exists day; auto ] | ].
        intros _. unfold Validation.add_warning. cbn.
        apply in_or_app. right. now left.
      * split; [ intros H; now apply Hr in H | ].
        intros (_ & day' & E & Hd'). injection E as <-. lia.
    + split; [ intros H; now apply Hr in H | ].
      intros (_ & day' & E & _). discriminate.
  - split; [ intros H; now apply Hr in H | ]. intros (E & _). discriminate.
Qed.

(** X7: with a tool context, the result is the one without; the context
    gets one entry more at the end of its validation history when its state
    is truthy and the amount converts, and is left as it was otherwise. *)
Theorem validate_records_history (e : Expense.t)
    (c : Validation.tool_context) (now : string) :
  let r := validate_expense_data e in
  validate_expense_data_in e (Some c) now
  = (r,
     if Validation.state_truthy c && converts e then
       Some {| Validation.state_truthy := true;
               Validation.validation_history :=
                 Some (get (Validation.validation_history c) []
                       ++ [ {| Validation.timestamp := now;
                               Validation.expense := e;
                               Validation.entry_is_valid :=
                                 Validation.is_valid r;
                               Validation.violations_count :=
                                 List.length (Validation.violations r) |} ])
            |}
     else Some c).
Proof.
  unfold validate_expense_data_in, validate_expense_data, converts, amount_of,
    validation_rules, bind, record_validation.
  destruct (to_float (get (Expense.amount e) (VInt 0))) as [a | ex].
  - cbv zeta. rewrite andb_true_r.
    destruct (Validation.state_truthy c); reflexivity.
  - rewrite andb_false_r. reflexivity.
Qed.

End ValidatorRules.

(** ** The categorizer: range, vocabulary, amount *)

Lemma tables_in_range (cat : string) (table : dict F64.float) :
  In (cat, table) category_tables ->
  Forall (fun entry => in_range (snd entry)) table.
Proof.
  intros H. apply Forall_forall. intros entry Hentry.
  assert (E : forallb (fun entry => F64.gtb (snd entry) F64.zero
                                    && F64.leb (snd entry) (F64.of_Z 1))
                (transport_keywords ++ lodging_keywords
                 ++ meal_keywords ++ office_keywords) = true)
    by (vm_compute; reflexivity).
  rewrite forallb_forall in E.
  assert (Hin : In entry (transport_keywords ++ lodging_keywords
                          ++ meal_keywords ++ office_keywords)).
  { rewrite !in_app_iff. simpl in H.
    intuition; match goal with
               | H : (_, _) = (_, _) |- _ => injection H as <- <-
               end; auto. }
  apply E, andb_prop in Hin. exact Hin.
Qed.

Lemma max_in_range (a b : F64.float) :
  in_range b -> a = F64.zero \/ in_range a -> in_range (F64.max a b).
Proof.
  intros Hb Ha. unfold F64.max. destruct (F64.gtb b a) eqn:E; [ exact Hb | ].
  destruct Ha as [-> | Ha]; [ | exact Ha ].
  destruct Hb as [Hb _]. unfold positive in Hb. congruence.
Qed.

Lemma score_keywords_in_range (cat : string) (table : dict F64.float)
    (dl ml : string) (scores : dict F64.float) :
  Forall (fun entry => in_range (snd entry)) table ->
  Forall (fun x => in_range (snd x)) scores ->
  Forall (fun x => in_range (snd x)) (score_keywords cat table dl ml scores).
Proof.
  unfold score_keywords. intros Htable. revert scores.
  induction Htable as [ | entry table He Htable IH]; intros scores Hs;
    cbn [fold_left]; auto.
  destruct (matches dl ml (fst entry)); auto.
  apply IH, dict_set_forall; auto. cbn [snd].
  apply max_in_range; auto.
  destruct (dict_get cat scores) as [s | ] eqn:E; cbn [get]; auto.
  right. apply dict_get_in in E. rewrite Forall_forall in Hs.
  exact (Hs _ E).
Qed.

Lemma score_all_in_range (dl ml : string) :
  Forall (fun x => in_range (snd x)) (score_all dl ml).
Proof.
  unfold score_all.
  repeat (apply score_keywords_in_range;
          [ eapply tables_in_range; simpl; eauto 6 | ]).
  constructor.
Qed.

(** The scores do not tell the description from the merchant. *)
Lemma score_keywords_swap (cat : string) (table : dict F64.float)
    (dl ml : string) (scores : dict F64.float) :
  score_keywords cat table dl ml scores = score_keywords cat table ml dl scores.
Proof.
  unfold score_keywords. revert scores.
  induction table as [ | entry table IH]; intros scores; cbn [fold_left].
  - reflexivity.
  - assert (E : matches dl ml (fst entry) = matches ml dl (fst entry))
      by (unfold matches; apply orb_comm).
    rewrite E. destruct (matches ml dl (fst entry)); apply IH.
Qed.

Lemma score_all_swap (dl ml : string) : score_all dl ml = score_all ml dl.
Proof.
  unfold score_all.
  rewrite (score_keywords_swap "transportation" _ dl ml).
  rewrite (score_keywords_swap "lodging" _ dl ml).
  rewrite (score_keywords_swap "meals" _ dl ml).
  apply score_keywords_swap.
Qed.

(** The keys of the scores are distinct. *)
Lemma dict_set_keys_nodup {V} (k : string) (v : V) (d : dict V) :
  NoDup (map fst d) -> NoDup (map fst (dict_set k v d)).
Proof.
  induction d as [ | [k' v'] d IH]; cbn [dict_set map fst]; intros H.
  - repeat constructor. intros [].
  - inversion H as [ | ? ? Hk Hd]; subst.
    destruct (String.eqb_spec k' k) as [-> | Hne]; cbn [map fst].
    + now constructor.
    + constructor; [ | now apply IH ].
      intros Hin. apply dict_set_keys in Hin. destruct Hin; auto.
Qed.

Lemma score_keywords_nodup (cat : string) (table : dict F64.float)
    (dl ml : string) (scores : dict F64.float) :
  NoDup (map fst scores) ->
  NoDup (map fst (score_keywords cat table dl ml scores)).
Proof.
  unfold score_keywords. revert scores.
  induction table as [ | entry table IH]; intros scores Hs; cbn [fold_left];
    auto.
  destruct (matches dl ml (fst entry)); auto.
  now apply IH, dict_set_keys_nodup.
Qed.

Lemma score_all_nodup (dl ml : string) : NoDup (map fst (score_all dl ml)).
Proof.
  unfold score_all. repeat apply score_keywords_nodup. constructor.
Qed.

(** What the body of the categorizer returns on scored text. *)
Lemma categorize_lowered_scored (dl ml : string) (amount : value)
    (c : string) (s : F64.float) :
  max_by_score (score_all dl ml) = Some (c, s) ->
  categorize_lowered dl ml amount
  = match subcategory_of c dl amount with
    | Ok sub =>
        Ok {| Categorization.category := c;
              Categorization.subcategory := sub;
              Categorization.confidence := s;
              Categorization.error := None;
              Categorization.alternative_categories :=
                firstn 2 (skipn 1 (sorted_desc (score_all dl ml))) |}
    | Raise e => Raise e
    end.
Proof.
  intros H. unfold categorize_lowered, bind. rewrite H. reflexivity.
Qed.

Lemma max_by_score_none (items : dict F64.float) :
  max_by_score items = None -> items = [].
Proof. destruct items; [ reflexivity | discriminate ]. Qed.

Section CategorizerRules.

Context {py : Python}.

(** X8: the confidence lies between 0 and 1, whatever the call. *)
Theorem categorize_confidence_in_unit_interval
    (description merchant : string) (amount : value) :
  let r := categorize_expense description merchant amount in
  F64.leb F64.zero (Categorization.confidence r) = true
  /\ F64.leb (Categorization.confidence r) (F64.of_Z 1) = true.
Proof.
  cbv zeta. unfold categorize_expense.
  generalize (str_lower description) (str_lower merchant). intros dl ml.
  destruct (max_by_score (score_all dl ml)) as [[c s] | ] eqn:E.
  - rewrite (categorize_lowered_scored dl ml amount c s E).
    destruct (subcategory_of c dl amount);
      cbn [Categorization.confidence]; [ | split; reflexivity ].
    pose proof (score_all_in_range dl ml) as H.
    rewrite Forall_forall in H.
    destruct (H _ (max_by_score_in _ _ E)) as [Hp Hle]. cbn [snd] in *.
    split; [ apply ltb_leb; exact Hp | exact Hle ].
  - unfold categorize_lowered. rewrite E.
    cbn [Categorization.confidence]. split; vm_compute; reflexivity.
Qed.

(** X9: the category is one of the four of the tables or "miscellaneous",
    and the subcategory is one of those of its category. *)
Theorem categorize_closed_vocabulary
    (description merchant : string) (amount : value) :
  let r := categorize_expense description merchant amount in
  In (Categorization.category r)
     ["transportation"; "lodging"; "meals"; "office_supplies";
      "miscellaneous"]
  /\ In (Categorization.subcategory r)
       (if (Categorization.category r =? "transportation")%string then
          ["airfare"; "rideshare"; "car_rental"; "misc_transport"; "general"]
        else if (Categorization.category r =? "meals")%string then
          ["business_meal"; "breakfast"; "lunch"; "dinner"; "general"]
        else if (Categorization.category r =? "miscellaneous")%string then
          ["other"; "error"]
        else ["general"]).
Proof.
  cbv zeta. unfold categorize_expense.
  generalize (str_lower description) (str_lower merchant). intros dl ml.
  destruct (max_by_score (score_all dl ml)) as [[c s] | ] eqn:E.
  - rewrite (categorize_lowered_scored dl ml amount c s E).
    apply max_by_score_in, score_all_keys in E. cbn [fst] in E.
    unfold subcategory_of, bind.
    destruct E as [<- | [<- | [<- | [<- | []]]]];
      cbn [String.eqb Ascii.eqb Bool.eqb];
      try destruct (value_gt amount 75) as [[] | ];
      cbn [Categorization.category Categorization.subcategory
           String.eqb Ascii.eqb Bool.eqb];
      split_ifs; cbn; auto 12.
  - unfold categorize_lowered. rewrite E. cbn. auto 12.
Qed.

Lemma subcategory_of_not_meals (c dl : string) (a a' : value) :
  c <> "meals" -> subcategory_of c dl a' = subcategory_of c dl a.
Proof.
  intros Hc. unfold subcategory_of.
  destruct (c =? "transportation")%string; [ reflexivity | ].
  destruct (String.eqb_spec c "meals"); [ contradiction | reflexivity ].
Qed.

Lemma subcategory_of_number (c dl : string) (z : Z) :
  exists sub, subcategory_of c dl (VInt z) = Ok sub.
Proof.
  unfold subcategory_of, bind.
  destruct (c =? "transportation")%string; [ eauto | ].
  destruct (c =? "meals")%string; cbn [value_gt]; eauto.
Qed.

(** X10: the amount is looked at for meals only: where a call returns a
    category other than "meals" (and no error), it returns the same result
    for every other amount, None and text included. *)
Theorem categorize_amount_only_for_meals
    (description merchant : string) (amount amount' : value) :
  let r := categorize_expense description merchant amount in
  Categorization.error r = None ->
  Categorization.category r <> "meals" ->
  categorize_expense description merchant amount' = r.
Proof.
  cbv zeta. unfold categorize_expense.
  generalize (str_lower description) (str_lower merchant). intros dl ml.
  destruct (max_by_score (score_all dl ml)) as [[c s] | ] eqn:E.
  - rewrite !(categorize_lowered_scored dl ml _ c s E).
    destruct (subcategory_of c dl amount) as [sub | ex] eqn:Es;
      cbn [Categorization.error Categorization.category];
      [ | discriminate ].
    intros _ Hc. now rewrite (subcategory_of_not_meals c dl amount amount' Hc), Es.
  - unfold categorize_lowered. rewrite E. reflexivity.
Qed.

(** X11: a call that falls under "meals" with a number as amount returns the
    error result, "miscellaneous"/"error" with confidence 0.0, when the
    amount is None or text: the comparison with 75 raises. *)
Theorem categorize_meal_needs_number
    (description merchant : string) (amount : value) :
  Categorization.category (categorize_expense description merchant (VInt 0))
  = "meals" ->
  amount = VNone \/ (exists s, amount = VStr s) ->
  categorize_expense description merchant amount
  = {| Categorization.category := "miscellaneous";
       Categorization.subcategory := "error";
       Categorization.confidence := F64.zero;
       Categorization.error := Some (str_of_exn (TypeError_order amount));
       Categorization.alternative_categories := [] |}.
Proof.
  unfold categorize_expense.
  generalize (str_lower description) (str_lower merchant). intros dl ml.
  destruct (max_by_score (score_all dl ml)) as [[c s] | ] eqn:E.
  - rewrite !(categorize_lowered_scored dl ml _ c s E).
    destruct (subcategory_of_number c dl 0) as (sub & ->).
    cbn [Categorization.category]. intros -> Ha.
    unfold subcategory_of, bind.
    change ("meals" =? "transportation")%string with false.
    change ("meals" =? "meals")%string with true. cbv iota.
    destruct Ha as [-> | (t & ->)]; reflexivity.
  - unfold categorize_lowered. rewrite E. cbn. discriminate.
Qed.

(** X12: under "meals", the subcategory is "business_meal" exactly when the
    amount is a number above 75, whatever meal the description names. *)
Theorem categorize_business_meal_iff
    (description merchant : string) (amount : value) :
  let r := categorize_expense description merchant amount in
  Categorization.category r = "meals" ->
  (Categorization.subcategory r = "business_meal"
   <-> value_gt amount 75 = Ok true).
Proof.
  cbv zeta. unfold categorize_expense.
  generalize (str_lower description) (str_lower merchant). intros dl ml.
  destruct (max_by_score (score_all dl ml)) as [[c s] | ] eqn:E.
  - rewrite (categorize_lowered_scored dl ml _ c s E).
    destruct (subcategory_of c dl amount) as [sub | ex] eqn:Es;
      cbn [Categorization.category Categorization.subcategory];
      [ | discriminate ].
    intros ->. revert Es. unfold subcategory_of, bind.
    change ("meals" =? "transportation")%string with false.
    change ("meals" =? "meals")%string with true. cbv iota.
    destruct (value_gt amount 75) as [[] | ex]; [ | | discriminate ];
      intros H; injection H as <-.
    + split; reflexivity.
    + split; [ | discriminate ]. split_ifs; discriminate.
  - unfold categorize_lowered. rewrite E. cbn. discriminate.
Qed.

(** X13: the alternatives are scored categories other than the returned
    one, all different, and none scores above the returned confidence. *)
Theorem categorize_alternatives_distinct
    (description merchant : string) (amount : value) :
  let r := categorize_expense description merchant amount in
  NoDup (map fst (Categorization.alternative_categories r))
  /\ forall alt,
      In alt (Categorization.alternative_categories r) ->
      fst alt <> Categorization.category r
      /\ In (fst alt)
           ["transportation"; "lodging"; "meals"; "office_supplies"]
      /\ F64.leb (snd alt) (Categorization.confidence r) = true.
Proof.
  cbv zeta. unfold categorize_expense.
  generalize (str_lower description) (str_lower merchant). intros dl ml.
  destruct (max_by_score (score_all dl ml)) as [[c s] | ] eqn:E.
  - rewrite (categorize_lowered_scored dl ml _ c s E).
    destruct (subcategory_of c dl amount) as [sub | ex];
      cbn [Categorization.category Categorization.confidence
           Categorization.alternative_categories];
      [ | split; [ constructor | intros alt [] ] ].
    pose proof (score_all_positive dl ml) as Hpos.
    assert (Hne : score_all dl ml <> [])
      by (intros H; rewrite H in E; discriminate).
    destruct (sorted_desc_head _ Hpos Hne) as (b & tail & Es & Hb).
    pose proof (max_by_score_first_maximum _ _ Hpos E) as Hm.
    assert (Eb : b = (c, s)) by (eapply first_maximum_unique; eauto).
    subst b. rewrite Es. cbn [skipn].
    pose proof (sorted_desc_perm (score_all dl ml)) as Hperm.
    rewrite Es in Hperm.
    assert (Hnd : NoDup (map fst ((c, s) :: tail))).
    { eapply Permutation_NoDup;
        [ symmetry; apply Permutation_map; exact Hperm | ].
      apply score_all_nodup. }
    pose proof (sorted_desc_descending _ Hpos) as Hdesc.
    rewrite Es in Hdesc. unfold descending in Hdesc.
    inversion Hdesc as [ | ? ? _ Hle]; subst.
    inversion Hnd as [ | ? ? Hc Htail]; subst.
    rewrite <- (firstn_skipn 2 tail) in Hc, Htail, Hle.
    rewrite map_app in Hc, Htail. split.
    + now apply NoDup_app_remove_r in Htail.
    + intros alt Halt. split; [ | split ].
      * intros Heq. apply Hc. rewrite in_app_iff. left.
        cbn [fst] in Heq. rewrite <- Heq. now apply in_map.
      * apply score_all_keys with (dl := dl) (ml := ml).
        eapply Permutation_in; [ exact Hperm | ].
        right. rewrite <- (firstn_skipn 2 tail), in_app_iff. now left.
      * rewrite Forall_forall in Hle. apply (Hle alt).
        rewrite in_app_iff. now left.
  - unfold categorize_lowered. rewrite E.
    cbn [Categorization.alternative_categories]. split; [ constructor | ].
    intros alt [].
Qed.

(** X14: swapping the description and the merchant changes neither the
    category, nor the confidence, nor the alternatives, nor whether the call
    fails: only the subcategory reads the description alone. *)
Theorem categorize_swap_description_merchant
    (description merchant : string) (amount : value) :
  let r := categorize_expense description merchant amount in
  let r' := categorize_expense merchant description amount in
  Categorization.category r' = Categorization.category r
  /\ Categorization.confidence r' = Categorization.confidence r
  /\ Categorization.alternative_categories r'
     = Categorization.alternative_categories r
  /\ Categorization.error r' = Categorization.error r.
Proof.
  cbv zeta. unfold categorize_expense.
  generalize (str_lower description) (str_lower merchant). intros dl ml.
  destruct (max_by_score (score_all dl ml)) as [[c s] | ] eqn:E.
  - rewrite (categorize_lowered_scored dl ml _ c s E).
    rewrite (score_all_swap dl ml) in E.
    rewrite (categorize_lowered_scored ml dl _ c s E).
    rewrite (score_all_swap ml dl).
    unfold subcategory_of, bind.
    destruct (c =? "transportation")%string;
      [ | destruct (c =? "meals")%string;
          [ destruct (value_gt amount 75) | ] ];
      cbn [Categorization.category Categorization.confidence
           Categorization.alternative_categories Categorization.error];
      auto.
  - unfold categorize_lowered. rewrite E.
    rewrite (score_all_swap dl ml) in E. rewrite E. auto.
Qed.

Lemma categorize_lowered_no_error (dl ml : string) (amount : value)
    (r : Categorization.t) :
  categorize_lowered dl ml amount = Ok r -> Categorization.error r = None.
Proof.
  unfold categorize_lowered, bind.
  destruct (max_by_score (score_all dl ml)) as [[c s] | ].
  - destruct (subcategory_of c dl amount); [ | discriminate ].
    intros H; injection H as <-. reflexivity.
  - intros H; injection H as <-. reflexivity.
Qed.

(** X15: with a tool context, the categorizer returns the result it returns
    without; it appends one entry to the categorization history when the
    state is truthy and the result is not the error result, and leaves the
    context as it was otherwise. *)
Theorem categorize_records_history (description merchant : string)
    (amount : value) (c : CategorizationSession.tool_context) (now : string) :
  let r := categorize_expense description merchant amount in
  categorize_expense_in description merchant amount (Some c) now
  = (r,
     match Categorization.error r with
     | None =>
         if CategorizationSession.state_truthy c then
           Some {| CategorizationSession.state_truthy := true;
                   CategorizationSession.categorization_history :=
                     Some (get (CategorizationSession.categorization_history c)
                             []
                           ++ [ {| CategorizationSession.description :=
                                     description;
                                   CategorizationSession.merchant := merchant;
                                   CategorizationSession.result := r;
                                   CategorizationSession.timestamp := now |} ])
                |}
         else Some c
     | Some _ => Some c
     end).
Proof.
  cbv zeta. unfold categorize_expense_in, categorize_expense.
  destruct (categorize_lowered (str_lower description) (str_lower merchant)
              amount) as [r | ex] eqn:E.
  - rewrite (categorize_lowered_no_error _ _ _ _ E). reflexivity.
  - reflexivity.
Qed.

End CategorizerRules.

(** ** The aggregator: the normal summary *)

Section SummaryShape.

Context {py : Python}.

Lemma validate_valid_no_violation (e : Expense.t) :
  Validation.is_valid (validate_expense_data e) = true ->
  Validation.violations (validate_expense_data e) = [].
Proof.
  unfold validate_expense_data.
  destruct (validation_rules e) as [r | ex] eqn:E; [ | discriminate ].
  intros H. pose proof (validation_rules_consistent e r E) as [_ C].
  destruct (Validation.violations r); [ reflexivity | ].
  rewrite C in H; discriminate.
Qed.

Lemma collect_compliance (i : nat) (v : Validation.t) (s : Summary.t) :
  Summary.compliance_status (collect i v s)
  = {| Summary.total_violations :=
         Summary.total_violations (Summary.compliance_status s)
         + (if Validation.is_valid v then 0
            else List.length (Validation.violations v));
       Summary.violations :=
         Summary.violations (Summary.compliance_status s)
         ++ (if Validation.is_valid v then []
             else map (tagged i) (Validation.violations v));
       Summary.warnings :=
         Summary.warnings (Summary.compliance_status s)
         ++ map (tagged i) (Validation.warnings v);
       Summary.ready_for_submission :=
         Summary.ready_for_submission (Summary.compliance_status s)
         && Validation.is_valid v |}
  /\ Summary.required_documents (collect i v s)
     = Summary.required_documents s ++ Validation.required_documents v
  /\ Summary.policy_references (collect i v s)
     = Summary.policy_references s ++ Validation.policy_references v
  /\ Summary.date_range (collect i v s) = Summary.date_range s
  /\ Summary.statistics (collect i v s) = Summary.statistics s.
Proof.
  unfold collect. destruct s as [t n cs [tv vs ws rd] docs refs dr st].
  destruct (Validation.is_valid v); cbn;
    rewrite ?app_nil_r, ?Nat.add_0_r, ?andb_true_r, ?andb_false_r; auto.
Qed.


Lemma process_expense_facts (i : nat) (e : Expense.t)
    (st : Summary.t * list string) :
  converts e = true -> loop_facts i [e] st (process_expense i e st).
Proof.
  intros He.
  assert (Hv : (if Validation.is_valid (validate_expense_data e) then []
                else map (tagged i)
                       (Validation.violations (validate_expense_data e)))
               = map (tagged i)
                   (Validation.violations (validate_expense_data e))).
  { destruct (Validation.is_valid (validate_expense_data e)) eqn:E;
      [ | reflexivity ].
    now rewrite (validate_valid_no_violation e E). }
  assert (Hn : (if Validation.is_valid (validate_expense_data e) then 0%nat
                else List.length
                       (Validation.violations (validate_expense_data e)))
               = List.length
                   (map (tagged i)
                      (Validation.violations (validate_expense_data e)))).
  { rewrite <- Hv. destruct (Validation.is_valid (validate_expense_data e));
      [ reflexivity | now rewrite length_map ]. }
  revert He Hv Hn.
  unfold converts, float_of, amount_of, process_expense, track_expense,
    category_of, date_of, amounts, dates_of, all_valid, ready, enumerate_from.
  destruct st as [summary dates].
  destruct (to_float (get (Expense.amount e) (VInt 0))) as [a | ex] eqn:Ea;
    [ intros _ | discriminate ].
  cbv zeta. intros Hv Hn.
  match goal with
  | |- loop_facts _ _ _ (collect i ?v ?s, _) =>
      destruct (collect_compliance i v s) as (C1 & C2 & C3 & C4 & C5);
      destruct (collect_fields i v s) as (F1 & F2 & F3 & F4)
  end.
  unfold ready in F4.
  split;
    unfold track_expense, amounts, dates_of, all_valid, ready,
      enumerate_from, float_of, amount_of, date_of, category_of;
    cbn [fst snd map fold_left flat_map forallb filter List.length seq
         combine];
    rewrite ?C1, ?C2, ?C3, ?C4, ?C5, ?F1, ?F2, ?F3, ?F4, ?Ea;
    cbn [Summary.total_amount Summary.expense_count Summary.categories
         Summary.compliance_status Summary.required_documents
         Summary.policy_references Summary.date_range Summary.statistics
         Summary.with_categories Summary.with_total
         Summary.total_violations Summary.violations Summary.warnings
         Summary.ready_for_submission fst snd];
    rewrite ?app_nil_r, ?andb_true_r, ?Hv, ?Hn; try reflexivity.
  destruct (truthy (get (Expense.date e) "")); [ reflexivity | ].
  now rewrite app_nil_r.
Qed.

Lemma enumerate_from_cons {A} (i : nat) (x : A) (l : list A) :
  enumerate_from i (x :: l) = (i, x) :: enumerate_from (i + 1) l.
Proof. unfold enumerate_from. cbn. now rewrite Nat.add_1_r. Qed.

Lemma process_all_facts (l : list Expense.t) (i : nat)
    (st : Summary.t * list string) :
  forallb converts l = true -> loop_facts i l st (process_all i l st).
Proof.
  revert i st. induction l as [ | e l IH]; intros i st Hl;
    cbn [process_all forallb] in *.
  - split; unfold ready, all_valid, amounts, dates_of, enumerate_from; cbn;
      rewrite ?app_nil_r, ?andb_true_r, ?Nat.add_0_r; reflexivity.
  - apply andb_prop in Hl. destruct Hl as [He Hl].
    destruct (process_expense_facts i e st He)
      as [A1 A2 A3 A4 A5 A6 A7 A8 A9 A10 A11 A12].
    destruct (IH (i + 1)%nat (process_expense i e st) Hl)
      as [B1 B2 B3 B4 B5 B6 B7 B8 B9 B10 B11 B12].
    split; rewrite ?enumerate_from_cons;
      unfold amounts, all_valid, dates_of, enumerate_from in *;
      cbn [map fold_left flat_map forallb filter] in *;
      try congruence.
    + rewrite B4, A4.
      cbn [List.length seq combine flat_map]. rewrite !length_app.
      cbn [List.length]. lia.
    + rewrite B5, A5.
      cbn [List.length seq combine flat_map].
      rewrite app_nil_r, <- app_assoc. reflexivity.
    + rewrite B6, A6.
      cbn [List.length seq combine flat_map].
      rewrite app_nil_r, <- app_assoc. reflexivity.
    + rewrite B7, A7. rewrite andb_true_r.
      now rewrite andb_assoc.
    + rewrite B8, A8.
      rewrite app_nil_r, <- app_assoc. reflexivity.
    + rewrite B9, A9.
      rewrite app_nil_r, <- app_assoc. reflexivity.
    + rewrite B12, A12. rewrite <- app_assoc. f_equal.
      destruct (truthy (date_of e)); reflexivity.
Qed.

End SummaryShape.

Section SummaryCases.

Context {py : Python}.

(** The summary of expenses whose amounts convert and whose date range does
    not raise. *)
Lemma summarize_normal (l : list Expense.t) (range : option Summary.range) :
  forallb converts l = true ->
  date_range_of (dates_of l) = Ok range ->
  summarize l = Ok (normal_summary l range).
Proof.
  intros H Hrange. unfold summarize.
  pose proof (process_all_facts l 0 (Summary.initial (List.length l), []) H)
    as F.
  destruct (process_all 0 l (Summary.initial (List.length l), []))
    as [S dates].
  destruct F as [F1 F2 F3 F4 F5 F6 F7 F8 F9 F10 F11 F12].
  unfold ready in F7.
  destruct S as [t n cs [tv vs ws rd] docs refs dr st].
  cbn [fst snd Summary.initial Summary.total_amount Summary.expense_count
       Summary.categories Summary.compliance_status Summary.total_violations
       Summary.violations Summary.warnings Summary.ready_for_submission
       Summary.required_documents Summary.policy_references
       Summary.date_range Summary.statistics app andb Nat.add]
    in F1, F2, F3, F4, F5, F6, F7, F8, F9, F10, F11, F12.
  subst. cbv zeta. unfold bind. rewrite Hrange.
  unfold statistics_of. rewrite (map_result_converts l H).
  unfold normal_summary, tagged_all, buckets.
  destruct range, l as [ | e l]; reflexivity.
Qed.

(** Every call returns the summary of the outer handler or the normal
    one. *)
Lemma generate_cases (l : list Expense.t) :
  (exists ex, generate_expense_summary l = summary_error ex)
  \/ (exists range,
        forallb converts l = true
        /\ date_range_of (dates_of l) = Ok range
        /\ generate_expense_summary l = normal_summary l range).
Proof.
  unfold generate_expense_summary.
  destruct (forallb converts l) eqn:H.
  - destruct (date_range_of (dates_of l)) as [range | ex] eqn:E.
    + right. exists range. now rewrite (summarize_normal l range H E).
    + left. exists ex. pose proof (summarize_ok l H) as Hs.
      rewrite E in Hs. now rewrite Hs.
  - left. destruct (summarize_raises l H) as (ex & ->). now exists ex.
Qed.

End SummaryCases.

(** ** The summary: compliance *)

Section SummaryCompliance.

Context {py : Python}.

Lemma validate_no_violation_valid (e : Expense.t) :
  Validation.violations (validate_expense_data e) = [] ->
  Validation.is_valid (validate_expense_data e) = true.
Proof.
  unfold validate_expense_data.
  destruct (validation_rules e) as [r | ex] eqn:E; [ | discriminate ].
  intros H. pose proof (validation_rules_consistent e r E) as [C _].
  destruct (Validation.is_valid r); [ reflexivity | ].
  now destruct (C eq_refl).
Qed.

Lemma tagged_from_nil (field : Validation.t -> list string) (l : list Expense.t)
    (i : nat) :
  flat_map
    (fun ie => map (tagged (fst ie)) (field (validate_expense_data (snd ie))))
    (enumerate_from i l) = []
  <-> Forall (fun e => field (validate_expense_data e) = []) l.
Proof.
  revert i. induction l as [ | e l IH]; intros i.
  - split; [ constructor | reflexivity ].
  - rewrite enumerate_from_cons. cbn [flat_map fst snd]. split.
    + intros H. apply app_eq_nil in H as [H1 H2].
      constructor; [ | now apply (IH (i + 1)%nat) ].
      now destruct (field (validate_expense_data e)).
    + intros H. inversion H as [ | ? ? H1 H2]; subst.
      rewrite H1. cbn [map app]. now apply IH.
Qed.

Lemma all_valid_no_violation (l : list Expense.t) :
  all_valid l = true <-> tagged_all Validation.violations l = [].
Proof.
  unfold tagged_all. rewrite tagged_from_nil. unfold all_valid.
  rewrite forallb_forall, Forall_forall. split; intros H e He.
  - apply validate_valid_no_violation. now apply H.
  - apply validate_no_violation_valid. now apply H.
Qed.

(** X16: in every summary the call returns, ["total_violations"] is the
    length of ["violations"], and ["ready_for_submission"] is true exactly
    when ["violations"] is empty. *)
Theorem summary_violations_consistent (l : list Expense.t) :
  let c := Summary.compliance_status (generate_expense_summary l) in
  Summary.total_violations c = List.length (Summary.violations c)
  /\ (Summary.ready_for_submission c = true <-> Summary.violations c = []).
Proof.
  cbv zeta.
  destruct (generate_cases l) as [(ex & ->) | (range & _ & _ & ->)].
  - cbn. split; [ reflexivity | split; discriminate ].
  - cbn [normal_summary Summary.compliance_status Summary.total_violations
         Summary.violations Summary.ready_for_submission].
    split; [ reflexivity | apply all_valid_no_violation ].
Qed.

(** X17: a summary is ready for submission exactly when every amount
    converts, every expense is valid, and the date range analysis does not
    raise. *)
Theorem summary_ready_iff (l : list Expense.t) :
  ready (generate_expense_summary l) = true
  <-> forallb converts l = true
      /\ all_valid l = true
      /\ exists range, date_range_of (dates_of l) = Ok range.
Proof.
  unfold ready. split.
  - destruct (generate_cases l) as [(ex & ->) | (range & H1 & H2 & ->)].
    + discriminate.
    + cbn. intros H. repeat split; try assumption. now exists range.
  - intros (H1 & H2 & range & H3).
    unfold generate_expense_summary.
    rewrite (summarize_normal l range H1 H3). exact H2.
Qed.

(** X18: when every amount converts and the date range analysis does not
    raise, ["violations"] and ["warnings"] hold the violations and the
    warnings of the expenses, each behind the 1-based position of its
    expense, in the order of the expenses. *)
Theorem summary_entries_tagged_in_order (l : list Expense.t)
    (range : option Summary.range) :
  forallb converts l = true ->
  date_range_of (dates_of l) = Ok range ->
  let c := Summary.compliance_status (generate_expense_summary l) in
  Summary.violations c = tagged_all Validation.violations l
  /\ Summary.warnings c = tagged_all Validation.warnings l.
Proof.
  intros H1 H2. unfold generate_expense_summary.
  rewrite (summarize_normal l range H1 H2). split; reflexivity.
Qed.

(** X19: under the same conditions the two document lists hold no entry
    twice, and hold exactly the entries of the validations of the
    expenses. *)
Theorem summary_documents_deduplicated (l : list Expense.t)
    (range : option Summary.range) :
  forallb converts l = true ->
  date_range_of (dates_of l) = Ok range ->
  let s := generate_expense_summary l in
  NoDup (Summary.required_documents s)
  /\ NoDup (Summary.policy_references s)
  /\ (forall d,
        In d (Summary.required_documents s)
        <-> exists e,
              In e l
              /\ In d (Validation.required_documents
                         (validate_expense_data e)))
  /\ (forall d,
        In d (Summary.policy_references s)
        <-> exists e,
              In e l
              /\ In d (Validation.policy_references
                         (validate_expense_data e))).
Proof.
  intros H1 H2. unfold generate_expense_summary.
  rewrite (summarize_normal l range H1 H2).
  cbn [normal_summary Summary.required_documents Summary.policy_references].
  assert (N : forall x, NoDup (list_of_set x)).
  { intros x. apply (Permutation_NoDup (Permutation_sym (list_of_set_perm x))).
    apply NoDup_nodup. }
  assert (I : forall x d, In d (list_of_set x) <-> In d x).
  { intros x d. rewrite <- (nodup_In string_dec x d). split.
    - apply Permutation_in, list_of_set_perm.
    - apply Permutation_in, Permutation_sym, list_of_set_perm. }
  split; [ apply N | ]. split; [ apply N | ].
  split; intros d; rewrite I; apply in_flat_map.
Qed.

End SummaryCompliance.

(** ** The summary: categories *)

Section SummaryCategories.

Context {py : Python}.

Lemma sum_counts_set (k : string) (v : Summary.bucket)
    (d : dict Summary.bucket) :
  (sum_counts (dict_set k v d)
   + Summary.count (get (dict_get k d) Summary.new_bucket)
   = sum_counts d + Summary.count v)%nat.
Proof.
  unfold sum_counts.
  induction d as [ | [k' v'] d IH]; cbn [dict_set dict_get map snd get].
  - cbn. lia.
  - destruct (k' =? k)%string; cbn [map snd get]; unfold list_sum in *;
      cbn [fold_right]; lia.
Qed.

Lemma track_expense_consistent (cats : dict Summary.bucket) (e : Expense.t) :
  NoDup (map fst cats) ->
  Forall (fun kv => bucket_consistent (snd kv)) cats ->
  NoDup (map fst (track_expense cats e))
  /\ Forall (fun kv => bucket_consistent (snd kv)) (track_expense cats e)
  /\ sum_counts (track_expense cats e) = (sum_counts cats + 1)%nat.
Proof.
  intros N F. unfold track_expense, track. cbv zeta.
  assert (B : Summary.count (get (dict_get (category_of e) cats)
                               Summary.new_bucket)
              = List.length (Summary.expenses
                               (get (dict_get (category_of e) cats)
                                  Summary.new_bucket))
              /\ Summary.total (get (dict_get (category_of e) cats)
                                  Summary.new_bucket)
                 = fold_left F64.add
                     (map Summary.amount
                        (Summary.expenses
                           (get (dict_get (category_of e) cats)
                              Summary.new_bucket))) F64.zero).
  { destruct (dict_get (category_of e) cats) as [b | ] eqn:E; cbn [get].
    - apply dict_get_in in E. rewrite Forall_forall in F.
      destruct (F _ E) as (_ & C & T). now split.
    - split; reflexivity. }
  destruct B as [C T].
  split; [ now apply dict_set_keys_nodup | ]. split.
  - apply dict_set_forall; [ exact F | ].
    unfold bucket_consistent.
    cbn [snd Summary.count Summary.total Summary.expenses].
    rewrite length_app, map_app, fold_left_app, <- T, <- C.
    cbn [List.length map fold_left Summary.amount].
    repeat split; lia.
  - pose proof (sum_counts_set (category_of e)
                  {| Summary.count :=
                       Summary.count
                         (get (dict_get (category_of e) cats)
                            Summary.new_bucket) + 1;
                     Summary.total :=
                       F64.add
                         (Summary.total
                            (get (dict_get (category_of e) cats)
                               Summary.new_bucket)) (float_of e);
                     Summary.average :=
                       Summary.average
                         (get (dict_get (category_of e) cats)
                            Summary.new_bucket);
                     Summary.expenses :=
                       Summary.expenses
                         (get (dict_get (category_of e) cats)
                            Summary.new_bucket)
                       ++ [ {| Summary.amount := float_of e;
                               Summary.description :=
                                 get (Expense.description e) "";
                               Summary.date := date_of e |} ] |}
                  cats) as S.
    cbn [Summary.count] in S. lia.
Qed.

Lemma buckets_consistent (l : list Expense.t) (cats : dict Summary.bucket) :
  NoDup (map fst cats) ->
  Forall (fun kv => bucket_consistent (snd kv)) cats ->
  NoDup (map fst (fold_left track_expense l cats))
  /\ Forall (fun kv => bucket_consistent (snd kv))
       (fold_left track_expense l cats)
  /\ sum_counts (fold_left track_expense l cats)
     = (sum_counts cats + List.length l)%nat.
Proof.
  revert cats. induction l as [ | e l IH]; intros cats N F;
    cbn [fold_left List.length].
  - repeat split; try assumption. lia.
  - destruct (track_expense_consistent cats e N F) as (N' & F' & S').
    destruct (IH _ N' F') as (N'' & F'' & S'').
    repeat split; try assumption. lia.
Qed.

Lemma set_average_expenses (b : Summary.bucket) :
  Summary.expenses (set_average b) = Summary.expenses b.
Proof. unfold set_average. now destruct (0 <? Summary.count b)%nat. Qed.

Lemma set_average_consistent (b : Summary.bucket) :
  bucket_consistent b ->
  bucket_consistent (set_average b)
  /\ Summary.average (set_average b)
     = F64.div (Summary.total (set_average b))
         (F64.of_Z (Z.of_nat (Summary.count (set_average b)))).
Proof.
  intros (P & C & T). unfold bucket_consistent, set_average.
  destruct (0 <? Summary.count b)%nat eqn:E.
  - cbn [Summary.count Summary.total Summary.average Summary.expenses].
    repeat split; assumption.
  - apply Nat.ltb_ge in E. lia.
Qed.

(** X20: in every summary the call returns, the counts of the categories
    add up to ["expense_count"], no category is listed twice, and every
    category holds at least one expense, as many as its ["count"], with
    ["total"] the float sum of their amounts in their order and ["average"]
    the quotient of ["total"] by ["count"]. *)
Theorem summary_categories_consistent (l : list Expense.t) :
  let s := generate_expense_summary l in
  sum_counts (Summary.categories s) = Summary.expense_count s
  /\ NoDup (map fst (Summary.categories s))
  /\ forall c b,
       In (c, b) (Summary.categories s) ->
       (1 <= Summary.count b)%nat
       /\ Summary.count b = List.length (Summary.expenses b)
       /\ Summary.total b
          = fold_left F64.add (map Summary.amount (Summary.expenses b))
              F64.zero
       /\ Summary.average b
          = F64.div (Summary.total b) (F64.of_Z (Z.of_nat (Summary.count b))).
Proof.
  cbv zeta.
  destruct (generate_cases l) as [(ex & ->) | (range & _ & _ & ->)].
  - cbn [summary_error Summary.categories Summary.expense_count map].
    split; [ reflexivity | ]. split; [ constructor | ].
    intros c b [].
  - cbn [normal_summary Summary.categories Summary.expense_count].
    destruct (buckets_consistent l [] (NoDup_nil _) (Forall_nil _))
      as (N & F & S).
    fold (buckets l) in N, F, S. split; [ | split ].
    + change (sum_counts [] + List.length l)%nat with (List.length l) in S.
      rewrite <- S. unfold sum_counts. rewrite map_map. cbn [snd].
      f_equal. apply map_ext. intros [k b]. apply set_average_fields.
    + rewrite map_map. cbn [fst]. exact N.
    + intros c b Hin. apply in_map_iff in Hin as ([k b0] & E & Hin).
      cbn [fst snd] in E. injection E as _ <-.
      rewrite Forall_forall in F. specialize (F _ Hin). cbn [snd] in F.
      destruct (set_average_consistent b0 F) as ((P & C & T) & A).
      repeat split; assumption.
Qed.

Lemma bucket_expenses (c : string) (l : list Expense.t)
    (b : option Summary.bucket) :
  option_map Summary.expenses (fold_left (bucket_step c) l b)
  = match of_category c l with
    | [] => option_map Summary.expenses b
    | mine =>
        Some (Summary.expenses (get b Summary.new_bucket) ++ map item_of mine)
    end.
Proof.
  revert b. unfold of_category.
  induction l as [ | e l IH]; intros b; cbn [fold_left filter].
  - reflexivity.
  - rewrite IH. unfold bucket_step.
    destruct (category_of e =? c)%string; [ | reflexivity ].
    cbn [get option_map Summary.expenses].
    destruct (filter _ l) as [ | e' l'].
    + reflexivity.
    + rewrite <- app_assoc. reflexivity.
Qed.

(** X21: when every amount converts and the date range analysis does not
    raise, a category is a key of ["categories"] exactly when some expense
    has it, and its ["expenses"] are the entries of the expenses of that
    category, in their order; an expense without category counts as
    ["miscellaneous"]. *)
Theorem summary_category_expenses (l : list Expense.t)
    (range : option Summary.range) (c : string) :
  forallb converts l = true ->
  date_range_of (dates_of l) = Ok range ->
  option_map Summary.expenses
    (dict_get c (Summary.categories (generate_expense_summary l)))
  = match of_category c l with
    | [] => None
    | mine => Some (map item_of mine)
    end.
Proof.
  intros H1 H2. pose proof (summarize_ok l H1) as Hs. rewrite H2 in Hs.
  destruct Hs as (s & Hs & _ & _ & _ & B).
  unfold generate_expense_summary. rewrite Hs, B.
  pose proof (bucket_expenses c l None) as E.
  destruct (fold_left (bucket_step c) l None) as [b | ];
    cbn [option_map] in E |- *.
  - rewrite set_average_expenses. exact E.
  - exact E.
Qed.

End SummaryCategories.

(** ** The summary: date range *)

Lemma string_leb_ltb (x y : string) :
  (x <=? y)%string = true <-> (y <? x)%string = false.
Proof.
  unfold String.leb, String.ltb. rewrite (String.compare_antisym x y).
  destruct (String.compare y x); simpl; split; congruence.
Qed.

Lemma string_leb_antisym (x y : string) :
  (x <=? y)%string = true -> (y <=? x)%string = true -> x = y.
Proof.
  rewrite !string_leb_ltb. intros H1 H2. now apply string_ltb_total.
Qed.

Lemma insert_sorted_perm (x : string) (l : list string) :
  Permutation (insert_sorted x l) (x :: l).
Proof.
  induction l as [ | y l IH]; cbn [insert_sorted].
  - reflexivity.
  - destruct (x <? y)%string; [ reflexivity | ].
    rewrite IH. apply perm_swap.
Qed.

Lemma sort_strings_perm (l : list string) : Permutation (sort_strings l) l.
Proof.
  unfold sort_strings.
  assert (G : forall acc,
             Permutation (fold_left (fun s x => insert_sorted x s) l acc)
               (acc ++ l)).
  { induction l as [ | x l IH]; intros acc; cbn [fold_left].
    - now rewrite app_nil_r.
    - rewrite IH, insert_sorted_perm. cbn [app]. apply Permutation_middle. }
  exact (G []).
Qed.

Lemma insert_sorted_ascending (x : string) (l : list string) :
  StronglySorted (fun a b => (a <=? b)%string = true) l ->
  StronglySorted (fun a b => (a <=? b)%string = true) (insert_sorted x l).
Proof.
  induction 1 as [ | y l Hs IH Hy]; cbn [insert_sorted].
  - repeat constructor.
  - destruct (x <? y)%string eqn:E.
    + constructor; [ now constructor | ].
      constructor.
      * apply string_leb_ltb. now apply string_ltb_asym.
      * rewrite Forall_forall in Hy |- *. intros z Hz.
        apply string_leb_ltb. specialize (Hy z Hz).
        apply string_leb_ltb in Hy.
        destruct (z <? x)%string eqn:Ezx; [ | reflexivity ].
        rewrite (string_ltb_trans z x y Ezx E) in Hy. discriminate.
    + constructor; [ exact IH | ].
      apply (Permutation_Forall (Permutation_sym (insert_sorted_perm x l))).
      constructor; [ now apply string_leb_ltb | exact Hy ].
Qed.

Lemma sort_strings_ascending (l : list string) :
  StronglySorted (fun a b => (a <=? b)%string = true) (sort_strings l).
Proof.
  unfold sort_strings.
  assert (G : forall acc,
             StronglySorted (fun a b => (a <=? b)%string = true) acc ->
             StronglySorted (fun a b => (a <=? b)%string = true)
               (fold_left (fun s x => insert_sorted x s) l acc)).
  { induction l as [ | x l IH]; intros acc Ha; cbn [fold_left].
    - exact Ha.
    - apply IH. now apply insert_sorted_ascending. }
  apply G. constructor.
Qed.

Lemma string_leb_refl (x : string) : (x <=? x)%string = true.
Proof.
  apply string_leb_ltb. destruct (x <? x)%string eqn:E; [ | reflexivity ].
  pose proof (string_ltb_asym x x E) as E'. congruence.
Qed.

Lemma ascending_last (l : list string) (x d : string) :
  StronglySorted (fun a b => (a <=? b)%string = true) l ->
  In x l -> (x <=? List.last l d)%string = true.
Proof.
  induction 1 as [ | y l Hs IH Hy]; intros Hin; [ destruct Hin | ].
  destruct l as [ | z l].
  - destruct Hin as [-> | []]. apply string_leb_refl.
  - change (List.last (y :: z :: l) d) with (List.last (z :: l) d).
    destruct Hin as [-> | Hin]; [ | now apply IH ].
    rewrite Forall_forall in Hy. apply Hy.
    destruct (exists_last (l := z :: l)) as (l' & a & E); [ discriminate | ].
    rewrite E, last_last. apply in_or_app. right. now left.
Qed.

Lemma last_in {A} (l : list A) (x : A) : In (List.last (x :: l) x) (x :: l).
Proof.
  destruct (exists_last (l := x :: l)) as (l' & a & E); [ discriminate | ].
  rewrite E, last_last. apply in_or_app. right. now left.
Qed.

(** The ends of the sorted dates. *)
Lemma sort_strings_ends (dates : list string) (first : string)
    (rest : list string) :
  sort_strings dates = first :: rest ->
  In first dates
  /\ In (List.last (first :: rest) first) dates
  /\ forall d, In d dates ->
               (first <=? d)%string = true
               /\ (d <=? List.last (first :: rest) first)%string = true.
Proof.
  intros E. pose proof (sort_strings_perm dates) as P.
  pose proof (sort_strings_ascending dates) as S. rewrite E in P, S.
  split; [ | split ].
  - apply (Permutation_in _ P). now left.
  - apply (Permutation_in _ P). apply last_in.
  - intros d Hd. apply (Permutation_in _ (Permutation_sym P)) in Hd. split.
    + inversion S as [ | ? ? _ F]; subst. destruct Hd as [-> | Hd].
      * apply string_leb_refl.
      * rewrite Forall_forall in F. now apply F.
    + now apply ascending_last.
Qed.

Section SummaryDates.

Context {py : Python}.

Lemma date_range_of_some (dates : list string) (r : Summary.range) :
  date_range_of dates = Ok (Some r) ->
  exists rest,
    sort_strings dates = Summary.start_date r :: rest
    /\ Summary.end_date r
       = List.last (Summary.start_date r :: rest) (Summary.start_date r)
    /\ (if (1 <? List.length dates)%nat then
          iso_days (replace_Z (Summary.end_date r))
            (replace_Z (Summary.start_date r))
          = Some (Summary.duration_days r - 1)
        else Summary.duration_days r = 1).
Proof.
  unfold date_range_of.
  rewrite <- (Permutation_length (sort_strings_perm dates)).
  destruct (sort_strings dates) as [ | first rest]; [ discriminate | ].
  cbv zeta. unfold bind.
  destruct (1 <? List.length (first :: rest))%nat.
  - destruct (iso_days (replace_Z (List.last (first :: rest) first))
                (replace_Z first)) as [days | ] eqn:E; cbv beta iota;
      [ | discriminate ].
    intros H. injection H as <-. exists rest.
    cbn [Summary.start_date Summary.end_date Summary.duration_days].
    repeat split; try reflexivity.
    transitivity (Some days); [ exact E | f_equal; lia ].
  - intros H. cbv beta iota in H. injection H as <-. exists rest.
    cbn [Summary.start_date Summary.end_date Summary.duration_days].
    repeat split; reflexivity.
Qed.

(** X22: the date range of a summary starts at the least and ends at the
    greatest of the non-empty dates of the expenses, in the order of
    strings. *)
Theorem summary_date_range_bounds (l : list Expense.t) (r : Summary.range) :
  Summary.date_range (generate_expense_summary l) = Some r ->
  In (Summary.start_date r) (dates_of l)
  /\ In (Summary.end_date r) (dates_of l)
  /\ forall d, In d (dates_of l) ->
               (Summary.start_date r <=? d)%string = true
               /\ (d <=? Summary.end_date r)%string = true.
Proof.
  destruct (generate_cases l) as [(ex & ->) | (range & _ & H & ->)];
    [ discriminate | ].
  cbn [normal_summary Summary.date_range]. intros ->.
  destruct (date_range_of_some _ _ H) as (rest & E & -> & _).
  exact (sort_strings_ends _ _ _ E).
Qed.

(** X23: the duration of the date range is 1 when at most one expense has
    a non-empty date, without any date being parsed; with more dates it is
    one more than the days from the start to the end date. *)
Theorem summary_date_range_duration (l : list Expense.t)
    (r : Summary.range) :
  Summary.date_range (generate_expense_summary l) = Some r ->
  if (1 <? List.length (dates_of l))%nat then
    iso_days (replace_Z (Summary.end_date r))
      (replace_Z (Summary.start_date r))
    = Some (Summary.duration_days r - 1)
  else Summary.duration_days r = 1.
Proof.
  destruct (generate_cases l) as [(ex & ->) | (range & _ & H & ->)];
    [ discriminate | ].
  cbn [normal_summary Summary.date_range]. intros ->.
  destruct (date_range_of_some _ _ H) as (rest & _ & _ & D). exact D.
Qed.

(** X24: when two or more expenses have a non-empty date and the days from
    the least to the greatest date cannot be computed, the call returns the
    summary of its outer handler, with no total, no category and no
    violation of any expense. *)
Theorem summary_unparseable_dates_abort (l : list Expense.t)
    (lo hi : string) :
  (1 < List.length (dates_of l))%nat ->
  In lo (dates_of l) ->
  In hi (dates_of l) ->
  (forall d, In d (dates_of l) ->
             (lo <=? d)%string = true /\ (d <=? hi)%string = true) ->
  iso_days (replace_Z hi) (replace_Z lo) = None ->
  exists ex,
    generate_expense_summary l = summary_error ex
    /\ (forallb converts l = true -> ex = Error_datetime hi lo).
Proof.
  intros Hn Hlo Hhi Hb Hd.
  assert (R : date_range_of (dates_of l) = Raise (Error_datetime hi lo)).
  { unfold date_range_of.
    pose proof (Permutation_length (sort_strings_perm (dates_of l))) as L.
    destruct (sort_strings (dates_of l)) as [ | first rest] eqn:E.
    - rewrite <- L in Hn. cbn in Hn. lia.
    - destruct (sort_strings_ends _ _ _ E) as (I1 & I2 & B).
      assert (first = lo) as ->.
      { apply string_leb_antisym; [ apply (B lo Hlo) | apply (Hb _ I1) ]. }
      assert (List.last (lo :: rest) lo = hi) as ->.
      { apply string_leb_antisym; [ apply (Hb _ I2) | apply (B hi Hhi) ]. }
      cbv zeta. rewrite L. apply Nat.ltb_lt in Hn. rewrite Hn, Hd.
      reflexivity. }
  destruct (forallb converts l) eqn:Hc.
  - exists (Error_datetime hi lo). split; [ | reflexivity ].
    unfold generate_expense_summary.
    pose proof (summarize_ok l Hc) as Hs. rewrite R in Hs. now rewrite Hs.
  - unfold generate_expense_summary.
    destruct (summarize_raises l Hc) as (ex & ->). exists ex.
    split; [ reflexivity | discriminate ].
Qed.

End SummaryDates.

(** ** The summary: statistics *)

Lemma not_ltb_leb_number (x y : F64.float) :
  is_nan x = false -> is_nan y = false ->
  F64.ltb x y = false -> F64.leb y x = true.
Proof.
  unfold is_nan, F64.ltb, F64.leb, SFltb, SFleb.
  rewrite (SFcompare_antisym x y).
  destruct x as [[] | [] | | [] ? ?], y as [[] | [] | | [] ? ?];
    simpl; try congruence;
    repeat match goal with
           | |- context [match ?c with Eq => _ | Lt => _ | Gt => _ end] =>
               destruct c; simpl; try congruence
           end.
Qed.

Lemma leb_refl_number (x : F64.float) :
  is_nan x = false -> F64.leb x x = true.
Proof.
  intros H. apply not_ltb_leb_number; auto.
  destruct (F64.ltb x x) eqn:E; [ | reflexivity ].
  exfalso. apply (ltb_not_leb x x E). now apply ltb_leb.
Qed.

Lemma max_is_nan (a b : F64.float) :
  is_nan a = false -> is_nan b = false -> is_nan (F64.max a b) = false.
Proof. intros. unfold F64.max. now destruct (F64.gtb b a). Qed.

Lemma min_is_nan (a b : F64.float) :
  is_nan a = false -> is_nan b = false -> is_nan (F64.min a b) = false.
Proof. intros. unfold F64.min. now destruct (F64.ltb b a). Qed.

Lemma max_float_in (x : F64.float) (xs : list F64.float) :
  In (max_float x xs) (x :: xs).
Proof.
  unfold max_float. revert x.
  induction xs as [ | y xs IH]; intros x; cbn [fold_left].
  - now left.
  - specialize (IH (F64.max x y)). unfold F64.max in IH |- *.
    destruct (F64.gtb y x); destruct IH as [<- | IH]; cbn [In]; auto.
Qed.

Lemma min_float_in (x : F64.float) (xs : list F64.float) :
  In (min_float x xs) (x :: xs).
Proof.
  unfold min_float. revert x.
  induction xs as [ | y xs IH]; intros x; cbn [fold_left].
  - now left.
  - specialize (IH (F64.min x y)). unfold F64.min in IH |- *.
    destruct (F64.ltb y x); destruct IH as [<- | IH]; cbn [In]; auto.
Qed.

Lemma max_float_bound (x : F64.float) (xs : list F64.float) :
  forallb (fun a => negb (is_nan a)) (x :: xs) = true ->
  forall a, In a (x :: xs) -> F64.leb a (max_float x xs) = true.
Proof.
  unfold max_float. revert x.
  induction xs as [ | y xs IH]; intros x H a Ha; cbn [fold_left].
  - destruct Ha as [<- | []]. cbn in H. apply leb_refl_number.
    now destruct (is_nan x).
  - cbn [forallb] in H. apply andb_prop in H as [Hx H].
    apply andb_prop in H as [Hy H].
    apply negb_true_iff in Hx, Hy.
    assert (Hm : forallb (fun a => negb (is_nan a)) (F64.max x y :: xs)
                 = true).
    { cbn [forallb]. now rewrite (max_is_nan x y Hx Hy), H. }
    pose proof (IH _ Hm) as B.
    assert (Mx : F64.leb x (F64.max x y) = true
                 /\ F64.leb y (F64.max x y) = true).
    { unfold F64.max. destruct (F64.gtb y x) eqn:E.
      - split; [ now apply ltb_leb | now apply leb_refl_number ].
      - split; [ now apply leb_refl_number
               | now apply not_ltb_leb_number ]. }
    destruct Ha as [<- | [<- | Ha]].
    + apply (leb_trans _ (F64.max x y)); [ apply Mx | apply B; now left ].
    + apply (leb_trans _ (F64.max x y)); [ apply Mx | apply B; now left ].
    + apply B. now right.
Qed.

Lemma min_float_bound (x : F64.float) (xs : list F64.float) :
  forallb (fun a => negb (is_nan a)) (x :: xs) = true ->
  forall a, In a (x :: xs) -> F64.leb (min_float x xs) a = true.
Proof.
  unfold min_float. revert x.
  induction xs as [ | y xs IH]; intros x H a Ha; cbn [fold_left].
  - destruct Ha as [<- | []]. cbn in H. apply leb_refl_number.
    now destruct (is_nan x).
  - cbn [forallb] in H. apply andb_prop in H as [Hx H].
    apply andb_prop in H as [Hy H].
    apply negb_true_iff in Hx, Hy.
    assert (Hm : forallb (fun a => negb (is_nan a)) (F64.min x y :: xs)
                 = true).
    { cbn [forallb]. now rewrite (min_is_nan x y Hx Hy), H. }
    pose proof (IH _ Hm) as B.
    assert (Mx : F64.leb (F64.min x y) x = true
                 /\ F64.leb (F64.min x y) y = true).
    { unfold F64.min. destruct (F64.ltb y x) eqn:E.
      - split; [ now apply ltb_leb | now apply leb_refl_number ].
      - split; [ now apply leb_refl_number
               | now apply not_ltb_leb_number ]. }
    destruct Ha as [<- | [<- | Ha]].
    + apply (leb_trans _ (F64.min x y)); [ apply B; now left | apply Mx ].
    + apply (leb_trans _ (F64.min x y)); [ apply B; now left | apply Mx ].
    + apply B. now right.
Qed.

Lemma most_common_maximum (x : string * Summary.bucket)
    (cats : dict Summary.bucket) :
  exists b,
    In (most_common (x :: cats), b) (x :: cats)
    /\ forall c b', In (c, b') (x :: cats) ->
                    (Summary.count b' <= Summary.count b)%nat.
Proof.
  unfold most_common. revert x.
  induction cats as [ | y cats IH]; intros [k v]; cbn [fold_left].
  - exists v. split; [ now left | ].
    intros c b' [E | []]. injection E as _ <-. lia.
  - destruct y as [k' v']. cbn [snd].
    destruct (Summary.count v <? Summary.count v')%nat eqn:E.
    + destruct (IH (k', v')) as (b & Hin & Hmax). exists b. split.
      * right. exact Hin.
      * intros c b' [Hc | Hc]; [ | now apply (Hmax c) ].
        injection Hc as _ <-. apply Nat.ltb_lt in E.
        specialize (Hmax k' v' (or_introl eq_refl)). lia.
    + destruct (IH (k, v)) as (b & Hin & Hmax). exists b. split.
      * destruct Hin as [Hin | Hin]; [ now left | right; now right ].
      * intros c b' [Hc | [Hc | Hc]].
        -- injection Hc as _ <-. apply (Hmax k). now left.
        -- injection Hc as _ <-. apply Nat.ltb_ge in E.
           specialize (Hmax k v (or_introl eq_refl)). lia.
        -- apply (Hmax c). now right.
Qed.

Section SummaryStatistics.

Context {py : Python}.

Lemma statistics_some (l : list Expense.t) (st : Summary.stats) :
  Summary.statistics (generate_expense_summary l) = Some st ->
  exists range e l',
    l = e :: l'
    /\ generate_expense_summary l = normal_summary l range
    /\ st = {| Summary.average_expense :=
                 F64.div (fold_left F64.add (amounts l) F64.zero)
                   (F64.of_Z (Z.of_nat (List.length l)));
               Summary.largest_expense :=
                 max_float (float_of e) (amounts l');
               Summary.smallest_expense :=
                 min_float (float_of e) (amounts l');
               Summary.most_common_category :=
                 most_common
                   (map (fun kv => (fst kv, set_average (snd kv)))
                      (buckets l)) |}.
Proof.
  destruct (generate_cases l) as [(ex & ->) | (range & _ & _ & E)];
    [ discriminate | ].
  intros H. rewrite E in H. cbn [normal_summary Summary.statistics] in H.
  destruct l as [ | e l']; [ discriminate | ].
  cbn [amounts map] in H. injection H as <-.
  exists range, e, l'. split; [ reflexivity | ]. split; [ exact E | ].
  reflexivity.
Qed.

(** X25: the statistics of a summary give the quotient of the total amount
    by the number of expenses as the average, and amounts of the expenses
    as the largest and the smallest one; when no amount is a NaN, no amount
    is above the largest or below the smallest. *)
Theorem summary_statistics_bounds (l : list Expense.t) (st : Summary.stats) :
  Summary.statistics (generate_expense_summary l) = Some st ->
  forallb (fun a => negb (is_nan a)) (amounts l) = true ->
  Summary.average_expense st
  = F64.div (Summary.total_amount (generate_expense_summary l))
      (F64.of_Z (Z.of_nat (List.length l)))
  /\ In (Summary.largest_expense st) (amounts l)
  /\ In (Summary.smallest_expense st) (amounts l)
  /\ forall a, In a (amounts l) ->
               F64.leb (Summary.smallest_expense st) a = true
               /\ F64.leb a (Summary.largest_expense st) = true.
Proof.
  intros H N. destruct (statistics_some l st H) as (range & e & l' & -> & E & ->).
  rewrite E.
  cbn [normal_summary Summary.total_amount Summary.average_expense
       Summary.largest_expense Summary.smallest_expense].
  split; [ reflexivity | ]. split; [ apply max_float_in | ].
  split; [ apply min_float_in | ]. intros a Ha. split.
  - now apply min_float_bound.
  - now apply max_float_bound.
Qed.

(** X26: the most common category of the statistics is a category of the
    summary, and no category counts more expenses. *)
Theorem summary_most_common_category (l : list Expense.t)
    (st : Summary.stats) :
  let s := generate_expense_summary l in
  Summary.statistics s = Some st ->
  exists b,
    In (Summary.most_common_category st, b) (Summary.categories s)
    /\ forall c b', In (c, b') (Summary.categories s) ->
                    (Summary.count b' <= Summary.count b)%nat.
Proof.
  cbv zeta. intros H.
  destruct (statistics_some l st H) as (range & e & l' & -> & E & ->).
  rewrite E.
  cbn [normal_summary Summary.categories Summary.most_common_category].
  destruct (map (fun kv => (fst kv, set_average (snd kv)))
              (buckets (e :: l'))) as [ | x cats] eqn:M.
  - exfalso. apply map_eq_nil in M.
    destruct (buckets_consistent (e :: l') [] (NoDup_nil _) (Forall_nil _))
      as (_ & _ & S).
    fold (buckets (e :: l')) in S. rewrite M in S. cbn in S. lia.
  - apply most_common_maximum.
Qed.

End SummaryStatistics.

(** ** The policy search *)

Lemma format_results_shape (results : list Search.document)
    (total : nat) (excerpts : list Search.excerpt) (sources : list string)
    (acc : nat * list Search.excerpt * list string) :
  format_results results (total, excerpts, sources) = inl acc ->
  exists xs,
    acc = ((total + List.length results)%nat, excerpts ++ xs,
           sources ++ filter truthy (map source_of results))
    /\ map excerpt_of results = map inl xs.
Proof.
  revert total excerpts sources.
  induction results as [ | d results IH]; intros total excerpts sources;
    cbn [format_results].
  - intros H. injection H as <-. exists [].
    cbn [List.length map filter]. now rewrite Nat.add_0_r, !app_nil_r.
  - destruct (excerpt_of d) as [x | e] eqn:E; [ | discriminate ].
    intros H. apply IH in H as (xs & -> & M). exists (x :: xs).
    cbn [List.length map filter]. unfold source_of at 2. split.
    + destruct (truthy (get (Search.doc_source_document d) ""));
        rewrite <- !app_assoc; cbn [app];
        match goal with
        | |- (?a, ?b, ?c) = (?a', ?b', ?c') =>
            replace a with a' by lia; reflexivity
        end.
    + now rewrite E, M.
Qed.

Lemma format_results_fails (results : list Search.document)
    (acc : nat * list Search.excerpt * list string) (e : string) :
  format_results results acc = inr e ->
  e = none_has_no_get
  /\ exists d, In d results /\ Search.doc_highlights d = Search.NullHighlights.
Proof.
  revert acc. induction results as [ | d results IH];
    intros [[total excerpts] sources]; cbn [format_results];
    [ discriminate | ].
  destruct (excerpt_of d) as [x | e'] eqn:E.
  - intros H. apply IH in H as (-> & d' & Hin & Hd).
    split; [ reflexivity | ]. exists d'. split; [ now right | exact Hd ].
  - intros H. injection H as <-. unfold excerpt_of in E.
    destruct (Search.doc_highlights d) eqn:Hd; try discriminate.
    injection E as <-. split; [ reflexivity | ]. exists d.
    split; [ now left | exact Hd ].
Qed.

Lemma format_results_null (results : list Search.document)
    (acc : nat * list Search.excerpt * list string) (d : Search.document) :
  In d results ->
  Search.doc_highlights d = Search.NullHighlights ->
  format_results results acc = inr none_has_no_get.
Proof.
  intros Hin Hd.
  destruct (format_results results acc) as [[[n xs'] src] | e] eqn:E.
  - exfalso. destruct acc as [[total excerpts] sources].
    apply format_results_shape in E as (xs & _ & M).
    assert (I : In (excerpt_of d) (map inl xs))
      by (rewrite <- M; now apply in_map).
    apply in_map_iff in I as (x & Hx & _). unfold excerpt_of in Hx.
    rewrite Hd in Hx. discriminate.
  - now destruct (format_results_fails _ _ _ E) as (-> & _).
Qed.

Section PolicySearchRules.

Context {py : Python}.

Variable getenv : string -> option string.
Variable service : Search.client -> Search.params -> Search.response.

Lemma unset_some :
  unset getenv "AZURE_AI_SEARCH_ENDPOINT" || unset getenv "AZURE_CLIENT_ID"
  || unset getenv "AZURE_CLIENT_SECRET" || unset getenv "AZURE_TENANT_ID"
  = true
  <-> exists name, In name required_variables /\ unset getenv name = true.
Proof.
  unfold required_variables. split.
  - intros H. repeat (apply orb_prop in H as [H | H]);
      eexists; (split; [ | exact H ]); cbn [In]; auto.
  - intros (name & Hin & H). cbn [In] in Hin.
    destruct Hin as [<- | [<- | [<- | [<- | []]]]]; rewrite H;
      rewrite ?orb_true_r; reflexivity.
Qed.

(** X27: the search answers that it is not configured, without calling
    the service and without touching the session, exactly when one of the
    four required variables of the environment is unset or empty. *)
Theorem search_requires_configuration (query : string)
    (category : option string) (ctx : option Search.tool_context)
    (now : string) :
  search_expense_policy_in getenv service query category ctx now
  = (not_configured, ctx)
  <-> exists name, In name required_variables /\ unset getenv name = true.
Proof.
  rewrite <- unset_some. unfold search_expense_policy_in.
  destruct (unset getenv "AZURE_AI_SEARCH_ENDPOINT"
            || unset getenv "AZURE_CLIENT_ID"
            || unset getenv "AZURE_CLIENT_SECRET"
            || unset getenv "AZURE_TENANT_ID").
  - split; reflexivity.
  - split; [ | discriminate ]. cbv zeta.
    destruct (format_results _ _) as [[[n xs] src] | e].
    + destruct (Search.failure _); unfold search_error, not_configured;
        intros H; injection H; intros; discriminate.
    + unfold search_error, not_configured.
      intros H; injection H; intros; discriminate.
Qed.

(** X28: every result of the search is either an error, with a message,
    no excerpt and no source, and the session left as it was; or a success,
    in which ["total_results"] is the number of excerpts, no source is
    listed twice or empty, and the session, if its state is truthy, records
    the query with that number of results. *)
Theorem search_result_consistent (query : string)
    (category : option string) (ctx : option Search.tool_context)
    (now : string) :
  let r := fst (search_expense_policy_in getenv service query category ctx
                  now) in
  let ctx' := snd (search_expense_policy_in getenv service query category ctx
                     now) in
  (Search.status r = "error"
   /\ Search.message r <> None
   /\ Search.total_results r = None
   /\ Search.policy_excerpts r = []
   /\ Search.sources r = []
   /\ ctx' = ctx)
  \/ (Search.status r = "success"
      /\ Search.message r = None
      /\ Search.query r = Some query
      /\ Search.category_filter r = Some category
      /\ Search.total_results r = Some (List.length (Search.policy_excerpts r))
      /\ NoDup (Search.sources r)
      /\ ~ In "" (Search.sources r)
      /\ ctx' = record_search query now
                  (List.length (Search.policy_excerpts r)) ctx).
Proof.
  cbv zeta. unfold search_expense_policy_in.
  destruct (unset getenv "AZURE_AI_SEARCH_ENDPOINT"
            || unset getenv "AZURE_CLIENT_ID"
            || unset getenv "AZURE_CLIENT_SECRET"
            || unset getenv "AZURE_TENANT_ID").
  { left. cbn. repeat split. discriminate. }
  destruct (format_results _ _) as [[[n xs] src] | e] eqn:E.
  2: { left. cbn. repeat split. discriminate. }
  destruct (Search.failure _).
  { left. cbn. repeat split. discriminate. }
  right. apply format_results_shape in E as (xs' & E & M).
  injection E as -> -> ->.
  cbn [fst snd Search.status Search.message Search.query
       Search.category_filter Search.total_results Search.policy_excerpts
       Search.sources app Nat.add].
  assert (L : List.length xs'
              = List.length
                  (Search.yielded
                     (service (search_client getenv)
                        (search_params query category)))).
  { rewrite <- (length_map (@inl Search.excerpt string) xs'), <- M.
    apply length_map. }
  rewrite L. repeat split.
  - apply (Permutation_NoDup (Permutation_sym (list_of_set_perm _))).
    apply NoDup_nodup.
  - intros H. apply (Permutation_in _ (list_of_set_perm _)) in H.
    apply nodup_In, filter_In in H as [_ H]. discriminate.
Qed.

(** X29: with the configuration complete, a service that yields its
    results without failing, none of them with a null under
    ["@search.highlights"], gives a success: one excerpt for each result,
    in their order and with the defaults for the absent keys, and as
    sources the non-empty source documents of the results. *)
Theorem search_success (query : string) (category : option string) :
  (forall name, In name required_variables -> unset getenv name = false) ->
  let results :=
    service (search_client getenv) (search_params query category) in
  Search.failure results = None ->
  (forall d, In d (Search.yielded results) ->
             Search.doc_highlights d <> Search.NullHighlights) ->
  let r := search_expense_policy getenv service query category in
  Search.status r = "success"
  /\ Search.total_results r = Some (List.length (Search.yielded results))
  /\ map inl (Search.policy_excerpts r)
     = map excerpt_of (Search.yielded results)
  /\ forall s,
       In s (Search.sources r)
       <-> s <> ""
           /\ exists d, In d (Search.yielded results)
                        /\ Search.doc_source_document d = Some s.
Proof.
  intros Hset. cbv zeta. intros Hf Hh.
  unfold search_expense_policy, search_expense_policy_in.
  assert (U : unset getenv "AZURE_AI_SEARCH_ENDPOINT"
              || unset getenv "AZURE_CLIENT_ID"
              || unset getenv "AZURE_CLIENT_SECRET"
              || unset getenv "AZURE_TENANT_ID" = false).
  { rewrite !Hset; [ reflexivity | .. ]; unfold required_variables;
      cbn [In]; auto. }
  rewrite U. cbv zeta.
  destruct (format_results _ _) as [[[n xs] src] | e] eqn:E.
  - rewrite Hf. apply format_results_shape in E as (xs' & E & M).
    injection E as -> -> ->.
    cbn [fst Search.status Search.total_results Search.policy_excerpts
         Search.sources app Nat.add].
    split; [ reflexivity | ]. split; [ reflexivity | ].
    split; [ now rewrite M | ].
    intros s. split.
    + intros H. apply (Permutation_in _ (list_of_set_perm _)) in H.
      apply nodup_In, filter_In in H as [H T].
      apply in_map_iff in H as (d & Hd & Hin). split.
      * intros ->. discriminate.
      * exists d. split; [ exact Hin | ]. unfold source_of in Hd.
        destruct (Search.doc_source_document d); cbn [get] in Hd;
          [ now rewrite Hd | ].
        subst s. discriminate.
    + intros (Hs & d & Hin & Hd).
      apply (Permutation_in _ (Permutation_sym (list_of_set_perm _))).
      apply nodup_In, filter_In. split.
      * apply in_map_iff. exists d. split; [ | exact Hin ].
        unfold source_of. now rewrite Hd.
      * destruct s; [ now destruct Hs | reflexivity ].
  - exfalso. apply format_results_fails in E as (_ & d & Hin & Hd).
    exact (Hh d Hin Hd).
Qed.

(** X30: with the configuration complete, one result that holds a null
    under ["@search.highlights"] makes the whole search an error: the
    excerpts of the other results are lost, and the session is left as it
    was. *)
Theorem search_null_highlights_fails (query : string)
    (category : option string) (ctx : option Search.tool_context)
    (now : string) (d : Search.document) :
  (forall name, In name required_variables -> unset getenv name = false) ->
  In d (Search.yielded
          (service (search_client getenv) (search_params query category))) ->
  Search.doc_highlights d = Search.NullHighlights ->
  search_expense_policy_in getenv service query category ctx now
  = (search_error none_has_no_get, ctx).
Proof.
  intros Hset Hin Hd. unfold search_expense_policy_in.
  assert (U : unset getenv "AZURE_AI_SEARCH_ENDPOINT"
              || unset getenv "AZURE_CLIENT_ID"
              || unset getenv "AZURE_CLIENT_SECRET"
              || unset getenv "AZURE_TENANT_ID" = false).
  { rewrite !Hset; [ reflexivity | .. ]; unfold required_variables;
      cbn [In]; auto. }
  rewrite U. cbv zeta.
  now rewrite (format_results_null _ _ d Hin Hd).
Qed.

End PolicySearchRules.

(** ** Further concrete calls *)

(** X1 on [meal_150]. *)
Lemma validate_invalid_iff_meal_150 :
  Validation.is_valid (@validate_expense_data Reference.python meal_150)
  = false
  <-> (@str_lower Reference.python (get (Expense.category meal_150) "")
       = "meals"
       /\ F64.gtb (F64.of_Z 150) (F64.of_Z 100) = true)
      \/ (@str_lower Reference.python (get (Expense.category meal_150) "")
          = "lodging"
          /\ F64.gtb (F64.of_Z 150) (F64.of_Z 300) = true).
Proof.
  exact (@validate_invalid_iff Reference.python meal_150 (F64.of_Z 150)
           eq_refl).
Defined.

(** X2 on a night of 400. *)
Lemma validate_night_400 :
  let r := @validate_expense_data Reference.python
             (expense_of (F64.of_Z 400) "lodging") in
  Validation.is_valid r = false
  /\ Validation.violations r
     = ["Lodging expense of $400.0 exceeds nightly limit of $300"]
  /\ In "Section 4.1 - Accommodation Limits" (Validation.policy_references r).
Proof.
  exact (@validate_lodging_over_nightly_limit Reference.python
           (expense_of (F64.of_Z 400) "lodging") (F64.of_Z 400)
           eq_refl eq_refl eq_refl).
Defined.

(** X3 on meals of 100 and of 50. *)
Lemma validate_meal_50_after_meal_100 :
  Validation.is_valid
    (@validate_expense_data Reference.python
       (expense_of (F64.of_Z 50) "meals")) = true.
Proof.
  exact (@validate_valid_monotone Reference.python
           (expense_of (F64.of_Z 100) "meals")
           (expense_of (F64.of_Z 50) "meals")
           (F64.of_Z 100) (F64.of_Z 50)
           eq_refl eq_refl eq_refl eq_refl eq_refl).
Defined.

(** X4 on [coffee_20]: no receipt, and none required. *)
Lemma validate_coffee_20_no_universal_receipt :
  let r := @validate_expense_data Reference.python coffee_20 in
  (In "Receipt required for all expenses over $25"
      (Validation.required_documents r)
   <-> F64.gtb (F64.of_Z 20) (F64.of_Z 25) = true
       /\ get (Expense.has_receipt coffee_20) false = false)
  /\ (In "Section 2.1 - Documentation Requirements"
         (Validation.policy_references r)
      <-> F64.gtb (F64.of_Z 20) (F64.of_Z 25) = true
          /\ get (Expense.has_receipt coffee_20) false = false).
Proof.
  exact (@validate_universal_receipt_iff Reference.python coffee_20
           (F64.of_Z 20) eq_refl).
Defined.

(** X5 on [meal_150] with a date that is none. *)
Lemma validate_meal_150_dated_soon :
  @validate_expense_data Reference.python (set_date (Some "soon") meal_150)
  = @validate_expense_data Reference.python (set_date None meal_150).
Proof.
  exact (@validate_malformed_date_ignored Reference.python meal_150 "soon"
           (or_intror eq_refl)).
Defined.

(** X6 on [meal_150], a Saturday. *)
Lemma validate_meal_150_weekend :
  let r := @validate_expense_data Reference.python meal_150 in
  let r0 := @validate_expense_data Reference.python
              (set_date None meal_150) in
  Validation.is_valid r = Validation.is_valid r0
  /\ Validation.violations r = Validation.violations r0
  /\ Validation.required_documents r = Validation.required_documents r0
  /\ Validation.policy_references r = Validation.policy_references r0
  /\ (In "Weekend expense flagged for review" (Validation.warnings r)
      <-> truthy (get (Expense.date meal_150) "") = true
          /\ exists day,
               @iso_weekday Reference.python
                 (replace_Z (get (Expense.date meal_150) ""))
               = Some day /\ (5 <= day)%nat).
Proof.
  exact (@validate_weekend_warning_iff Reference.python meal_150
           (F64.of_Z 150) eq_refl).
Defined.

(** X10 on a call that falls under lodging. *)
Lemma categorize_lodging_whatever_amount :
  @categorize_expense Reference.python "Uber to hotel for lunch" "Staples"
    VNone
  = @categorize_expense Reference.python "Uber to hotel for lunch" "Staples"
      (VInt 0).
Proof.
  apply (@categorize_amount_only_for_meals Reference.python
           "Uber to hotel for lunch" "Staples" (VInt 0) VNone).
  - vm_compute. reflexivity.
  - vm_compute. discriminate.
Defined.

(** X11 on a lunch without amount. *)
Lemma categorize_lunch_without_amount :
  @categorize_expense Reference.python "lunch" "" VNone
  = {| Categorization.category := "miscellaneous";
       Categorization.subcategory := "error";
       Categorization.confidence := F64.zero;
       Categorization.error :=
         Some (@str_of_exn Reference.python (TypeError_order VNone));
       Categorization.alternative_categories := [] |}.
Proof.
  apply (@categorize_meal_needs_number Reference.python "lunch" "" VNone).
  - vm_compute. reflexivity.
  - left. reflexivity.
Defined.

(** X12 on a dinner of 100. *)
Lemma categorize_dinner_of_100 :
  Categorization.subcategory
    (@categorize_expense Reference.python "dinner with client" "" (VInt 100))
  = "business_meal"
  <-> value_gt (VInt 100) 75 = Ok true.
Proof.
  apply (@categorize_business_meal_iff Reference.python
           "dinner with client" "" (VInt 100)).
  vm_compute. reflexivity.
Defined.

(** X18 on [meal_150] and [coffee_20]. *)
Lemma summary_entries_of_meal_and_coffee :
  let c := Summary.compliance_status
             (@generate_expense_summary Reference.python
                [meal_150; coffee_20]) in
  Summary.violations c
  = @tagged_all Reference.python Validation.violations [meal_150; coffee_20]
  /\ Summary.warnings c
     = @tagged_all Reference.python Validation.warnings [meal_150; coffee_20].
Proof.
  apply (@summary_entries_tagged_in_order Reference.python
           [meal_150; coffee_20]
           (Some {| Summary.start_date := "2024-01-06";
                    Summary.end_date := "2024-01-06";
                    Summary.duration_days := 1 |})).
  - vm_compute. reflexivity.
  - vm_compute. reflexivity.
Defined.

(** X19 on [meal_150] and [coffee_20]. *)
Lemma summary_documents_of_meal_and_coffee :
  NoDup (Summary.required_documents
           (@generate_expense_summary Reference.python
              [meal_150; coffee_20]))
  /\ NoDup (Summary.policy_references
              (@generate_expense_summary Reference.python
                 [meal_150; coffee_20])).
Proof.
  destruct (@summary_documents_deduplicated Reference.python
              [meal_150; coffee_20]
              (Some {| Summary.start_date := "2024-01-06";
                       Summary.end_date := "2024-01-06";
                       Summary.duration_days := 1 |})
              eq_refl eq_refl) as (H1 & H2 & _).
  exact (conj H1 H2).
Defined.

(** X21 on [meal_150] and [coffee_20]: "Meals" and "meals" are two
    categories. *)
Lemma summary_meals_of_meal_and_coffee :
  option_map Summary.expenses
    (dict_get "meals"
       (Summary.categories
          (@generate_expense_summary Reference.python
             [meal_150; coffee_20])))
  = Some [@item_of Reference.python coffee_20].
Proof.
  exact (@summary_category_expenses Reference.python [meal_150; coffee_20]
           (Some {| Summary.start_date := "2024-01-06";
                    Summary.end_date := "2024-01-06";
                    Summary.duration_days := 1 |})
           "meals" eq_refl eq_refl).
Defined.

(** X22 on [trip]. *)
Lemma summary_date_range_of_trip :
  In "2024-01-06" (dates_of trip)
  /\ In "2024-01-08" (dates_of trip)
  /\ forall d, In d (dates_of trip) ->
               ("2024-01-06" <=? d)%string = true
               /\ (d <=? "2024-01-08")%string = true.
Proof.
  exact (@summary_date_range_bounds Reference.python trip
           {| Summary.start_date := "2024-01-06";
              Summary.end_date := "2024-01-08";
              Summary.duration_days := 3 |} eq_refl).
Defined.

(** X23 on [trip]: three days from the Saturday to the Monday. *)
Lemma summary_duration_of_trip :
  @iso_days Reference.python (replace_Z "2024-01-08")
    (replace_Z "2024-01-06")
  = Some (3 - 1).
Proof.
  exact (@summary_date_range_duration Reference.python trip
           {| Summary.start_date := "2024-01-06";
              Summary.end_date := "2024-01-08";
              Summary.duration_days := 3 |} eq_refl).
Defined.

(** X24 on [vague_trip]. *)
Lemma summary_of_vague_trip :
  exists ex,
    @generate_expense_summary Reference.python vague_trip
    = @summary_error Reference.python ex
    /\ (forallb (@converts Reference.python) vague_trip = true ->
        ex = Error_datetime "tomorrow" "today").
Proof.
  apply (@summary_unparseable_dates_abort Reference.python vague_trip
           "today" "tomorrow").
  - vm_compute. lia.
  - right. left. reflexivity.
  - left. reflexivity.
  - intros d [<- | [<- | []]]; split; reflexivity.
  - vm_compute. reflexivity.
Defined.

(** X25 on [trip]. *)
Lemma summary_statistics_of_trip :
  let st := {| Summary.average_expense := F64.of_Z 225;
               Summary.largest_expense := F64.of_Z 400;
               Summary.smallest_expense := F64.of_Z 50;
               Summary.most_common_category := "lodging" |} in
  Summary.average_expense st
  = F64.div
      (Summary.total_amount (@generate_expense_summary Reference.python trip))
      (F64.of_Z (Z.of_nat (List.length trip)))
  /\ In (Summary.largest_expense st) (@amounts Reference.python trip)
  /\ In (Summary.smallest_expense st) (@amounts Reference.python trip)
  /\ forall a, In a (@amounts Reference.python trip) ->
               F64.leb (Summary.smallest_expense st) a = true
               /\ F64.leb a (Summary.largest_expense st) = true.
Proof.
  apply (@summary_statistics_bounds Reference.python trip).
  - vm_compute. reflexivity.
  - vm_compute. reflexivity.
Defined.

(** X26 on [trip]: of two categories with one expense each, the first. *)
Lemma summary_most_common_of_trip :
  exists b,
    In ("lodging", b)
       (Summary.categories (@generate_expense_summary Reference.python trip))
    /\ forall c b',
         In (c, b')
            (Summary.categories
               (@generate_expense_summary Reference.python trip)) ->
         (Summary.count b' <= Summary.count b)%nat.
Proof.
  apply (@summary_most_common_category Reference.python trip
           {| Summary.average_expense := F64.of_Z 225;
              Summary.largest_expense := F64.of_Z 400;
              Summary.smallest_expense := F64.of_Z 50;
              Summary.most_common_category := "lodging" |}).
  vm_compute. reflexivity.
Defined.

Lemma example_env_complete (name : string) :
  In name required_variables -> unset example_env name = false.
Proof.
  intros [<- | [<- | [<- | [<- | []]]]]; reflexivity.
Defined.

(** X29 on the example service. *)
Lemma search_of_example_service :
  let r := @search_expense_policy Reference.python example_env
             example_service "meal limit" (Some "meals") in
  Search.status r = "success"
  /\ Search.total_results r = Some 2%nat
  /\ map inl (Search.policy_excerpts r)
     = map excerpt_of [example_document "1"; example_document "2"]
  /\ forall s,
       In s (Search.sources r)
       <-> s <> ""
           /\ exists d,
                In d [example_document "1"; example_document "2"]
                /\ Search.doc_source_document d = Some s.
Proof.
  apply (@search_success Reference.python example_env example_service
           "meal limit" (Some "meals") example_env_complete eq_refl).
  intros d [<- | [<- | []]]; discriminate.
Defined.

(** X30 on the service whose second result has no highlights. *)
Lemma search_of_null_highlights_service :
  @search_expense_policy_in Reference.python example_env
    null_highlights_service "lodging limit" None None "2024-01-08T09:00:00"
  = (search_error none_has_no_get, None).
Proof.
  apply (@search_null_highlights_fails Reference.python example_env
           null_highlights_service "lodging limit" None None
           "2024-01-08T09:00:00"
           {| Search.doc_content := Some "Lodging is limited to $300.";
              Search.doc_category := Some "lodging";
              Search.doc_highlights := Search.NullHighlights;
              Search.doc_score := None;
              Search.doc_chunk_id := Some "2";
              Search.doc_source_document := Some "policy.pdf" |}
           example_env_complete).
  - right. left. reflexivity.
  - reflexivity.
Defined.
